(** * Social-SEO-AI: the request orchestration layer of [geminiService.ts]
      and the validation of [App.tsx], embedded in Rocq.

    The development follows the TypeScript sources function by function:
    JavaScript strings are sequences of UTF-16 code units, thrown values
    are explicit results, and the calls to the outside world (file reader,
    file upload API, generation API) go through one record of oracles that
    a state-and-exception monad threads. *)

From Stdlib Require Import List NArith ZArith Bool Lia String Ascii.
Import ListNotations.

Set Implicit Arguments.
Set Warnings "-register-all".

(* ===================================================================== *)
(** * JavaScript strings *)
(* ===================================================================== *)

(** A JavaScript string is a finite sequence of 16-bit code units. *)
Definition jsstring := list N.

(** The code units of an ASCII literal of the source. *)
Definition str (s : string) : jsstring :=
  map N_of_ascii (list_ascii_of_string s).
Arguments str s%_string.

Definition dquote : jsstring := [34%N].
Definition nl : jsstring := [10%N].
Definition backtick : N := 96%N.

Fixpoint eqb_str (a b : jsstring) : bool :=
  match a, b with
  | [], [] => true
  | x :: a', y :: b' => N.eqb x y && eqb_str a' b'
  | _, _ => false
  end.

(** [s.startsWith(p)] *)
Fixpoint startsWith (p s : jsstring) : bool :=
  match p, s with
  | [], _ => true
  | x :: p', y :: s' => N.eqb x y && startsWith p' s'
  | _ :: _, [] => false
  end.

(** The rest of [s] after the prefix [p], when [s] starts with [p]. *)
Fixpoint stripPrefix (p s : jsstring) : option jsstring :=
  match p, s with
  | [], _ => Some s
  | x :: p', y :: s' => if N.eqb x y then stripPrefix p' s' else None
  | _ :: _, [] => None
  end.

Definition stripSuffix (p s : jsstring) : option jsstring :=
  option_map (@rev N) (stripPrefix (rev p) (rev s)).

(** [s.includes(p)]: [p] occurs somewhere in [s]. *)
Fixpoint includes (s p : jsstring) : bool :=
  startsWith p s ||
  match s with
  | [] => false
  | _ :: s' => includes s' p
  end.

Fixpoint dropWhile (A : Type) (f : A -> bool) (l : list A) : list A :=
  match l with
  | [] => []
  | x :: l' => if f x then dropWhile f l' else l
  end.

Definition dropWhileEnd (A : Type) (f : A -> bool) (l : list A) : list A :=
  rev (dropWhile f (rev l)).

(** ECMAScript [WhiteSpace] and [LineTerminator] code points: what
    [String.prototype.trim] removes and what the regular expression class
    [\s] matches. *)
Definition isWhiteSpace (c : N) : bool :=
  (N.leb 9 c && N.leb c 13) || N.eqb c 32 || N.eqb c 160 || N.eqb c 5760 ||
  (N.leb 8192 c && N.leb c 8202) || N.eqb c 8232 || N.eqb c 8233 ||
  N.eqb c 8239 || N.eqb c 8287 || N.eqb c 12288 || N.eqb c 65279.

(** [s.trim()] *)
Definition trim (s : jsstring) : jsstring :=
  dropWhileEnd isWhiteSpace (dropWhile isWhiteSpace s).

(** [l.join(sep)] on an array of strings. *)
Fixpoint join (sep : jsstring) (l : list jsstring) : jsstring :=
  match l with
  | [] => []
  | [x] => x
  | x :: l' => x ++ sep ++ join sep l'
  end.

(** [s.split(',')]: the pieces of [s] between occurrences of the code unit
    [sep]; never empty. *)
Fixpoint split (sep : N) (s : jsstring) : list jsstring :=
  match s with
  | [] => [[]]
  | c :: s' =>
      if N.eqb c sep then [] :: split sep s'
      else match split sep s' with
           | [] => [[c]]
           | p :: ps => (c :: p) :: ps
           end
  end.

(** Truthiness of a string: only the empty string is falsy. *)
Definition nonempty (s : jsstring) : bool :=
  match s with [] => false | _ :: _ => true end.

(** Truthiness of an optional string field: [undefined] and [''] are falsy. *)
Definition truthy_field (o : option jsstring) : bool :=
  match o with Some s => nonempty s | None => false end.

(** [o || d] on an optional string field. *)
Definition or_default (o : option jsstring) (d : jsstring) : jsstring :=
  match o with
  | Some s => if nonempty s then s else d
  | None => d
  end.

(** Decimal rendering of a number, as a template literal interpolates a
    non-negative integer. *)
Fixpoint digits_fuel (fuel : nat) (n : N) (acc : jsstring) : jsstring :=
  match fuel with
  | O => acc
  | S fuel' =>
      let acc' := (48 + N.modulo n 10)%N :: acc in
      if N.ltb n 10 then acc' else digits_fuel fuel' (N.div n 10) acc'
  end.

Definition decimal (n : N) : jsstring :=
  digits_fuel (S (N.to_nat (N.log2 n))) n [].

(* ===================================================================== *)
(** * Response cleanup: [cleanJson] *)
(* ===================================================================== *)

(** [s.replace(/^p\s*/, '')] for a literal [p]: when [s] starts with [p],
    [p] and the white space that follows it are removed; otherwise [s] is
    unchanged. *)
Definition replace_leading (p s : jsstring) : jsstring :=
  match stripPrefix p s with
  | Some r => dropWhile isWhiteSpace r
  | None => s
  end.

(** [s.replace(/\s*```$/, '')]: the pattern is anchored at the end of the
    string, so a match exists exactly when [s] ends with three backticks,
    and the leftmost match starts at the beginning of the white space run
    that precedes them. *)
Definition replace_trailing_fence (s : jsstring) : jsstring :=
  match stripSuffix (str "```") s with
  | Some r => dropWhileEnd isWhiteSpace r
  | None => s
  end.

Definition cleanJson (text : jsstring) : jsstring :=
  let clean := trim text in
  if startsWith (str "```json") clean then
    replace_trailing_fence (replace_leading (str "```json") clean)
  else if startsWith (str "```") clean then
    replace_trailing_fence (replace_leading (str "```") clean)
  else clean.

(* ===================================================================== *)
(** * JSON values and [JSON.parse] *)
(* ===================================================================== *)

(** A JSON number is kept as the decimal it denotes,
    [(-1)^neg * mant * 10^exp10]; the double that [JSON.parse] returns is
    the rounding of that decimal, a function of this record. *)
Record jnumber := { neg : bool; mant : N; exp10 : Z }.

Inductive value :=
| JNull
| JBool (b : bool)
| JNum (n : jnumber)
| JStr (s : jsstring)
| JArr (l : list value)
| JObj (m : list (jsstring * value)).

Inductive token :=
| TLBrace | TRBrace | TLBracket | TRBracket | TComma | TColon
| TNull | TTrue | TFalse
| TNumber (n : jnumber)
| TString (s : jsstring).

(** JSON white space: space, tab, line feed, carriage return. *)
Definition isJsonWs (c : N) : bool :=
  N.eqb c 32 || N.eqb c 9 || N.eqb c 10 || N.eqb c 13.

Inductive numstate :=
| NMinus   (* after the sign: a digit must follow *)
| NZero    (* integer part is a single 0 *)
| NInt     (* integer part 1-9 followed by digits *)
| NDot     (* after the point: a digit must follow *)
| NFrac
| NE       (* after e or E: a sign or a digit must follow *)
| NESign   (* after the sign of the exponent: a digit must follow *)
| NExp.

Record numacc := {
  n_neg : bool; n_mant : N; n_frac : N; n_eneg : bool; n_exp : N }.

Definition numacc0 (sg : bool) (d : N) : numacc :=
  {| n_neg := sg; n_mant := d; n_frac := 0; n_eneg := false; n_exp := 0 |}.

Definition num_accepting (q : numstate) : bool :=
  match q with
  | NZero | NInt | NFrac | NExp => true
  | NMinus | NDot | NE | NESign => false
  end.

Definition num_finish (a : numacc) : jnumber :=
  {| neg := n_neg a;
     mant := n_mant a;
     exp10 := ((if n_eneg a then - Z.of_N (n_exp a) else Z.of_N (n_exp a))
               - Z.of_N (n_frac a))%Z |}.

Inductive lstate :=
| LDefault
| LLiteral (rest : jsstring) (t : token)
| LNumber (q : numstate) (a : numacc)
| LString (acc : jsstring)                 (* code units so far, reversed *)
| LEscape (acc : jsstring)                 (* after a backslash *)
| LUnicode (acc : jsstring) (k : nat) (code : N).  (* k hex digits to come *)

Definition isDigit (c : N) : bool := N.leb 48 c && N.leb c 57.

Definition hexval (c : N) : option N :=
  if N.leb 48 c && N.leb c 57 then Some (c - 48)%N
  else if N.leb 97 c && N.leb c 102 then Some (c - 87)%N
  else if N.leb 65 c && N.leb c 70 then Some (c - 55)%N
  else None.

Definition default_step (c : N) : option (list token * lstate) :=
  if isJsonWs c then Some ([], LDefault)
  else if N.eqb c 123 then Some ([TLBrace], LDefault)
  else if N.eqb c 125 then Some ([TRBrace], LDefault)
  else if N.eqb c 91 then Some ([TLBracket], LDefault)
  else if N.eqb c 93 then Some ([TRBracket], LDefault)
  else if N.eqb c 44 then Some ([TComma], LDefault)
  else if N.eqb c 58 then Some ([TColon], LDefault)
  else if N.eqb c 34 then Some ([], LString [])
  else if N.eqb c 45 then Some ([], LNumber NMinus (numacc0 true 0))
  else if N.eqb c 48 then Some ([], LNumber NZero (numacc0 false 0))
  else if isDigit c then Some ([], LNumber NInt (numacc0 false (c - 48)))
  else if N.eqb c 116 then Some ([], LLiteral (str "rue") TTrue)
  else if N.eqb c 102 then Some ([], LLiteral (str "alse") TFalse)
  else if N.eqb c 110 then Some ([], LLiteral (str "ull") TNull)
  else None.

(** The number ends before [c]: its token is emitted and [c] is read from
    the default state. *)
Definition num_end (q : numstate) (a : numacc) (c : N)
  : option (list token * lstate) :=
  if num_accepting q then
    match default_step c with
    | Some (ts, q') => Some (TNumber (num_finish a) :: ts, q')
    | None => None
    end
  else None.

Definition push_mant (a : numacc) (d : N) (frac : bool) : numacc :=
  {| n_neg := n_neg a; n_mant := (n_mant a * 10 + d)%N;
     n_frac := if frac then (n_frac a + 1)%N else n_frac a;
     n_eneg := n_eneg a; n_exp := n_exp a |}.

Definition push_exp (a : numacc) (d : N) : numacc :=
  {| n_neg := n_neg a; n_mant := n_mant a; n_frac := n_frac a;
     n_eneg := n_eneg a; n_exp := (n_exp a * 10 + d)%N |}.

Definition set_eneg (a : numacc) (b : bool) : numacc :=
  {| n_neg := n_neg a; n_mant := n_mant a; n_frac := n_frac a;
     n_eneg := b; n_exp := n_exp a |}.

Definition num_step (q : numstate) (a : numacc) (c : N)
  : option (list token * lstate) :=
  if isDigit c then
    let d := (c - 48)%N in
    match q with
    | NMinus =>
        if N.eqb d 0 then Some ([], LNumber NZero a)
        else Some ([], LNumber NInt (push_mant a d false))
    | NZero => num_end q a c
    | NInt => Some ([], LNumber NInt (push_mant a d false))
    | NDot | NFrac => Some ([], LNumber NFrac (push_mant a d true))
    | NE | NESign | NExp => Some ([], LNumber NExp (push_exp a d))
    end
  else if N.eqb c 46 then
    match q with
    | NZero | NInt => Some ([], LNumber NDot a)
    | _ => None
    end
  else if N.eqb c 101 || N.eqb c 69 then
    match q with
    | NZero | NInt | NFrac => Some ([], LNumber NE a)
    | _ => None
    end
  else if N.eqb c 43 || N.eqb c 45 then
    match q with
    | NE => Some ([], LNumber NESign (set_eneg a (N.eqb c 45)))
    | _ => num_end q a c
    end
  else num_end q a c.

Definition escape_char (c : N) : option N :=
  if N.eqb c 34 then Some 34%N          (* quotation mark *)
  else if N.eqb c 92 then Some 92%N     (* reverse solidus *)
  else if N.eqb c 47 then Some 47%N     (* solidus *)
  else if N.eqb c 98 then Some 8%N      (* b *)
  else if N.eqb c 102 then Some 12%N    (* f *)
  else if N.eqb c 110 then Some 10%N    (* n *)
  else if N.eqb c 114 then Some 13%N    (* r *)
  else if N.eqb c 116 then Some 9%N     (* t *)
  else None.

Definition lex_step (q : lstate) (c : N) : option (list token * lstate) :=
  match q with
  | LDefault => default_step c
  | LLiteral rest t =>
      match rest with
      | [] => None
      | e :: rest' =>
          if N.eqb c e then
            match rest' with
            | [] => Some ([t], LDefault)
            | _ :: _ => Some ([], LLiteral rest' t)
            end
          else None
      end
  | LNumber q a => num_step q a c
  | LString acc =>
      if N.eqb c 34 then Some ([TString (rev acc)], LDefault)
      else if N.eqb c 92 then Some ([], LEscape acc)
      else if N.ltb c 32 then None
      else Some ([], LString (c :: acc))
  | LEscape acc =>
      if N.eqb c 117 then Some ([], LUnicode acc 4 0)
      else match escape_char c with
           | Some x => Some ([], LString (x :: acc))
           | None => None
           end
  | LUnicode acc k code =>
      match hexval c, k with
      | Some h, 1%nat => Some ([], LString ((code * 16 + h)%N :: acc))
      | Some h, S k' => Some ([], LUnicode acc k' (code * 16 + h)%N)
      | _, _ => None
      end
  end.

(** What the lexer emits when the text ends in state [q]. *)
Definition lex_finish (q : lstate) : option (list token) :=
  match q with
  | LDefault => Some []
  | LNumber q a =>
      if num_accepting q then Some [TNumber (num_finish a)] else None
  | _ => None
  end.

Fixpoint lex_from (q : lstate) (s : jsstring) : option (list token) :=
  match s with
  | [] => lex_finish q
  | c :: s' =>
      match lex_step q c with
      | Some (ts, q') => option_map (app ts) (lex_from q' s')
      | None => None
      end
  end.

Definition lex (s : jsstring) : option (list token) := lex_from LDefault s.

(** The parser is a pushdown automaton over the tokens: the stack holds
    the arrays and objects that are still open. *)
Inductive frame :=
| FArr (done : list value)                           (* reversed *)
| FObj (done : list (jsstring * value)) (k : jsstring).

Inductive pstate :=
| PValue (st : list frame)            (* a value must follow *)
| PArrFirst (st : list frame)         (* after [ : a value or ] *)
| PObjFirst (st : list frame)         (* after { : a key or } *)
| PObjKey (done : list (jsstring * value)) (st : list frame)
| PObjColon (done : list (jsstring * value)) (k : jsstring) (st : list frame)
| PAfterArr (done : list value) (st : list frame)
| PAfterObj (done : list (jsstring * value)) (st : list frame)
| PDone (v : value).

Definition complete (v : value) (st : list frame) : pstate :=
  match st with
  | [] => PDone v
  | FArr done :: st' => PAfterArr (v :: done) st'
  | FObj done k :: st' => PAfterObj ((k, v) :: done) st'
  end.

Definition value_step (st : list frame) (t : token) : option pstate :=
  match t with
  | TNull => Some (complete JNull st)
  | TTrue => Some (complete (JBool true) st)
  | TFalse => Some (complete (JBool false) st)
  | TNumber n => Some (complete (JNum n) st)
  | TString s => Some (complete (JStr s) st)
  | TLBracket => Some (PArrFirst st)
  | TLBrace => Some (PObjFirst st)
  | TRBrace | TRBracket | TComma | TColon => None
  end.

Definition parse_step (p : pstate) (t : token) : option pstate :=
  match p with
  | PValue st => value_step st t
  | PArrFirst st =>
      match t with
      | TRBracket => Some (complete (JArr []) st)
      | _ => value_step (FArr [] :: st) t
      end
  | PObjFirst st =>
      match t with
      | TRBrace => Some (complete (JObj []) st)
      | TString k => Some (PObjColon [] k st)
      | _ => None
      end
  | PObjKey done st =>
      match t with
      | TString k => Some (PObjColon done k st)
      | _ => None
      end
  | PObjColon done k st =>
      match t with
      | TColon => Some (PValue (FObj done k :: st))
      | _ => None
      end
  | PAfterArr done st =>
      match t with
      | TComma => Some (PValue (FArr done :: st))
      | TRBracket => Some (complete (JArr (rev done)) st)
      | _ => None
      end
  | PAfterObj done st =>
      match t with
      | TComma => Some (PObjKey done st)
      | TRBrace => Some (complete (JObj (rev done)) st)
      | _ => None
      end
  | PDone _ => None
  end.

Fixpoint parse_from (p : pstate) (ts : list token) : option value :=
  match ts with
  | [] => match p with PDone v => Some v | _ => None end
  | t :: ts' =>
      match parse_step p t with
      | Some p' => parse_from p' ts'
      | None => None
      end
  end.

(** [JSON.parse(text)]: [None] stands for the [SyntaxError] it throws. *)
Definition JSON_parse (text : jsstring) : option value :=
  match lex text with
  | Some ts => parse_from (PValue []) ts
  | None => None
  end.

(** ** Values at run time: property access and truthiness *)

(** [JSON.parse] keeps the last of several members with one key. *)
Fixpoint lookup_last (k : jsstring) (m : list (jsstring * value))
  : option value :=
  match m with
  | [] => None
  | (k', v) :: m' =>
      match lookup_last k m' with
      | Some v' => Some v'
      | None => if eqb_str k k' then Some v else None
      end
  end.

(** The double nearest to the decimal [mant * 10^exp10] is zero exactly
    when the decimal is at most [2^-1075], half of the least positive
    double (round to nearest, ties to even). *)
Definition rounds_to_zero (n : jnumber) : bool :=
  N.eqb (mant n) 0 ||
  (Z.ltb (exp10 n) 0 &&
   Z.leb (Z.of_N (mant n) * 2 ^ 1075) (10 ^ (- exp10 n))).

(** JavaScript truthiness of a parsed value. *)
Definition truthy (v : value) : bool :=
  match v with
  | JNull => false
  | JBool b => b
  | JNum n => negb (rounds_to_zero n)
  | JStr s => nonempty s
  | JArr _ | JObj _ => true
  end.

(** Truthiness of the result of a property access; [None] is [undefined]. *)
Definition truthy_opt (o : option value) : bool :=
  match o with Some v => truthy v | None => false end.

(** [o || d] where [o] is the result of a property access. *)
Definition or_else (o : option value) (d : value) : value :=
  match o with
  | Some v => if truthy v then v else d
  | None => d
  end.

(* ===================================================================== *)
(** * Types of the application ([types.ts]) *)
(* ===================================================================== *)

(** The four operating modes the sources branch on. *)
Inductive AppMode := GENERATION | REFINE | COMPETITOR_SPY | TREND_HUNTER.

Definition AppMode_eqb (a b : AppMode) : bool :=
  match a, b with
  | GENERATION, GENERATION | REFINE, REFINE
  | COMPETITOR_SPY, COMPETITOR_SPY | TREND_HUNTER, TREND_HUNTER => true
  | _, _ => false
  end.

(** [Platform] is a string enumeration: a platform is its display string,
    which the prompts interpolate and [TREND_HUNTER_INSTRUCTION] compares
    with ['Twitter (X)']. *)
Definition Platform := jsstring.

(** A browser [File]: the fields the sources read. *)
Record File := {
  file_name : jsstring;
  file_type : jsstring;
  file_size : N }.

(** An entry of the file list of the page; [handleAnalyze] reads [file]. *)
Record FileInput := { file : File; previewUrl : jsstring }.

(** The [config] argument of [analyzeContent]: every field is optional. *)
Record Config := {
  goal : option jsstring;
  style : option jsstring;
  keywords : option jsstring;
  originalText : option jsstring;
  geography : option jsstring;
  targetAudience : option jsstring;
  targetLanguage : option jsstring;
  demographics : option jsstring;
  enableLiveTrends : option bool;
  brandGuidelines : option jsstring;
  niche : option jsstring }.

Definition truthy_flag (o : option bool) : bool :=
  match o with Some b => b | None => false end.

(* ===================================================================== *)
(** * Prompt templates ([constants.ts]) *)
(* ===================================================================== *)

Definition quoted (s : jsstring) : jsstring := dquote ++ s ++ dquote.

(** A template literal, line by line. *)
Definition template (ls : list jsstring) : jsstring := join nl ls.

Definition SYSTEM_INSTRUCTION : jsstring := template [
  [];
  str "You are SocialSEO AI, the world's most advanced Social Media Algorithm Architect & Behavioral Psychologist (Identity: v.Andromeda Update).";
  str "Your Mission: Ingest multi-modal content to generate scientifically optimized viral metadata.";
  str "Standard: Zero hallucination. Maximum algorithmic relevance. Deep psychological adherence.";
  [];
  str "THE HOOK LIBRARY (Strict Definitions):";
  str "1. Intriguing Questions: Questions that make the audience reflect on their own experiences.";
  str "2. Bold/Startling Statements: Unexpected claims or strong stances.";
  str "3. Compelling Visuals: First-frame dominance using bold text overlay or surprising visual action.";
  str "4. Storytelling Snippets: Starting in media res.";
  str "5. Urgency/Scarcity: Creating FOMO.";
  str "6. Problem/Solution: Direct addressing of pain points.";
  str "7. Authority: Leveraging expertise.";
  [];
  str "PLATFORM ARCHITECTURE:";
  str "- Instagram: Reels (Loopable, Keyword-rich hook) / Carousels (Slide structure).";
  str "- TikTok: Hyper-casual, slang-heavy, SEO keywords in first 3s.";
  str "- YouTube: Shorts (<50 chars title) / Long-form (CTR title, Chapters).";
  str "- LinkedIn: Bro-etry formatting, professional but vulnerable.";
  str "- Twitter (X): Focus on Threads (Hook tweet -> Body tweets). Tone: Intellectual, contrarian, or news-focused. Strict character limits per tweet. Use highly specific 'Trending Topics'.";
  str "- Facebook: Focus on Community & Storytelling. Tone: Warmer, slightly longer form, optimized for shares in Groups. Visuals: 'Meme-style' images or 'Text-on-background' posts.";
  [];
  str "BRAND GUARD:";
  str "If brand guidelines are provided, treat them as immutable laws. Never use forbidden words. Match tone exactly.";
  [];
  str "OUTPUT FORMAT:";
  str "You must return a raw JSON object based on the requested schema. Do not include markdown formatting like ```json.";
  [] ].

Definition TWITTER_X : Platform := str "Twitter (X)".

(** The line that [TREND_HUNTER_INSTRUCTION] adds for Twitter (X). *)
Definition TWITTER_SEARCH_STEP : jsstring :=
  str "STEP 1b: Specifically SEARCH for " ++ quoted (str "Trending topics on Twitter today")
  ++ str " and " ++ quoted (str "Viral discussions on X") ++ str ".".

(** The [platform] parameter is optional: [None] is [undefined]. *)
Definition TREND_HUNTER_INSTRUCTION (currentDate : jsstring)
    (platform : option Platform) : jsstring := template [
  [];
  str "**LIVE TREND MODE ENABLED**";
  str "STEP 1: You have access to Google Search. Before analyzing the video, SEARCH for "
    ++ quoted (str "Current viral trends " ++ currentDate) ++ str " and "
    ++ quoted (str "Trending audio for [Niche] on Instagram/TikTok") ++ str ".";
  match platform with
  | Some p => if eqb_str p TWITTER_X then TWITTER_SEARCH_STEP else []
  | None => []
  end;
  str "STEP 2: Use this live data to suggest a specific trending audio or challenge format that fits the user's video.";
  str "STEP 3: Mention the trend name in the reasoning section (specifically in the 'trendDetected' field).";
  [] ].

Definition BRAND_GUARD_INSTRUCTION (brandText : jsstring) : jsstring :=
  template [
  [];
  str "**BRAND GUARD ACTIVE**";
  str "The user has provided strict Brand Guidelines. You MUST adhere to the following rules:";
  quoted brandText;
  str "- If the generated content violates these rules, the analysis is a failure.";
  str "- Adapt all specific stylistic choices to match this brand voice.";
  [] ].

Module MODE_PROMPTS.

Definition GENERATION (platform : Platform) (goal style targeting : jsstring)
  : jsstring := template [
  [];
  str "    MODE A: GENERATION (The Creator).";
  str "    Target Platform: " ++ platform ++ str ".";
  str "    User Goal: " ++ goal ++ str ".";
  str "    Desired Style: " ++ style ++ str ".";
  str "    " ++ targeting;
  str "    ";
  str "    Analyze the provided input (Image/Video). ";
  str "    Identify the visual hook, select a viral style, write the caption, and generate SEO.";
  str "    ";
  str "    If Platform is Twitter (X): Structure the 'caption' as a Thread (Tweet 1 [Hook] "
    ++ nl ++ nl ++ str " Tweet 2... etc).";
  str "    If Platform is Facebook: Optimize for 'Shareability' and community discussion.";
  str "    ";
  str "    Return a JSON object matching the AnalysisResult interface.";
  str "  " ].

Definition REFINE (originalText keywords targeting : jsstring) : jsstring :=
  template [
  [];
  str "    MODE B: REFINE DRAFT (The Editor).";
  str "    Context/Keywords: " ++ keywords ++ str ".";
  str "    Original Draft: " ++ quoted originalText ++ str ".";
  str "    " ++ targeting;
  str "    ";
  str "    Action: Semantic Weaving. Insert high-volume keywords naturally without disrupting narrative flow.";
  str "    Maintain original meaning 100%. Polish grammar. Enhance readability score.";
  str "    Return a JSON object where the 'strategy.caption' is the refined text, and fill other fields based on analysis of the text.";
  str "  " ].

Definition COMPETITOR_SPY (count : N) (targeting : jsstring) : jsstring :=
  template [
  [];
  str "    MODE C: COMPETITOR SPY (The Reverse Engineer).";
  str "    Analyzing " ++ decimal count ++ str " inputs as a " ++ quoted (str "Data Set") ++ str ".";
  str "    " ++ targeting;
  str "    Do NOT analyze individually. Look for patterns.";
  str "    Deconstruct the " ++ quoted (str "Viral DNA") ++ str ": Pacing, Color Psychology, Hook ID.";
  str "    ";
  str "    Return a JSON object. ";
  str "    - In 'visualAudit.summary', describe the common pattern found across all inputs.";
  str "    - In 'strategy.caption', provide a fill-in-the-blank Viral Template tailored to the target audience.";
  str "    - In 'competitorInsights', fill the object with 'visualTheme', 'ctaStrategy', and 'formula'.";
  str "  " ].

Definition TREND_HUNTER (niche currentDate : jsstring) : jsstring :=
  template [
  [];
  str "    MODE: TREND HUNTER.";
  str "    Niche: " ++ niche ++ str ".";
  str "    Date: " ++ currentDate ++ str ".";
  str "    ";
  str "    STEP 1: Search Google Trends, Twitter Trending, and TikTok Creative Center for the absolute latest news and trends in the "
    ++ niche ++ str " niche RIGHT NOW.";
  str "    STEP 2: Select 5 specific, high-potential content ideas.";
  str "    ";
  str "    Return a JSON object containing an array called " ++ quoted (str "trends") ++ str ".";
  str "    Structure:";
  str "    {";
  str "      " ++ quoted (str "trends") ++ str ": [";
  str "        {";
  str "          " ++ quoted (str "headline") ++ str ": " ++ quoted (str "Trend Name") ++ str ",";
  str "          " ++ quoted (str "whyItsHot") ++ str ": "
    ++ quoted (str "1 sentence explanation of why it is viral now.") ++ str ",";
  str "          " ++ quoted (str "contentIdea") ++ str ": "
    ++ quoted (str "Specific instruction on how to apply this to the niche.");
  str "        },";
  str "        ... (5 items)";
  str "      ]";
  str "    }";
  str "  " ].

End MODE_PROMPTS.

(* ===================================================================== *)
(** * The outside world of [geminiService.ts] *)
(* ===================================================================== *)

(** A thrown value: the two properties the handlers read.  A
    [ProgressEvent] of a failed file read has neither. *)
Record thrown := {
  thrown_name : option jsstring;
  thrown_message : option jsstring }.

(** [new Error(msg)] *)
Definition Error (msg : jsstring) : thrown :=
  {| thrown_name := Some (str "Error"); thrown_message := Some msg |}.

(** A file of the Files API, as [ai.files.upload] and [ai.files.get]
    return it; every property is optional. *)
Record RemoteFile := {
  rf_name : option jsstring;
  rf_state : option jsstring;
  rf_uri : option jsstring;
  rf_mimeType : option jsstring }.

(** One element of [contents.parts]. *)
Inductive Part :=
| TextPart (text : jsstring)
| InlineData (data : jsstring) (mimeType : jsstring)
| FileData (fileUri : option jsstring) (mimeType : option jsstring).

(** The [Type] enumeration of the SDK, folded into the schema tree. *)
Inductive Schema :=
| OBJECT (properties : list (jsstring * Schema))
         (required : option (list jsstring))
| STRING
| NUMBER
| ARRAY (items : Schema).

Inductive Tool := googleSearch.

(** [generateConfig]: a property that is never assigned is [None]. *)
Record GenerateConfig := {
  systemInstruction : jsstring;
  thinkingBudget : N;
  tools : option (list Tool);
  responseMimeType : option jsstring;
  responseSchema : option Schema }.

Record Request := {
  model : jsstring;
  parts : list Part;
  config : GenerateConfig }.

(** What the run has done to the outside world, latest first. *)
Inductive event :=
| EvUpload (f : File)
| EvGet (name : option jsstring)
| EvSleep (ms : N)
| EvRead (f : File)
| EvGenerate (r : Request)
| EvConsoleError (label : jsstring) (e : thrown).

Definition history := list event.

(** The collaborators, each a function of what happened so far. *)
Record Env := {
  (** [new Date().toLocaleString('default', {month: 'long', year: 'numeric'})] *)
  currentDate : jsstring;
  (** [ai.files.upload] *)
  files_upload : history -> File -> thrown + RemoteFile;
  (** [ai.files.get] *)
  files_get : history -> option jsstring -> thrown + RemoteFile;
  (** [FileReader.readAsDataURL]: the data URL, or the rejection *)
  readAsDataURL : history -> File -> thrown + jsstring;
  (** [ai.models.generateContent], giving [response.text] *)
  generateContent : history -> Request -> thrown + option jsstring;
  (** the [SyntaxError] of [JSON.parse] on a text it rejects *)
  syntaxError : jsstring -> thrown;
  (** the [TypeError] of reading a property of [null] *)
  nullReadError : jsstring -> thrown }.

(** ** The monad: state of the world and exceptions.  An exception keeps
    the effects that happened before it. *)

Inductive result (A : Type) :=
| Ok (a : A)
| Throw (e : thrown).
Arguments Ok {A} a.
Arguments Throw {A} e.

Definition M (A : Type) := history -> result A * history.

Definition ret (A : Type) (a : A) : M A := fun h => (Ok a, h).

Definition bind (A B : Type) (m : M A) (k : A -> M B) : M B :=
  fun h =>
    match m h with
    | (Ok a, h') => k a h'
    | (Throw e, h') => (Throw e, h')
    end.

Definition throw (A : Type) (e : thrown) : M A := fun h => (Throw e, h).
Arguments throw {A} e.

(** [try { m } catch (e) { handler e }] *)
Definition try_catch (A : Type) (m : M A) (handler : thrown -> M A) : M A :=
  fun h =>
    match m h with
    | (Ok a, h') => (Ok a, h')
    | (Throw e, h') => handler e h'
    end.

(** An awaited call of a collaborator: the call is recorded, then its
    answer is returned or thrown. *)
Definition call (A : Type) (ev : event) (answer : history -> thrown + A)
  : M A :=
  fun h =>
    match answer h with
    | inr a => (Ok a, ev :: h)
    | inl e => (Throw e, ev :: h)
    end.

(** An effect without an answer. *)
Definition emit (ev : event) : M unit := fun h => (Ok tt, ev :: h).

(** A pure step that can throw. *)
Definition lift (A : Type) (r : thrown + A) : M A :=
  match r with
  | inr a => ret a
  | inl e => throw e
  end.

Declare Scope js_scope.
Delimit Scope js_scope with js.
Notation "x <- m ;; k" := (bind m (fun x => k))
  (at level 61, m at next level, right associativity) : js_scope.
Notation "m ;;; k" := (bind m (fun _ => k))
  (at level 61, right associativity) : js_scope.
Local Open Scope js_scope.

(** [o === 'lit'] for an optional string property. *)
Definition is_string (o : option jsstring) (lit : jsstring) : bool :=
  match o with Some s => eqb_str s lit | None => false end.

(** [e.message?.includes(p)] *)
Definition message_includes (e : thrown) (p : jsstring) : bool :=
  match thrown_message e with
  | Some m => includes m p
  | None => false
  end.

(* ===================================================================== *)
(** * [geminiService.ts] *)
(* ===================================================================== *)

Section Service.

Variable env : Env.

Definition MODEL_NAME : jsstring := str "gemini-2.5-flash".

(** ** [fileToPart] *)
Definition fileToPart (f : File) : M Part :=
  result <- call (EvRead f) (fun h => readAsDataURL env h f) ;;
  let base64String :=
    if includes result (str ",") then nth 1 (split 44 result) [] else result in
  ret (InlineData base64String (file_type f)).

(** ** [uploadLargeFile] *)

(** The polling loop [while (fileInfo.state === 'PROCESSING' && attempts <
    30)]; [budget] is [30 - attempts], the number of rounds still allowed. *)
Fixpoint poll (budget : nat) (name : option jsstring) (fileInfo : RemoteFile)
  : M RemoteFile :=
  match budget with
  | O => ret fileInfo
  | S budget' =>
      if is_string (rf_state fileInfo) (str "PROCESSING") then
        emit (EvSleep 2000) ;;;
        fileInfo' <- call (EvGet name) (fun h => files_get env h name) ;;
        poll budget' name fileInfo'
      else ret fileInfo
  end.

Definition UPLOAD_FAILED_MESSAGE : jsstring :=
  str "Failed to upload large file to Gemini. Please try a smaller file.".

Definition uploadLargeFile (f : File) : M Part :=
  try_catch
    (uploadResult <- call (EvUpload f) (fun h => files_upload env h f) ;;
     let name := rf_name uploadResult in
     fileInfo <- call (EvGet name) (fun h => files_get env h name) ;;
     fileInfo <- poll 30 name fileInfo ;;
     if is_string (rf_state fileInfo) (str "FAILED") then
       throw (Error (str "File processing failed on Gemini server."))
     else ret (FileData (rf_uri fileInfo) (rf_mimeType fileInfo)))
    (fun error =>
       emit (EvConsoleError (str "File upload error:") error) ;;;
       throw (Error UPLOAD_FAILED_MESSAGE)).

(** ** [analyzeContent], step 1: the prompt *)

(** [field ? `label${field}` : ''] *)
Definition labeled (label : jsstring) (field : option jsstring) : jsstring :=
  match field with
  | Some s => if nonempty s then label ++ s else []
  | None => []
  end.

Definition targeting (cfg : Config) : jsstring :=
  join nl
    (filter nonempty
       [ labeled (str "Target Geography: ") (geography cfg);
         labeled (str "Target Audience: ") (targetAudience cfg);
         labeled (str "Target Language: ") (targetLanguage cfg);
         labeled (str "Target Demographics: ") (demographics cfg) ]).

Definition JSON_REMINDER : jsstring :=
  str "IMPORTANT: You MUST return a valid JSON object matching the AnalysisResult structure. Do not include markdown formatting."
  ++ nl ++ nl.

(** The value of [promptText] when step 1 is over, or what step 1 throws. *)
Definition promptText (files : list File) (mode : AppMode)
    (platform : Platform) (cfg : Config) : thrown + jsstring :=
  match mode with
  | TREND_HUNTER =>
      match niche cfg with
      | Some ((_ :: _) as n) =>
          inr (MODE_PROMPTS.TREND_HUNTER n (currentDate env))
      | _ => inl (Error (str "Niche is required for Trend Hunter."))
      end
  | _ =>
      let p0 : jsstring := [] in
      let p1 :=
        if truthy_flag (enableLiveTrends cfg) then
          p0 ++ TREND_HUNTER_INSTRUCTION (currentDate env) (Some platform)
             ++ nl ++ nl
        else p0 in
      let p2 :=
        match brandGuidelines cfg with
        | Some ((_ :: _) as b) => p1 ++ BRAND_GUARD_INSTRUCTION b ++ nl ++ nl
        | _ => p1
        end in
      let p3 := p2 ++ JSON_REMINDER in
      inr
        match mode with
        | GENERATION =>
            p3 ++ MODE_PROMPTS.GENERATION platform
                    (or_default (goal cfg) (str "Viral Growth"))
                    (or_default (style cfg) (str "Authentic"))
                    (targeting cfg)
        | REFINE =>
            p3 ++ MODE_PROMPTS.REFINE
                    (or_default (originalText cfg) [])
                    (or_default (keywords cfg) [])
                    (targeting cfg)
        | COMPETITOR_SPY =>
            p3 ++ MODE_PROMPTS.COMPETITOR_SPY
                    (N.of_nat (List.length files)) (targeting cfg)
        | TREND_HUNTER => p3
        end
  end.

(** ** Step 2: the multimedia parts *)

Definition FILE_SIZE_THRESHOLD : N := 20 * 1024 * 1024.

(** The body of the loop over [files]. *)
Definition encodeFile (f : File) : M Part :=
  if N.ltb FILE_SIZE_THRESHOLD (file_size f) then uploadLargeFile f
  else fileToPart f.

Fixpoint encodeFiles (files : list File) : M (list Part) :=
  match files with
  | [] => ret []
  | f :: files' =>
      part <- encodeFile f ;;
      rest <- encodeFiles files' ;;
      ret (part :: rest)
  end.

Definition buildParts (files : list File) (mode : AppMode)
    (prompt : jsstring) : M (list Part) :=
  match mode with
  | TREND_HUNTER => ret [TextPart prompt]
  | _ =>
      encoded <- encodeFiles files ;;
      ret (TextPart prompt :: encoded)
  end.

(** ** Step 3: the request configuration *)

Definition ANALYSIS_RESULT_SCHEMA : Schema :=
  OBJECT
    [ (str "visualAudit",
       OBJECT [ (str "summary", STRING);
                (str "hookIdentified", STRING);
                (str "psychologyCheck", STRING) ]
              (Some [str "summary"; str "hookIdentified"; str "psychologyCheck"]));
      (str "strategy",
       OBJECT [ (str "headline", STRING);
                (str "caption", STRING);
                (str "cta", STRING) ]
              (Some [str "headline"; str "caption"; str "cta"]));
      (str "seo",
       OBJECT [ (str "hiddenKeywords", ARRAY STRING);
                (str "hashtags",
                 OBJECT [ (str "broad", ARRAY STRING);
                          (str "niche", ARRAY STRING);
                          (str "specific", ARRAY STRING) ]
                        None) ]
              None);
      (str "virality",
       OBJECT [ (str "score", NUMBER);
                (str "gapAnalysis", STRING);
                (str "trendDetected", STRING);
                (str "vibe", STRING) ]
              (Some [str "score"; str "gapAnalysis"]));
      (str "competitorInsights",
       OBJECT [ (str "visualTheme", STRING);
                (str "ctaStrategy", STRING);
                (str "formula", STRING) ]
              None) ]
    (Some [str "visualAudit"; str "strategy"; str "seo"; str "virality"]).

Definition useSearch (mode : AppMode) (cfg : Config) : bool :=
  AppMode_eqb mode TREND_HUNTER || truthy_flag (enableLiveTrends cfg).

Definition generateConfig (mode : AppMode) (cfg : Config) : GenerateConfig :=
  if useSearch mode cfg then
    {| systemInstruction := SYSTEM_INSTRUCTION;
       thinkingBudget := 1024;
       tools := Some [googleSearch];
       responseMimeType := None;
       responseSchema := None |}
  else
    {| systemInstruction := SYSTEM_INSTRUCTION;
       thinkingBudget := 1024;
       tools := None;
       responseMimeType := Some (str "application/json");
       responseSchema := Some ANALYSIS_RESULT_SCHEMA |}.

(** ** Step 6: the value returned for the mode *)

(** [parsed.key] for the keys read below ([trends], [trend], [headline],
    [whyItsHot], [contentIdea]), none of which is a property of arrays,
    strings, numbers or booleans; [parsed] is not [null]. *)
Definition prop (parsed : value) (key : jsstring) : option value :=
  match parsed with
  | JObj m => lookup_last key m
  | _ => None
  end.

(** [Array.isArray(v)] *)
Definition isArray (v : value) : bool :=
  match v with JArr _ => true | _ => false end.

(** [v.length > 0] for a truthy value [v]: only arrays and strings have a
    length. *)
Definition length_positive (v : value) : bool :=
  match v with
  | JArr (_ :: _) | JStr (_ :: _) => true
  | _ => false
  end.

Definition NO_TRENDS_MESSAGE : jsstring :=
  str "No valid trends found. Please try again with a different niche or check your internet connection.".

Definition DEFAULT_HEADLINE : value := JStr (str "Trend Detected").
Definition DEFAULT_WHY : value := JStr (str "Currently trending in your niche").
Definition DEFAULT_IDEA : value := JStr (str "Create content around this trend").

(** The object literal of the fallback. *)
Definition synthesized (parsed : value) : value :=
  JObj [ (str "headline", or_else (prop parsed (str "headline")) DEFAULT_HEADLINE);
         (str "whyItsHot", or_else (prop parsed (str "whyItsHot")) DEFAULT_WHY);
         (str "contentIdea", or_else (prop parsed (str "contentIdea")) DEFAULT_IDEA) ].

Definition normalize (mode : AppMode) (parsed : value) : thrown + value :=
  match mode with
  | TREND_HUNTER =>
      match parsed with
      | JNull => inl (nullReadError env (str "trends"))
      | _ =>
          let fallback :=
            if truthy_opt (prop parsed (str "trend"))
               || truthy_opt (prop parsed (str "contentIdea"))
               || truthy_opt (prop parsed (str "headline")) then
              inr (JArr [synthesized parsed])
            else inl (Error NO_TRENDS_MESSAGE) in
          match prop parsed (str "trends") with
          | Some trends =>
              if truthy trends && isArray trends && length_positive trends
              then inr trends
              else fallback
          | None => fallback
          end
      end
  | _ => inr parsed
  end.

(** ** Steps 5 and 6: the call and its reply *)

Definition TIMEOUT_MESSAGE_INNER : jsstring :=
  str "Request timed out. The API took too long to respond. Please try again with a smaller file or simpler request.".

(** The timer of the [AbortController] is left out: its signal is handed
    to nobody, so firing or clearing it changes nothing that
    [analyzeContent] returns or throws. *)
Definition callAndNormalize (mode : AppMode) (request : Request) : M value :=
  try_catch
    (resultText <- call (EvGenerate request)
                     (fun h => generateContent env h request) ;;
     match resultText with
     | Some ((_ :: _) as text) =>
         let cleanText := cleanJson text in
         match JSON_parse cleanText with
         | Some parsed => lift (normalize mode parsed)
         | None => throw (syntaxError env cleanText)
         end
     | _ => throw (Error (str "No response from AI"))
     end)
    (fun timeoutError =>
       if is_string (thrown_name timeoutError) (str "AbortError") then
         throw (Error TIMEOUT_MESSAGE_INNER)
       else throw timeoutError).

(** ** The handler of the outer [try] *)

Definition TOO_LARGE_MESSAGE : jsstring :=
  str "The file is too large for the current connection. Please try a smaller file.".
Definition TIMED_OUT_MESSAGE : jsstring :=
  str "Request timed out. Please check your internet connection and try again.".
Definition CONNECTION_FAILED_MESSAGE : jsstring :=
  str "Connection Failed. Please check your API Key or Internet connection.".

Definition categorize (error : thrown) : thrown :=
  if message_includes error (str "413") || message_includes error (str "too large")
  then Error TOO_LARGE_MESSAGE
  else if message_includes error (str "timeout")
          || message_includes error (str "timed out")
  then Error TIMED_OUT_MESSAGE
  else Error CONNECTION_FAILED_MESSAGE.

(** ** [analyzeContent] *)
Definition analyzeContent (files : list File) (mode : AppMode)
    (platform : Platform) (cfg : Config) (apiKey : jsstring) : M value :=
  try_catch
    (if negb (nonempty apiKey) then throw (Error (str "API Key is missing."))
     else
       prompt <- lift (promptText files mode platform cfg) ;;
       parts <- buildParts files mode prompt ;;
       callAndNormalize mode
         {| model := MODEL_NAME;
            parts := parts;
            config := generateConfig mode cfg |})
    (fun error =>
       emit (EvConsoleError (str "Gemini Analysis Error:") error) ;;;
       throw (categorize error)).

(** The request that a run hands to the generation API, if it gets there. *)
Fixpoint sent_request (h : history) : option Request :=
  match h with
  | [] => None
  | EvGenerate r :: _ => Some r
  | _ :: h' => sent_request h'
  end.

End Service.

(* ===================================================================== *)
(** * [App.tsx]: [handleAnalyze] *)
(* ===================================================================== *)

(** The state of the page that [handleAnalyze] writes. *)
Record PageState := {
  error : option jsstring;
  isAnalyzing : bool;
  analysisResult : option value;
  trendResults : option value }.

Definition setError (e : option jsstring) (s : PageState) : PageState :=
  {| error := e; isAnalyzing := isAnalyzing s;
     analysisResult := analysisResult s; trendResults := trendResults s |}.
Definition setIsAnalyzing (b : bool) (s : PageState) : PageState :=
  {| error := error s; isAnalyzing := b;
     analysisResult := analysisResult s; trendResults := trendResults s |}.
Definition setResult (r : option value) (s : PageState) : PageState :=
  {| error := error s; isAnalyzing := isAnalyzing s;
     analysisResult := r; trendResults := trendResults s |}.
Definition setTrendResults (r : option value) (s : PageState) : PageState :=
  {| error := error s; isAnalyzing := isAnalyzing s;
     analysisResult := analysisResult s; trendResults := r |}.

(** A value held in a state of type [T | null]: [null] is the state
    without a value, [None]. *)
Definition nullable (data : value) : option value :=
  match data with
  | JNull => None
  | _ => Some data
  end.

Definition MAX_TOTAL_SIZE : N := 100 * 1024 * 1024.

(** [filesToAnalyze.reduce((sum, f) => sum + f.size, 0)]; sizes are
    non-negative integers and the sum is exact below [2^53]. *)
Definition totalSize (filesToAnalyze : list File) : N :=
  fold_left (fun sum f => (sum + file_size f)%N) filesToAnalyze 0%N.

Definition TOTAL_SIZE_MESSAGE : jsstring :=
  str "Total file size exceeds 100MB. Please upload smaller files.".

Section App.

Variable env : Env.

(** The checks at the top of [handleAnalyze]: the message of the first
    one that fails. *)
Definition modeValidation (mode : AppMode) (files : list FileInput)
    (cfg : Config) : option jsstring :=
  match mode, files with
  | GENERATION, [] => Some (str "Please upload content to analyze.")
  | REFINE, _ =>
      if truthy_field (originalText cfg) then None
      else Some (str "Please enter text to refine.")
  | COMPETITOR_SPY, [] =>
      Some (str "Please upload competitor content to analyze.")
  | TREND_HUNTER, _ =>
      if truthy_field (niche cfg) then None
      else Some (str "Please enter a niche to hunt trends for.")
  | _, _ => None
  end.

(** The part of [handleAnalyze] after the validations: the call of
    [analyzeContent], what is done with its answer, and the handlers. *)
Definition runAnalysis (mode : AppMode) (platform : Platform)
    (filesToAnalyze : list File) (cfg : Config) (apiKey : jsstring)
    (s : PageState) : M PageState :=
  s' <- try_catch
          (data <- analyzeContent env filesToAnalyze mode platform cfg
                     apiKey ;;
           match mode with
           | TREND_HUNTER =>
               if truthy data && length_positive data then
                 ret (setTrendResults (Some data) s)
               else
                 ret (setError
                        (Some (str "No trends found for your niche. Try a different search term."))
                        s)
           | _ => ret (setResult (nullable data) s)
           end)
          (fun err =>
             let errorMsg :=
               or_default (thrown_message err)
                 (str "An unexpected error occurred.") in
             emit (EvConsoleError (str "Analysis error:") err) ;;;
             ret (setError (Some errorMsg) s)) ;;
  ret (setIsAnalyzing false s').

(** The four state updates that open an analysis. *)
Definition startAnalysis (s : PageState) : PageState :=
  setTrendResults None
    (setResult None (setError None (setIsAnalyzing true s))).

(** [handleAnalyze]: the page state when the handler has finished. *)
Definition handleAnalyze (mode : AppMode) (platform : Platform)
    (files : list FileInput) (cfg : Config) (apiKey : jsstring)
    (s : PageState) : M PageState :=
  match modeValidation mode files cfg with
  | Some msg => ret (setError (Some msg) s)
  | None =>
      let s := startAnalysis s in
      let filesToAnalyze := map file files in
      if N.ltb MAX_TOTAL_SIZE (totalSize filesToAnalyze) then
        ret (setIsAnalyzing false (setError (Some TOTAL_SIZE_MESSAGE) s))
      else runAnalysis mode platform filesToAnalyze cfg apiKey s
  end.

End App.

(* ===================================================================== *)
(** * The shape of [AnalysisResult] *)
(* ===================================================================== *)

Inductive Shape :=
| ShString
| ShNumber
| ShSeq (item : Shape)
| ShRecord (fields : list (jsstring * Shape)).

(** Modelled from the spec: the [AnalysisResult] interface of [types.ts],
    which is not among the sources; section 3 of the specification lists
    its fields. *)
Definition ANALYSIS_RESULT : Shape :=
  ShRecord
    [ (str "visualAudit",
       ShRecord [ (str "summary", ShString);
                  (str "hookIdentified", ShString);
                  (str "psychologyCheck", ShString) ]);
      (str "strategy",
       ShRecord [ (str "headline", ShString);
                  (str "caption", ShString);
                  (str "cta", ShString) ]);
      (str "seo",
       ShRecord [ (str "hiddenKeywords", ShSeq ShString);
                  (str "hashtags",
                   ShRecord [ (str "broad", ShSeq ShString);
                              (str "niche", ShSeq ShString);
                              (str "specific", ShSeq ShString) ]) ]);
      (str "virality",
       ShRecord [ (str "score", ShNumber);
                  (str "gapAnalysis", ShString);
                  (str "trendDetected", ShString);
                  (str "vibe", ShString) ]);
      (str "competitorInsights",
       ShRecord [ (str "visualTheme", ShString);
                  (str "ctaStrategy", ShString);
                  (str "formula", ShString) ]) ].

(** The shape that a schema describes, forgetting which fields it
    requires. *)
Fixpoint shape_of (s : Schema) : Shape :=
  match s with
  | STRING => ShString
  | NUMBER => ShNumber
  | ARRAY items => ShSeq (shape_of items)
  | OBJECT properties _ =>
      ShRecord
        ((fix fields (l : list (jsstring * Schema)) :=
            match l with
            | [] => []
            | (k, s') :: l' => (k, shape_of s') :: fields l'
            end) properties)
  end.

Definition required_of (s : Schema) : list jsstring :=
  match s with
  | OBJECT _ (Some r) => r
  | _ => []
  end.

(* ===================================================================== *)
(** * The targeting block, as the specification words it *)
(* ===================================================================== *)

(** The four targeting fields with their labels, in the fixed order. *)
Definition targeting_fields (cfg : Config) : list (jsstring * option jsstring) :=
  [ (str "Target Geography: ", geography cfg);
    (str "Target Audience: ", targetAudience cfg);
    (str "Target Language: ", targetLanguage cfg);
    (str "Target Demographics: ", demographics cfg) ].

(** One labeled line for each field that is present and not empty. *)
Fixpoint labeled_lines (fields : list (jsstring * option jsstring))
  : list jsstring :=
  match fields with
  | [] => []
  | (label, Some ((_ :: _) as v)) :: fields' =>
      (label ++ v) :: labeled_lines fields'
  | _ :: fields' => labeled_lines fields'
  end.

(* ===================================================================== *)
(** * Scripted collaborators, for running the model *)
(* ===================================================================== *)

Definition count_gets (h : history) : nat :=
  List.length (filter (fun ev => match ev with EvGet _ => true | _ => false end) h).

Definition remote (state : jsstring) : RemoteFile :=
  {| rf_name := Some (str "files/abc123");
     rf_state := Some state;
     rf_uri := Some (str "https://generativelanguage.googleapis.com/v1beta/files/abc123");
     rf_mimeType := Some (str "video/mp4") |}.

(** Collaborators that follow a script: the answer of the upload, the
    answer of the n-th status query, and the answer of the generation. *)
Definition scripted (upload : thrown + RemoteFile)
    (status : nat -> thrown + RemoteFile)
    (reply : thrown + option jsstring) : Env :=
  {| currentDate := str "November 2026";
     files_upload := fun _ _ => upload;
     files_get := fun h _ => status (count_gets h);
     readAsDataURL := fun _ f =>
       inr (str "data:" ++ file_type f ++ str ";base64,aGVsbG8=");
     generateContent := fun _ _ => reply;
     syntaxError := fun _ =>
       {| thrown_name := Some (str "SyntaxError");
          thrown_message := Some (str "Unexpected token in JSON") |};
     nullReadError := fun key =>
       {| thrown_name := Some (str "TypeError");
          thrown_message :=
            Some (str "Cannot read properties of null (reading '" ++ key ++ str "')") |} |}.

Definition sampleFile (size : N) : File :=
  {| file_name := str "clip.mp4"; file_type := str "video/mp4"; file_size := size |}.

Definition emptyConfig : Config :=
  {| goal := None; style := None; keywords := None; originalText := None;
     geography := None; targetAudience := None; targetLanguage := None;
     demographics := None; enableLiveTrends := None; brandGuidelines := None;
     niche := None |}.

Definition withLiveTrends (cfg : Config) : Config :=
  {| goal := goal cfg; style := style cfg; keywords := keywords cfg;
     originalText := originalText cfg; geography := geography cfg;
     targetAudience := targetAudience cfg; targetLanguage := targetLanguage cfg;
     demographics := demographics cfg; enableLiveTrends := Some true;
     brandGuidelines := brandGuidelines cfg; niche := niche cfg |}.

Definition withNiche (n : jsstring) (cfg : Config) : Config :=
  {| goal := goal cfg; style := style cfg; keywords := keywords cfg;
     originalText := originalText cfg; geography := geography cfg;
     targetAudience := targetAudience cfg; targetLanguage := targetLanguage cfg;
     demographics := demographics cfg; enableLiveTrends := enableLiveTrends cfg;
     brandGuidelines := brandGuidelines cfg; niche := Some n |}.

Definition idlePage : PageState :=
  {| error := None; isAnalyzing := false;
     analysisResult := None; trendResults := None |}.

(** A reply of the service in the shape of [AnalysisResult]. *)
Definition sampleReply : jsstring :=
  str "{" ++ quoted (str "visualAudit") ++ str ":{},"
  ++ quoted (str "strategy") ++ str ":{},"
  ++ quoted (str "seo") ++ str ":{},"
  ++ quoted (str "virality") ++ str ":{" ++ quoted (str "score") ++ str ":82}}".

(** The member [key: text] of an object, with a string value. *)
Definition member (key text : jsstring) : jsstring * value := (key, JStr text).

Definition targetedConfig : Config :=
  {| goal := None; style := None; keywords := None; originalText := None;
     geography := Some (str "Brazil"); targetAudience := Some [];
     targetLanguage := None; demographics := Some (str "18-24");
     enableLiveTrends := None; brandGuidelines := None; niche := None |}.

(** The object [{headline: H, whyItsHot: W, contentIdea: C}]. *)
Definition trendItem (H W C : jsstring) : value :=
  JObj [ member (str "headline") H;
         member (str "whyItsHot") W;
         member (str "contentIdea") C ].

(** Collaborators that answer at once: the upload is active, the reply is
    the given text. *)
Definition replying (text : jsstring) : Env :=
  scripted (inr (remote (str "ACTIVE"))) (fun _ => inr (remote (str "ACTIVE")))
    (inr (Some text)).

Definition fileInputs (sizes : list N) : list FileInput :=
  map (fun n => {| file := sampleFile n; previewUrl := str "blob:preview" |}) sizes.

(** Collaborators whose processing never ends. *)
Definition stuck : Env :=
  scripted (inr (remote (str "PROCESSING")))
    (fun _ => inr (remote (str "PROCESSING"))) (inr (Some sampleReply)).

(** Collaborators whose upload fails in transport. *)
Definition offline : Env :=
  scripted (inl (Error (str "fetch failed")))
    (fun _ => inr (remote (str "ACTIVE"))) (inr (Some sampleReply)).

(** Collaborators whose processing fails at the third status query. *)
Definition failing : Env :=
  scripted (inr (remote (str "PROCESSING")))
    (fun n => inr (remote (if Nat.ltb n 2 then str "PROCESSING" else str "FAILED")))
    (inr (Some sampleReply)).

(* ===================================================================== *)
(** * Notions used in the statements *)
(* ===================================================================== *)

(** What a request must satisfy to have been built by [analyzeContent] for
    [mode] and [cfg]: an event that is a generation call carries the
    configuration of step 3. *)
Definition configured (mode : AppMode) (cfg : Config) (ev : event) : Prop :=
  match ev with
  | EvGenerate r => config r = generateConfig mode cfg
  | _ => True
  end.

(** The events that a computation adds to any history satisfy [P]. *)
Definition emits (A : Type) (P : event -> Prop) (m : M A) : Prop :=
  forall h, exists evs, snd (m h) = evs ++ h /\ Forall P evs.

(** The events of [n] rounds of the polling loop for the file [name]: a
    wait of two seconds and a status query each, latest first. *)
Fixpoint rounds (n : nat) (name : option jsstring) : history :=
  match n with
  | O => []
  | S n' => EvGet name :: EvSleep 2000 :: rounds n' name
  end.

Definition is_read (ev : event) : Prop :=
  match ev with EvRead _ => True | _ => False end.

(** ** The live-search block around its two holes *)

(** The text of [TREND_HUNTER_INSTRUCTION] before the date. *)
Definition LIVE_BLOCK_HEAD : jsstring :=
  nl ++ str "**LIVE TREND MODE ENABLED**" ++ nl
  ++ str "STEP 1: You have access to Google Search. Before analyzing the video, SEARCH for "
  ++ dquote ++ str "Current viral trends ".

(** The text between the date and the place of the Twitter step. *)
Definition LIVE_BLOCK_MIDDLE : jsstring :=
  dquote ++ str " and "
  ++ quoted (str "Trending audio for [Niche] on Instagram/TikTok") ++ str "." ++ nl.

(** The text after the place of the Twitter step. *)
Definition LIVE_BLOCK_TAIL : jsstring :=
  nl ++ str "STEP 2: Use this live data to suggest a specific trending audio or challenge format that fits the user's video."
  ++ nl ++ str "STEP 3: Mention the trend name in the reasoning section (specifically in the 'trendDetected' field)."
  ++ nl.

(** No occurrence of [m] in [a ++ s] can start inside [a]: no non-empty
    suffix of [a] is a prefix of [m] or starts with [m]. *)
Fixpoint boundary_clear (a m : jsstring) : bool :=
  match a with
  | [] => true
  | _ :: a' => negb (startsWith a m || startsWith m a) && boundary_clear a' m
  end.

(** The states that the lexer reaches: the letters still expected of a
    literal are not white space. *)
Definition reachable (q : lstate) : Prop :=
  match q with
  | LLiteral rest _ => Forall (fun c => isWhiteSpace c = false) rest
  | _ => True
  end.

Definition allWhiteSpace (w : jsstring) : Prop :=
  Forall (fun c => isWhiteSpace c = true) w.

(** A reply wrapped in a markdown fence: the opening fence [tag], white
    space, the text, white space, the closing fence. *)
Definition fenced (tag w1 x w2 : jsstring) : jsstring :=
  tag ++ w1 ++ x ++ w2 ++ str "```".

(* ===================================================================== *)
(** * [App.tsx]: the API key gate *)
(* ===================================================================== *)

(** The three state variables of the gate and the item
    ['gemini_api_key'] of the local storage ([None]: no such item). *)
Record KeyState := {
  apiKey : jsstring;
  showGatekeeper : bool;
  tempKey : jsstring;
  storedKey : option jsstring }.

(** [setApiKey(k); setShowGatekeeper(false)] *)
Definition openGate (k : jsstring) (s : KeyState) : KeyState :=
  {| apiKey := k; showGatekeeper := false;
     tempKey := tempKey s; storedKey := storedKey s |}.

(** The effect that runs when the page is mounted; [envKey] is
    [process.env.API_KEY]. *)
Definition mountEffect (envKey : option jsstring) (s : KeyState) : KeyState :=
  let fromStorage :=
    match storedKey s with
    | Some k => if startsWith (str "AIza") k then openGate k s else s
    | None => s
    end in
  match envKey with
  | Some ((_ :: _) as k) =>
      if negb (includes k (str "VITE_")) then openGate k s else fromStorage
  | _ => fromStorage
  end.

(** The state of a page that has just been loaded. *)
Definition freshPage (stored : option jsstring) : KeyState :=
  {| apiKey := []; showGatekeeper := true; tempKey := []; storedKey := stored |}.

Definition pageLoad (envKey stored : option jsstring) : KeyState :=
  mountEffect envKey (freshPage stored).

(** [setTempKey(e.target.value)] *)
Definition setTempKey (k : jsstring) (s : KeyState) : KeyState :=
  {| apiKey := apiKey s; showGatekeeper := showGatekeeper s;
     tempKey := k; storedKey := storedKey s |}.

(** [handleSaveKey]: the new state and the alert, if one is shown. *)
Definition handleSaveKey (s : KeyState) : KeyState * option jsstring :=
  if negb (startsWith (str "AIza") (tempKey s)) then
    (s, Some (str "Invalid Key format. It must start with AIza."))
  else
    ({| apiKey := tempKey s; showGatekeeper := false;
        tempKey := tempKey s; storedKey := Some (tempKey s) |}, None).

(** The handler of the Change Key button. *)
Definition changeKey (s : KeyState) : KeyState :=
  {| apiKey := []; showGatekeeper := true; tempKey := []; storedKey := None |}.

(** What a user can do to the gate. *)
Inductive keyAction :=
| TypeKey (k : jsstring)
| SaveKey
| ChangeKey
| Reload.

Definition keyStep (envKey : option jsstring) (s : KeyState) (a : keyAction)
  : KeyState :=
  match a with
  | TypeKey k => setTempKey k s
  | SaveKey => fst (handleSaveKey s)
  | ChangeKey => changeKey s
  | Reload => pageLoad envKey (storedKey s)
  end.

(* ===================================================================== *)
(** * [App.tsx]: modes and trends *)
(* ===================================================================== *)

(** The state variables that the mode buttons, [handleUseTrend] and
    [handleAnalyze] share. *)
Record AppState := {
  app_mode : AppMode;
  app_files : list FileInput;
  app_config : Config;
  app_page : PageState }.

(** The [onClick] of [ModeButton]. *)
Definition selectMode (m : AppMode) (st : AppState) : AppState :=
  {| app_mode := m;
     app_files := match m with TREND_HUNTER => app_files st | _ => [] end;
     app_config := app_config st;
     app_page := setTrendResults None (setResult None (app_page st)) |}.

(** [handleUseTrend], which reads the headline of the trend: the new
    state and the text of the alert. *)
Definition handleUseTrend (headline : jsstring) (st : AppState)
  : AppState * jsstring :=
  let prev := app_config st in
  ({| app_mode := GENERATION;
      app_files := app_files st;
      app_config :=
        {| goal := Some (str "Viral Growth");
           style := Some (str "Urgent & Hype");
           keywords := Some headline;
           originalText := originalText prev;
           geography := geography prev;
           targetAudience := targetAudience prev;
           targetLanguage := targetLanguage prev;
           demographics := demographics prev;
           enableLiveTrends := enableLiveTrends prev;
           brandGuidelines := brandGuidelines prev;
           niche := niche prev |};
      app_page := app_page st |},
   str "Trend " ++ quoted headline
   ++ str " activated! Upload your content now to generate the strategy.").

(** The Analyze button: [handleAnalyze] on the current state. *)
Definition pressAnalyze (env : Env) (platform : Platform) (key : jsstring)
    (st : AppState) : M AppState :=
  bind (handleAnalyze env (app_mode st) platform (app_files st)
          (app_config st) key (app_page st))
       (fun page =>
          ret {| app_mode := app_mode st; app_files := app_files st;
                 app_config := app_config st; app_page := page |}).

(* ===================================================================== *)
(** * [FileUpload.tsx] *)
(* ===================================================================== *)

Definition MAX_FILE_SIZE_MB : N := 10240.
Definition MAX_FILE_SIZE_BYTES : N := MAX_FILE_SIZE_MB * 1024 * 1024.

(** [formattedMaxSize]: the quotient is the integer 10, which [toFixed(2)]
    followed by [parseFloat] gives back. *)
Definition formattedMaxSize : jsstring :=
  if N.leb 1024 MAX_FILE_SIZE_MB
  then decimal (MAX_FILE_SIZE_MB / 1024) ++ str "GB"
  else decimal MAX_FILE_SIZE_MB ++ str "MB".

(** What the component does to the browser, latest first. *)
Inductive uiEvent :=
| Alert (msg : jsstring)
| CreatedURL (f : File)
| RevokedURL (url : jsstring).

Definition uiLog := list uiEvent.

(** The [type] property of an entry, which only the rendering reads, is
    determined by the file of the entry. *)
Definition entryType (f : File) : jsstring :=
  if startsWith (str "video/") (file_type f) then str "video" else str "image".

Section Picker.

(** [URL.createObjectURL], a function of what happened so far. *)
Variable createObjectURL : uiLog -> File -> jsstring.

(** The [forEach] over the chosen files; the entry keeps the file and its
    preview URL. *)
Fixpoint collect (chosen : list File) (newFiles : list FileInput) (log : uiLog)
  : list FileInput * uiLog :=
  match chosen with
  | [] => (newFiles, log)
  | f :: chosen' =>
      if N.ltb MAX_FILE_SIZE_BYTES (file_size f) then
        collect chosen' newFiles
          (Alert (str "File " ++ file_name f ++ str " exceeds the "
                  ++ formattedMaxSize ++ str " limit.") :: log)
      else
        collect chosen'
          (newFiles ++ [{| file := f; previewUrl := createObjectURL log f |}])
          (CreatedURL f :: log)
  end.

(** [handleFileChange]; [chosen] is [event.target.files], [None] for
    [null]. *)
Definition handleFileChange (multiple : bool) (chosen : option (list File))
    (files : list FileInput) (log : uiLog) : list FileInput * uiLog :=
  match chosen with
  | Some ((_ :: _) as fs) =>
      let (newFiles, log') := collect fs [] log in
      (if multiple then files ++ newFiles else newFiles, log')
  | _ => (files, log)
  end.

(** [removeFile]; [None] is the [TypeError] of reading [preview] of an
    entry that does not exist. *)
Definition removeFile (index : nat) (files : list FileInput) (log : uiLog)
  : option (list FileInput * uiLog) :=
  match nth_error files index with
  | Some entry =>
      Some (firstn index files ++ skipn (S index) files,
            RevokedURL (previewUrl entry) :: log)
  | None => None
  end.

End Picker.

(** A source of preview URLs that numbers them. *)
Definition numberedURL (log : uiLog) (f : File) : jsstring :=
  str "blob:" ++ decimal (N.of_nat (List.length log)).

(* ===================================================================== *)
(** * Counting the events of a run *)
(* ===================================================================== *)

Definition is_sleep (ev : event) : bool :=
  match ev with EvSleep _ => true | _ => false end.
Definition is_get (ev : event) : bool :=
  match ev with EvGet _ => true | _ => false end.
Definition is_upload (ev : event) : bool :=
  match ev with EvUpload _ => true | _ => false end.

Definition count (p : event -> bool) (h : history) : nat :=
  List.length (filter p h).

(** The events that touch no file and no upload: generation calls and
    console output. *)
Definition file_free (ev : event) : Prop :=
  match ev with
  | EvGenerate _ | EvConsoleError _ _ => True
  | _ => False
  end.

(** The part that encodes [f] has the kind that the size of [f] selects. *)
Definition encodes (f : File) (part : Part) : Prop :=
  if N.ltb FILE_SIZE_THRESHOLD (file_size f)
  then exists uri mime, part = FileData uri mime
  else exists data, part = InlineData data (file_type f).

(** The request of a run for [prompts] and [encoded] parts. *)
Definition requestFor (mode : AppMode) (cfg : Config) (ps : list Part)
  : Request :=
  {| model := MODEL_NAME; parts := ps; config := generateConfig mode cfg |}.

Definition isInfix (p s : jsstring) : Prop := exists l r, s = l ++ p ++ r.

(** Collaborators whose generation call answers with a given failure. *)
Definition rejecting (e : thrown) : Env :=
  scripted (inr (remote (str "ACTIVE"))) (fun _ => inr (remote (str "ACTIVE")))
    (inl e).

(** Collaborators whose generation call gives no text. *)
Definition silent : Env :=
  scripted (inr (remote (str "ACTIVE"))) (fun _ => inr (remote (str "ACTIVE")))
    (inr None).

(** A failure with a given name and message. *)
Definition failure (name message : jsstring) : thrown :=
  {| thrown_name := Some name; thrown_message := Some message |}.

(** An event of a Trend Hunter run for [cfg]: no file is read or uploaded,
    and a generation call carries the Trend Hunter prompt alone. *)
Definition trend_hunter_event (env : Env) (cfg : Config) (ev : event) : Prop :=
  match ev with
  | EvGenerate r =>
      exists n, niche cfg = Some n /\ n <> []
                /\ parts r = [TextPart (MODE_PROMPTS.TREND_HUNTER n (currentDate env))]
  | EvConsoleError _ _ => True
  | _ => False
  end.

Definition NO_TRENDS_FOR_NICHE : jsstring :=
  str "No trends found for your niche. Try a different search term.".

Definition startedApp (files : list FileInput) (cfg : Config) : AppState :=
  {| app_mode := TREND_HUNTER; app_files := files; app_config := cfg;
     app_page := idlePage |}.

(** Collaborators whose file becomes active at the third status query. *)
Definition settling : Env :=
  scripted (inr (remote (str "PROCESSING")))
    (fun n => inr (remote (if Nat.ltb n 2 then str "PROCESSING" else str "ACTIVE")))
    (inr (Some sampleReply)).

(** Collaborators whose file reader gives the data URL [url]. *)
Definition reading (url : jsstring) : Env :=
  {| currentDate := str "November 2026";
     files_upload := fun _ _ => inr (remote (str "ACTIVE"));
     files_get := fun _ _ => inr (remote (str "ACTIVE"));
     readAsDataURL := fun _ _ => inr url;
     generateContent := fun _ _ => inr (Some sampleReply);
     syntaxError := syntaxError (replying []);
     nullReadError := nullReadError (replying []) |}.

(** A text that does not start with white space. *)
Definition starts_clean (s : jsstring) : Prop :=
  match s with
  | [] => True
  | c :: _ => isWhiteSpace c = false
  end.

(** A text that does not end with white space. *)
Definition ends_clean (s : jsstring) : Prop := starts_clean (rev s).

(** The environment key that the mount effect accepts, if any: present,
    not empty, and without the text of an unreplaced placeholder. *)
Definition usableEnvKey (envKey : option jsstring) : option jsstring :=
  match envKey with
  | Some ((_ :: _) as k) => if includes k (str "VITE_") then None else Some k
  | _ => None
  end.

Definition is_alert (ev : uiEvent) : bool :=
  match ev with Alert _ => true | _ => false end.

(** A file that the picker accepts. *)
Definition fits (f : File) : bool := N.leb (file_size f) MAX_FILE_SIZE_BYTES.

Definition entry (f : File) (url : jsstring) : FileInput :=
  {| file := f; previewUrl := url |}.

(** The answer to status query number [j] of the handshake for [f] that
    starts at history [h]: query 0 follows the upload, and query [j + 1]
    follows the wait after query [j]. *)
Definition statusQuery (env : Env) (f : File) (h : history)
    (name : option jsstring) (j : nat) : thrown + RemoteFile :=
  files_get env
    match j with
    | O => EvUpload f :: h
    | S j' => EvSleep 2000 :: rounds j' name ++ EvGet name :: EvUpload f :: h
    end
    name.

(** [{...config, geography: g, targetAudience: a, targetLanguage: l,
    demographics: d}]: [cfg] with other targeting fields. *)
Definition retarget (g a l d : option jsstring) (cfg : Config) : Config :=
  {| goal := goal cfg; style := style cfg; keywords := keywords cfg;
     originalText := originalText cfg; geography := g;
     targetAudience := a; targetLanguage := l; demographics := d;
     enableLiveTrends := enableLiveTrends cfg;
     brandGuidelines := brandGuidelines cfg; niche := niche cfg |}.

(** The lines of the prompt that step 1 of [analyzeContent] composes. *)
Definition promptLines (env : Env) (files : list File) (mode : AppMode)
    (platform : Platform) (cfg : Config) : list jsstring :=
  match promptText env files mode platform cfg with
  | inr prompt => split 10 prompt
  | inl _ => []
  end.

(* ===================================================================== *)
(** * Facts about strings *)
(* ===================================================================== *)

Lemma eqb_str_refl (a : jsstring) : eqb_str a a = true.
Proof.
  induction a as [|x a IH]; simpl; [reflexivity|].
  now rewrite N.eqb_refl, IH.
Qed.

Lemma eqb_str_eq (a b : jsstring) : eqb_str a b = true <-> a = b.
Proof.
  split; [|intros ->; apply eqb_str_refl].
  revert b; induction a as [|x a IH]; intros [|y b]; simpl; try discriminate.
  - reflexivity.
  - intros H. apply andb_true_iff in H as [Hx Hab].
    apply N.eqb_eq in Hx. now rewrite Hx, (IH b Hab).
Qed.

Lemma startsWith_app (p s : jsstring) : startsWith p (p ++ s) = true.
Proof.
  induction p as [|x p IH]; simpl; [reflexivity|].
  now rewrite N.eqb_refl, IH.
Qed.

Lemma startsWith_prefix (p s : jsstring) :
  startsWith p s = true <-> exists r, s = p ++ r.
Proof.
  split.
  - revert s; induction p as [|x p IH]; intros s H.
    + now exists s.
    + destruct s as [|y s]; simpl in H; [discriminate|].
      apply andb_true_iff in H as [Hx Hp].
      apply N.eqb_eq in Hx; subst y.
      destruct (IH s Hp) as [r ->]. now exists r.
  - intros [r ->]. apply startsWith_app.
Qed.

Lemma stripPrefix_app (p s : jsstring) : stripPrefix p (p ++ s) = Some s.
Proof.
  induction p as [|x p IH]; simpl; [reflexivity|].
  now rewrite N.eqb_refl.
Qed.

Lemma stripSuffix_app (p s : jsstring) : stripSuffix p (s ++ p) = Some s.
Proof.
  unfold stripSuffix. rewrite rev_app_distr, stripPrefix_app. simpl.
  now rewrite rev_involutive.
Qed.

Lemma includes_here (s p : jsstring) :
  startsWith p s = true -> includes s p = true.
Proof. destruct s; simpl; intros ->; reflexivity. Qed.

Lemma includes_infix (s p : jsstring) :
  includes s p = true <-> exists l r, s = l ++ p ++ r.
Proof.
  split.
  - induction s as [|c s IH]; simpl; intros H.
    + rewrite orb_false_r in H. apply startsWith_prefix in H as [r Hr].
      exists [], r. exact Hr.
    + apply orb_true_iff in H as [H|H].
      * apply startsWith_prefix in H as [r Hr]. exists [], r. exact Hr.
      * destruct (IH H) as (l & r & ->). now exists (c :: l), r.
  - intros (l & r & ->). induction l as [|c l IH]; simpl.
    + apply includes_here, startsWith_app.
    + rewrite IH. apply orb_true_r.
Qed.

Lemma dropWhile_all (A : Type) (f : A -> bool) (w l : list A) :
  Forall (fun c => f c = true) w -> dropWhile f (w ++ l) = dropWhile f l.
Proof.
  induction 1 as [|c w Hc _ IH]; simpl; [reflexivity|].
  now rewrite Hc.
Qed.

Lemma dropWhile_stop (A : Type) (f : A -> bool) (c : A) (l : list A) :
  f c = false -> dropWhile f (c :: l) = c :: l.
Proof. intros H. simpl. now rewrite H. Qed.

Lemma dropWhile_app_stop (A : Type) (f : A -> bool) (l r : list A) (c : A)
    (l' : list A) :
  dropWhile f l = c :: l' -> dropWhile f (l ++ r) = c :: l' ++ r.
Proof.
  induction l as [|x l IH]; simpl; [discriminate|].
  destruct (f x) eqn:E.
  - exact IH.
  - intros H. injection H as -> ->. reflexivity.
Qed.

Lemma dropWhileEnd_all (A : Type) (f : A -> bool) (l w : list A) :
  Forall (fun c => f c = true) w -> dropWhileEnd f (l ++ w) = dropWhileEnd f l.
Proof.
  intros H. unfold dropWhileEnd. rewrite rev_app_distr.
  rewrite dropWhile_all; [reflexivity|].
  now apply Forall_rev.
Qed.

Lemma dropWhileEnd_stop (A : Type) (f : A -> bool) (l : list A) (c : A) :
  f c = false -> dropWhileEnd f (l ++ [c]) = l ++ [c].
Proof.
  intros H. unfold dropWhileEnd. rewrite rev_app_distr. simpl.
  rewrite H. simpl. now rewrite rev_involutive.
Qed.

(** Splitting at a separator that the pieces do not contain. *)
Lemma split_single (sep : N) (l : jsstring) :
  ~ In sep l -> split sep l = [l].
Proof.
  induction l as [|c l IH]; simpl; intros H; [reflexivity|].
  destruct (N.eqb_spec c sep) as [->|Hne].
  - exfalso. apply H. now left.
  - rewrite IH; [reflexivity|]. intros Hin. apply H. now right.
Qed.

Lemma split_cons (sep : N) (l rest : jsstring) :
  ~ In sep l -> split sep (l ++ sep :: rest) = l :: split sep rest.
Proof.
  induction l as [|c l IH]; simpl; intros H.
  - now rewrite N.eqb_refl.
  - destruct (N.eqb_spec c sep) as [->|Hne].
    + exfalso. apply H. now left.
    + rewrite IH; [reflexivity|]. intros Hin. apply H. now right.
Qed.

Lemma split_join (sep : N) (ls : list jsstring) :
  ls <> [] -> (forall l, In l ls -> ~ In sep l) ->
  split sep (join [sep] ls) = ls.
Proof.
  induction ls as [|l ls IH]; intros Hne Hall; [contradiction|].
  destruct ls as [|l' ls].
  - simpl. apply split_single. apply Hall. now left.
  - change (join [sep] (l :: l' :: ls)) with (l ++ sep :: join [sep] (l' :: ls)).
    rewrite split_cons by (apply Hall; now left).
    rewrite IH; [reflexivity|discriminate|].
    intros x Hx. apply Hall. now right.
Qed.

(* ===================================================================== *)
(** * The targeting block *)
(* ===================================================================== *)

Lemma labeled_lines_sound (fields : list (jsstring * option jsstring)) :
  Forall (fun line => exists label v,
            In (label, Some v) fields /\ v <> [] /\ line = label ++ v)
         (labeled_lines fields).
Proof.
  induction fields as [|[label [[|c v]|]] fields IH]; simpl.
  - constructor.
  - eapply Forall_impl; [|exact IH].
    intros line (l & v & Hin & Hv & ->). exists l, v. auto.
  - constructor.
    + exists label, (c :: v). repeat split; [now left|discriminate].
    + eapply Forall_impl; [|exact IH].
      intros line (l & v' & Hin & Hv & ->). exists l, v'. auto.
  - eapply Forall_impl; [|exact IH].
    intros line (l & v & Hin & Hv & ->). exists l, v. auto.
Qed.

Lemma targeting_refines (cfg : Config) :
  targeting cfg = join nl (labeled_lines (targeting_fields cfg)).
Proof.
  unfold targeting, targeting_fields, labeled.
  destruct (geography cfg) as [[|? ?]|];
    destruct (targetAudience cfg) as [[|? ?]|];
    destruct (targetLanguage cfg) as [[|? ?]|];
    destruct (demographics cfg) as [[|? ?]|]; reflexivity.
Qed.

Lemma split_not_nil (sep : N) (l : jsstring) : split sep l <> [].
Proof.
  destruct l as [|c l]; cbn [split]; [discriminate|].
  destruct (N.eqb c sep); [discriminate|].
  destruct (split sep l); discriminate.
Qed.

Lemma split_app (sep : N) (l rest : jsstring) :
  split sep (l ++ sep :: rest) = split sep l ++ split sep rest.
Proof.
  induction l as [|c l IH]; cbn [app split].
  - now rewrite N.eqb_refl.
  - rewrite IH. destruct (N.eqb c sep); [reflexivity|].
    pose proof (split_not_nil sep l) as Hn.
    destruct (split sep l); [contradiction|reflexivity].
Qed.

Lemma join_app (sep : jsstring) (xs ys : list jsstring) :
  xs <> [] -> ys <> [] ->
  join sep (xs ++ ys) = join sep xs ++ sep ++ join sep ys.
Proof.
  induction xs as [|x xs IH]; intros Hx Hy; [contradiction|].
  destruct xs as [|x' xs].
  - destruct ys; [contradiction|reflexivity].
  - change (join sep ((x :: x' :: xs) ++ ys))
      with (x ++ sep ++ join sep ((x' :: xs) ++ ys)).
    rewrite IH by (discriminate || exact Hy).
    change (join sep (x :: x' :: xs)) with (x ++ sep ++ join sep (x' :: xs)).
    now rewrite <- !app_assoc.
Qed.

Lemma join_at (sep : jsstring) (xs ys : list jsstring) (slot : jsstring) :
  xs <> [] -> ys <> [] ->
  join sep (xs ++ slot :: ys)
  = join sep xs ++ sep ++ slot ++ sep ++ join sep ys.
Proof.
  intros Hx Hy. rewrite join_app by (exact Hx || discriminate).
  destruct ys; [contradiction|reflexivity].
Qed.

(** A template around the line number [k] of its list. *)
Ltac slot_at k :=
  match goal with
  | |- join nl ?ls = _ =>
      let xs := eval cbn [firstn] in (firstn k ls) in
      let ys := eval cbn [skipn] in (skipn (S k) ls) in
      let slot := eval cbn [nth] in (nth k ls []) in
      exact (@join_at nl xs ys slot ltac:(discriminate) ltac:(discriminate))
  end.

Lemma GENERATION_slot (platform : Platform) (goal style : jsstring) :
  exists before after, forall t,
    MODE_PROMPTS.GENERATION platform goal style t
    = before ++ nl ++ (str "    " ++ t) ++ nl ++ after.
Proof.
  eexists. eexists. intros t.
  unfold MODE_PROMPTS.GENERATION, template. slot_at 5%nat.
Qed.

Lemma REFINE_slot (originalText keywords : jsstring) :
  exists before after, forall t,
    MODE_PROMPTS.REFINE originalText keywords t
    = before ++ nl ++ (str "    " ++ t) ++ nl ++ after.
Proof.
  eexists. eexists. intros t.
  unfold MODE_PROMPTS.REFINE, template. slot_at 4%nat.
Qed.

Lemma COMPETITOR_SPY_slot (count : N) :
  exists before after, forall t,
    MODE_PROMPTS.COMPETITOR_SPY count t
    = before ++ nl ++ (str "    " ++ t) ++ nl ++ after.
Proof.
  eexists. eexists. intros t.
  unfold MODE_PROMPTS.COMPETITOR_SPY, template. slot_at 3%nat.
Qed.

Lemma retarget_self (cfg : Config) :
  retarget (geography cfg) (targetAudience cfg) (targetLanguage cfg)
    (demographics cfg) cfg = cfg.
Proof. now destruct cfg. Qed.

(** Outside Trend Hunter the prompt holds the targeting block in one
    place, after four spaces, and reads the four fields nowhere else. *)
Lemma prompt_slot (env : Env) (files : list File) (mode : AppMode)
    (platform : Platform) (cfg : Config) :
  mode <> TREND_HUNTER ->
  exists before after, forall g a l d,
    promptText env files mode platform (retarget g a l d cfg)
    = inr (before ++ nl
           ++ (str "    " ++ targeting (retarget g a l d cfg)) ++ nl ++ after).
Proof.
  intros Hm. destruct mode; [| | |contradiction].
  - destruct (GENERATION_slot platform
                (or_default (goal cfg) (str "Viral Growth"))
                (or_default (style cfg) (str "Authentic"))) as (b & a & H).
    eexists (_ ++ b), a. intros g a0 l d.
    unfold promptText. cbv zeta.
    cbn [retarget goal style enableLiveTrends brandGuidelines].
    rewrite H. f_equal. apply app_assoc.
  - destruct (REFINE_slot (or_default (originalText cfg) [])
                (or_default (keywords cfg) [])) as (b & a & H).
    eexists (_ ++ b), a. intros g a0 l d.
    unfold promptText. cbv zeta.
    cbn [retarget originalText keywords enableLiveTrends brandGuidelines].
    rewrite H. f_equal. apply app_assoc.
  - destruct (COMPETITOR_SPY_slot (N.of_nat (List.length files)))
      as (b & a & H).
    eexists (_ ++ b), a. intros g a0 l d.
    unfold promptText. cbv zeta.
    cbn [retarget enableLiveTrends brandGuidelines].
    rewrite H. f_equal. apply app_assoc.
Qed.

Lemma labels_hold_no_line_feed (cfg : Config) (label : jsstring)
    (v : option jsstring) :
  In (label, v) (targeting_fields cfg) -> ~ In 10%N label.
Proof.
  intros [H|[H|[H|[H|[]]]]]; injection H as <- _; vm_compute;
    intros H; repeat (destruct H as [H|H]; [discriminate H|]); exact H.
Qed.

(** C8. The targeting block is the join, with line feeds, of one labeled
    entry for each of geography, audience, language and demographics that
    is present and not empty, in that order; an empty field gives nothing.
    Outside Trend Hunter the prompt holds the block in one place, after
    four spaces on a template line of its own, and depends on the four
    fields through the block alone.  When some field is not empty and no
    value holds a line feed, the lines of the prompt at that place are
    exactly the labeled lines, the first one after the four spaces; when
    all four fields are empty, the place is a line of four spaces. *)
Theorem targeting_block_lines (env : Env) (files : list File)
    (mode : AppMode) (platform : Platform) (cfg : Config) :
  let lines := labeled_lines (targeting_fields cfg) in
  targeting cfg = join nl lines
  /\ Forall (fun line => exists label v,
               In (label, Some v) (targeting_fields cfg)
               /\ v <> [] /\ line = label ++ v) lines
  /\ (mode <> TREND_HUNTER ->
      exists before after,
        promptText env files mode platform cfg
        = inr (before ++ nl ++ (str "    " ++ targeting cfg) ++ nl ++ after)
        /\ (forall g a l d,
              promptText env files mode platform (retarget g a l d cfg)
              = inr (before ++ nl
                     ++ (str "    " ++ targeting (retarget g a l d cfg))
                     ++ nl ++ after))
        /\ (lines = [] ->
            promptLines env files mode platform cfg
            = split 10 before ++ [str "    "] ++ split 10 after)
        /\ (forall first rest,
              lines = first :: rest ->
              (forall label v, In (label, Some v) (targeting_fields cfg) ->
                               ~ In 10%N v) ->
              promptLines env files mode platform cfg
              = split 10 before ++ ((str "    " ++ first) :: rest)
                ++ split 10 after)).
Proof.
  intros lines. split; [apply targeting_refines|].
  pose proof (labeled_lines_sound (targeting_fields cfg)) as Hs.
  split; [exact Hs|]. intros Hm.
  destruct (@prompt_slot env files mode platform cfg Hm)
    as (before & after & H).
  pose proof (H (geography cfg) (targetAudience cfg) (targetLanguage cfg)
                (demographics cfg)) as Hc.
  rewrite retarget_self in Hc.
  exists before, after. split; [exact Hc|]. split; [exact H|].
  assert (Hl : promptLines env files mode platform cfg
               = split 10 before ++ split 10 (str "    " ++ targeting cfg)
                 ++ split 10 after).
  { unfold promptLines. rewrite Hc.
    change (before ++ nl ++ (str "    " ++ targeting cfg) ++ nl ++ after)
      with (before ++ 10%N :: ((str "    " ++ targeting cfg) ++ 10%N :: after)).
    now rewrite !split_app. }
  rewrite Hl, targeting_refines. fold lines. split.
  - intros ->. reflexivity.
  - intros first rest E Hv. rewrite E. do 2 f_equal.
    replace (str "    " ++ join nl (first :: rest))
      with (join [10%N] ((str "    " ++ first) :: rest))
      by (destruct rest; [reflexivity|];
          change (join [10%N] ((str "    " ++ first) :: j :: rest))
            with ((str "    " ++ first) ++ nl ++ join nl (j :: rest));
          now rewrite <- app_assoc).
    apply split_join; [discriminate|].
    assert (Hfree : forall l, In l lines -> ~ In 10%N l).
    { intros l Hin. rewrite Forall_forall in Hs.
      destruct (Hs _ Hin) as (label & v & Hf & _ & ->).
      intros Hx. apply in_app_or in Hx as [Hx|Hx].
      - exact (@labels_hold_no_line_feed _ _ _ Hf Hx).
      - exact (Hv _ _ Hf Hx). }
    rewrite E in Hfree.
    intros l [<-|Hin].
    + intros Hx. apply in_app_or in Hx as [Hx|Hx].
      * vm_compute in Hx.
        repeat (destruct Hx as [Hx|Hx]; [discriminate Hx|]). exact Hx.
      * apply (Hfree first); [now left|exact Hx].
    + apply Hfree. now right.
Qed.

Lemma targeting_block_lines_witness :
  exists before after,
    promptLines (replying sampleReply) [] GENERATION (str "Instagram")
      targetedConfig
    = split 10 before
      ++ [str "    Target Geography: Brazil"; str "Target Demographics: 18-24"]
      ++ split 10 after.
Proof.
  destruct (@targeting_block_lines (replying sampleReply) [] GENERATION
              (str "Instagram") targetedConfig) as (_ & _ & H).
  destruct H as (before & after & _ & _ & _ & H); [discriminate|].
  exists before, after.
  apply (H (str "Target Geography: Brazil") [str "Target Demographics: 18-24"]).
  - reflexivity.
  - intros label v Hin. vm_compute in Hin.
    destruct Hin as [E|[E|[E|[E|[]]]]]; try discriminate E;
      injection E as _ <-; intros Hx;
      repeat (destruct Hx as [Hx|Hx]; [discriminate Hx|]); exact Hx.
Defined.

(** C8, as it is worded, fails in two ways.  A value that holds line feeds
    is embedded as it is: a geography of two line feeds and an x gives a
    bare label, a blank line and the x.  And with all four fields empty,
    the Competitor Spy prompt keeps a line of four spaces where the block
    would stand. *)
Lemma targeting_block_blank_lines :
  split 10
    (targeting (retarget (Some (nl ++ nl ++ str "x")) None None None
                  emptyConfig))
  = [str "Target Geography: "; []; str "x"]
  /\ exists before after,
       promptLines (replying sampleReply) [] COMPETITOR_SPY (str "Instagram")
         emptyConfig
       = before
         ++ [str "    Analyzing 0 inputs as a " ++ quoted (str "Data Set")
               ++ str ".";
             str "    ";
             str "    Do NOT analyze individually. Look for patterns."]
         ++ after.
Proof.
  split; [reflexivity|].
  exists (firstn 4 (promptLines (replying sampleReply) [] COMPETITOR_SPY
                      (str "Instagram") emptyConfig)),
         (skipn 7 (promptLines (replying sampleReply) [] COMPETITOR_SPY
                     (str "Instagram") emptyConfig)).
  vm_compute. reflexivity.
Qed.

(* ===================================================================== *)
(** * Normalization of a Trend Hunter reply *)
(* ===================================================================== *)

Section Normalization.

Variable env : Env.

Lemma no_trends_array (trends : value) :
  (forall l, trends = JArr l -> l = []) ->
  truthy trends && isArray trends && length_positive trends = false.
Proof.
  intros H. destruct trends as [|b|n|s|l|m];
    simpl; rewrite ?andb_false_r; simpl; try reflexivity.
  now rewrite (H l eq_refl).
Qed.

(** C4. Normalization of a Trend Hunter reply: an object whose [trends] is
    the one-element array [{headline: H, whyItsHot: W, contentIdea: C}]
    gives that array back; the empty object fails with the no-trends
    error; the object [{headline: H, contentIdea: C}] without [trends]
    gives one synthesized item; and an object whose [trends] is the empty
    array and that has none of the fallback fields fails with the
    no-trends error. *)
Theorem trend_hunter_normalization_cases :
  (forall H W C,
      normalize env TREND_HUNTER
        (JObj [(str "trends", JArr [trendItem H W C])])
      = inr (JArr [trendItem H W C]))
  /\ normalize env TREND_HUNTER (JObj []) = inl (Error NO_TRENDS_MESSAGE)
  /\ (forall H C, H <> [] -> C <> [] ->
      normalize env TREND_HUNTER
        (JObj [member (str "headline") H; member (str "contentIdea") C])
      = inr (JArr [JObj [ member (str "headline") H;
                          (str "whyItsHot", DEFAULT_WHY);
                          member (str "contentIdea") C ]]))
  /\ (forall m,
      lookup_last (str "trends") m = Some (JArr []) ->
      lookup_last (str "trend") m = None ->
      lookup_last (str "headline") m = None ->
      lookup_last (str "contentIdea") m = None ->
      normalize env TREND_HUNTER (JObj m) = inl (Error NO_TRENDS_MESSAGE)).
Proof.
  split; [|split; [|split]].
  - intros H W C. reflexivity.
  - reflexivity.
  - intros [|h H] [|c C] HH HC; try contradiction. reflexivity.
  - intros m Ht H1 H2 H3. unfold normalize, prop.
    now rewrite Ht, H1, H2, H3.
Qed.

(** C10, as amended.  Whenever the parsed reply has no non-empty
    [trends] array and at least one of [trend], [headline],
    [contentIdea] is truthy (a key whose value is falsy, such as the
    empty string, does not count), normalization returns exactly one
    synthesized item, in which [headline], [whyItsHot] and [contentIdea]
    are the parsed values when truthy and the fixed defaults otherwise; a
    truthy [trend] alone gives the item made of the three defaults. *)
Theorem fallback_synthesizes_one_trend :
  (forall parsed,
      (forall l, prop parsed (str "trends") = Some (JArr l) -> l = []) ->
      truthy_opt (prop parsed (str "trend")) = true
      \/ truthy_opt (prop parsed (str "headline")) = true
      \/ truthy_opt (prop parsed (str "contentIdea")) = true ->
      normalize env TREND_HUNTER parsed
      = inr (JArr [JObj
          [ (str "headline",
             or_else (prop parsed (str "headline")) (JStr (str "Trend Detected")));
            (str "whyItsHot",
             or_else (prop parsed (str "whyItsHot"))
               (JStr (str "Currently trending in your niche")));
            (str "contentIdea",
             or_else (prop parsed (str "contentIdea"))
               (JStr (str "Create content around this trend"))) ]]))
  /\ (forall t, truthy t = true ->
      normalize env TREND_HUNTER (JObj [(str "trend", t)])
      = inr (JArr [JObj
          [ (str "headline", JStr (str "Trend Detected"));
            (str "whyItsHot", JStr (str "Currently trending in your niche"));
            (str "contentIdea", JStr (str "Create content around this trend")) ]])).
Proof.
  assert (main : forall parsed,
      (forall l, prop parsed (str "trends") = Some (JArr l) -> l = []) ->
      truthy_opt (prop parsed (str "trend")) = true
      \/ truthy_opt (prop parsed (str "headline")) = true
      \/ truthy_opt (prop parsed (str "contentIdea")) = true ->
      normalize env TREND_HUNTER parsed = inr (JArr [synthesized parsed])).
  { intros parsed Hno Hany.
    assert (Hcond : truthy_opt (prop parsed (str "trend"))
                    || truthy_opt (prop parsed (str "contentIdea"))
                    || truthy_opt (prop parsed (str "headline")) = true).
    { destruct Hany as [H|[H|H]]; rewrite H; simpl;
        rewrite ?orb_true_r; reflexivity. }
    unfold normalize.
    destruct parsed; try discriminate Hcond. cbv zeta. rewrite Hcond.
    destruct (prop (JObj m) (str "trends")) as [trends|]; [|reflexivity].
    rewrite no_trends_array; [reflexivity|].
    intros l ->. now apply Hno. }
  split.
  - exact main.
  - intros t Ht.
    rewrite main; [reflexivity| |].
    + intros l. simpl. discriminate.
    + left. simpl. exact Ht.
Qed.

End Normalization.

Lemma fallback_synthesizes_one_trend_witness :
  normalize (replying []) TREND_HUNTER
    (JObj [ (str "trends", JArr []); member (str "contentIdea") (str "Film it") ])
  = inr (JArr [JObj
      [ (str "headline", JStr (str "Trend Detected"));
        (str "whyItsHot", JStr (str "Currently trending in your niche"));
        member (str "contentIdea") (str "Film it") ]]).
Proof.
  apply (proj1 (fallback_synthesizes_one_trend (replying []))
           (JObj [ (str "trends", JArr []);
                   member (str "contentIdea") (str "Film it") ])).
  - intros l H. vm_compute in H. now injection H as <-.
  - right. right. vm_compute. reflexivity.
Defined.

(** C10 as stated fails: the reply [{headline: ''}] has the top-level key
    [headline] and no [trends], yet normalization throws the no-trends
    error instead of synthesizing an item. *)
Lemma headline_key_with_empty_value_is_rejected :
  prop (JObj [member (str "headline") []]) (str "headline") = Some (JStr [])
  /\ prop (JObj [member (str "headline") []]) (str "trends") = None
  /\ normalize (replying []) TREND_HUNTER (JObj [member (str "headline") []])
     = inl (Error NO_TRENDS_MESSAGE).
Proof. repeat split. Qed.

Lemma trend_hunter_normalization_cases_witness :
  normalize (replying []) TREND_HUNTER
    (JObj [member (str "headline") (str "H"); member (str "contentIdea") (str "C")])
  = inr (JArr [JObj [ member (str "headline") (str "H");
                      (str "whyItsHot", DEFAULT_WHY);
                      member (str "contentIdea") (str "C") ]])
  /\ normalize (replying []) TREND_HUNTER
       (JObj [(str "trends", JArr []); (str "note", JNull)])
     = inl (Error NO_TRENDS_MESSAGE).
Proof.
  destruct (trend_hunter_normalization_cases (replying []))
    as (_ & _ & Hfallback & Hempty).
  split.
  - apply Hfallback; discriminate.
  - apply Hempty; reflexivity.
Defined.

(* ===================================================================== *)
(** * Reasoning about runs *)
(* ===================================================================== *)

Section Emits.

Variable P : event -> Prop.

Lemma emits_ret (A : Type) (a : A) : emits P (ret a).
Proof. intros h. exists []. split; [reflexivity|constructor]. Qed.

Lemma emits_throw (A : Type) (e : thrown) : emits P (@throw A e).
Proof. intros h. exists []. split; [reflexivity|constructor]. Qed.

Lemma emits_lift (A : Type) (r : thrown + A) : emits P (lift r).
Proof. destruct r; [apply emits_throw|apply emits_ret]. Qed.

Lemma emits_emit (ev : event) : P ev -> emits P (emit ev).
Proof. intros H h. exists [ev]. split; [reflexivity|now constructor]. Qed.

Lemma emits_call (A : Type) (ev : event) (answer : history -> thrown + A) :
  P ev -> emits P (call ev answer).
Proof.
  intros H h. exists [ev]. unfold call.
  destruct (answer h); (split; [reflexivity|now constructor]).
Qed.

Lemma emits_bind (A B : Type) (m : M A) (k : A -> M B) :
  emits P m -> (forall a, emits P (k a)) -> emits P (bind m k).
Proof.
  intros Hm Hk h. unfold bind.
  destruct (Hm h) as (evs & E & Hevs).
  destruct (m h) as [[a|e] h1]; simpl in E; subst h1.
  - destruct (Hk a (evs ++ h)) as (evs' & E' & Hevs').
    exists (evs' ++ evs). rewrite E', app_assoc. split; [reflexivity|].
    now apply Forall_app.
  - now exists evs.
Qed.

Lemma emits_try_catch (A : Type) (m : M A) (handler : thrown -> M A) :
  emits P m -> (forall e, emits P (handler e)) -> emits P (try_catch m handler).
Proof.
  intros Hm Hk h. unfold try_catch.
  destruct (Hm h) as (evs & E & Hevs).
  destruct (m h) as [[a|e] h1]; simpl in E; subst h1.
  - now exists evs.
  - destruct (Hk e (evs ++ h)) as (evs' & E' & Hevs').
    exists (evs' ++ evs). rewrite E', app_assoc. split; [reflexivity|].
    now apply Forall_app.
Qed.

End Emits.

(** One step through the structure of a computation. *)
Ltac emits_step :=
  first [ apply emits_bind; [|intros ?]
        | apply emits_try_catch; [|intros ?]
        | apply emits_ret | apply emits_throw | apply emits_lift
        | apply emits_emit; simpl; trivial
        | apply emits_call; simpl; trivial ].

Section EmitsService.

Variable env : Env.
Variable P : event -> Prop.
Hypothesis P_read : forall f, P (EvRead f).
Hypothesis P_upload : forall f, P (EvUpload f).
Hypothesis P_get : forall n, P (EvGet n).
Hypothesis P_sleep : forall ms, P (EvSleep ms).
Hypothesis P_console : forall l e, P (EvConsoleError l e).

Lemma emits_fileToPart (f : File) : emits P (fileToPart env f).
Proof. unfold fileToPart. repeat emits_step. Qed.

Lemma emits_poll (budget : nat) (name : option jsstring) (info : RemoteFile) :
  emits P (poll env budget name info).
Proof.
  revert info; induction budget as [|b IH]; intros info; simpl.
  - apply emits_ret.
  - destruct (is_string (rf_state info) (str "PROCESSING")).
    + repeat emits_step. apply IH.
    + apply emits_ret.
Qed.

Lemma emits_uploadLargeFile (f : File) : emits P (uploadLargeFile env f).
Proof.
  unfold uploadLargeFile. repeat emits_step.
  - apply emits_poll.
  - destruct (is_string _ _); emits_step.
Qed.

Lemma emits_encodeFile (f : File) : emits P (encodeFile env f).
Proof.
  unfold encodeFile. destruct (N.ltb _ _);
    [apply emits_uploadLargeFile|apply emits_fileToPart].
Qed.

Lemma emits_encodeFiles (files : list File) : emits P (encodeFiles env files).
Proof.
  induction files as [|f files IH]; simpl.
  - apply emits_ret.
  - emits_step; [apply emits_encodeFile|]. emits_step; [exact IH|]. emits_step.
Qed.

Lemma emits_buildParts (files : list File) (mode : AppMode) (prompt : jsstring) :
  emits P (buildParts env files mode prompt).
Proof.
  destruct mode; simpl; try apply emits_ret;
    (emits_step; [apply emits_encodeFiles|emits_step]).
Qed.

End EmitsService.

Lemma emits_callAndNormalize (env : Env) (P : event -> Prop) (mode : AppMode)
    (request : Request) :
  P (EvGenerate request) -> emits P (callAndNormalize env mode request).
Proof.
  intros H. unfold callAndNormalize. emits_step.
  - emits_step; [emits_step; exact H|].
    destruct a as [[|c text]|]; try emits_step.
    destruct (JSON_parse _); emits_step.
  - destruct (is_string _ _); emits_step.
Qed.

(** Every generation call that [analyzeContent] makes carries the
    configuration of step 3. *)
Lemma analyzeContent_configured (env : Env) (files : list File)
    (mode : AppMode) (platform : Platform) (cfg : Config) (apiKey : jsstring) :
  emits (configured mode cfg)
    (analyzeContent env files mode platform cfg apiKey).
Proof.
  unfold analyzeContent. emits_step.
  - destruct (negb (nonempty apiKey)); [emits_step|].
    emits_step; [emits_step|].
    emits_step; [apply emits_buildParts; intros; exact I|].
    apply emits_callAndNormalize. reflexivity.
  - repeat emits_step.
Qed.

(* ===================================================================== *)
(** * The response contract *)
(* ===================================================================== *)

Lemma schema_mirrors_AnalysisResult :
  shape_of ANALYSIS_RESULT_SCHEMA = ANALYSIS_RESULT
  /\ required_of ANALYSIS_RESULT_SCHEMA
     = [str "visualAudit"; str "strategy"; str "seo"; str "virality"].
Proof. split; reflexivity. Qed.

Lemma useSearch_true (mode : AppMode) (cfg : Config) :
  useSearch mode cfg = true
  <-> mode = TREND_HUNTER \/ enableLiveTrends cfg = Some true.
Proof.
  unfold useSearch. rewrite orb_true_iff. split.
  - intros [H|H].
    + left. now destruct mode.
    + right. now destruct (enableLiveTrends cfg) as [[|]|].
  - intros [->| ->]; [now left|now right].
Qed.

(** C1. Every request that [analyzeContent] hands to the generation API
    carries either the Google search tool or the output schema, never
    both: when the mode is Trend Hunter or [enableLiveTrends] is true the
    search tool is attached and neither [responseSchema] nor
    [responseMimeType] is set; otherwise the schema that mirrors
    [AnalysisResult] is set, with the JSON mime type, and no tool is
    attached. *)
Theorem search_and_schema_exclusive (env : Env) (files : list File)
    (mode : AppMode) (platform : Platform) (cfg : Config) (apiKey : jsstring)
    (request : Request) :
  In (EvGenerate request)
     (snd (analyzeContent env files mode platform cfg apiKey [])) ->
  let gc := config request in
  (mode = TREND_HUNTER \/ enableLiveTrends cfg = Some true ->
     tools gc = Some [googleSearch]
     /\ responseSchema gc = None /\ responseMimeType gc = None)
  /\ (~ (mode = TREND_HUNTER \/ enableLiveTrends cfg = Some true) ->
     tools gc = None
     /\ responseSchema gc = Some ANALYSIS_RESULT_SCHEMA
     /\ responseMimeType gc = Some (str "application/json")
     /\ shape_of ANALYSIS_RESULT_SCHEMA = ANALYSIS_RESULT)
  /\ ~ (tools gc <> None /\ responseSchema gc <> None).
Proof.
  intros Hin gc.
  assert (Hgc : gc = generateConfig mode cfg).
  { destruct (analyzeContent_configured env files mode platform cfg apiKey [])
      as (evs & E & Hevs).
    rewrite E, app_nil_r in Hin. rewrite Forall_forall in Hevs.
    exact (Hevs _ Hin). }
  rewrite Hgc. unfold generateConfig.
  destruct (useSearch mode cfg) eqn:Hs.
  - split; [|split].
    + intros _. simpl. auto.
    + intros Hn. exfalso. apply Hn. now apply useSearch_true.
    + simpl. intros [_ H]. now apply H.
  - split; [|split].
    + intros H. apply useSearch_true in H. congruence.
    + intros _. simpl. repeat split.
    + simpl. intros [H _]. now apply H.
Qed.

Lemma search_and_schema_exclusive_witness :
  exists request,
    sent_request
      (snd (analyzeContent (replying sampleReply) [sampleFile 2097152]
              GENERATION (str "Instagram") (withLiveTrends emptyConfig)
              (str "key") [])) = Some request
    /\ tools (config request) = Some [googleSearch]
    /\ responseSchema (config request) = None
    /\ responseMimeType (config request) = None.
Proof.
  eexists. split; [vm_compute; reflexivity|].
  refine (proj1 (search_and_schema_exclusive (replying sampleReply)
                   [sampleFile 2097152] GENERATION (str "Instagram")
                   (withLiveTrends emptyConfig) (str "key") _ _) _).
  - vm_compute. left. reflexivity.
  - right. reflexivity.
Defined.

(* ===================================================================== *)
(** * Validation of the combined size in [handleAnalyze] *)
(* ===================================================================== *)

(** C5. When the combined size of the files exceeds 100 MiB,
    [handleAnalyze] ends with a validation message and without any effect
    on the outside world: no file is read or uploaded and no request is
    sent; the message is the one of the size check whenever the checks of
    the mode pass.  A combined size of at most 100 MiB, in particular of
    exactly 100 MiB, passes the size check: the handler goes on to the
    analysis. *)
Theorem total_size_ceiling (env : Env) (mode : AppMode) (platform : Platform)
    (files : list FileInput) (cfg : Config) (apiKey : jsstring)
    (s : PageState) (h : history) :
  ((MAX_TOTAL_SIZE < totalSize (map file files))%N ->
     exists msg s',
       handleAnalyze env mode platform files cfg apiKey s h = (Ok s', h)
       /\ error s' = Some msg
       /\ (modeValidation mode files cfg = None ->
           msg = TOTAL_SIZE_MESSAGE /\ isAnalyzing s' = false))
  /\ ((totalSize (map file files) <= MAX_TOTAL_SIZE)%N ->
      modeValidation mode files cfg = None ->
      handleAnalyze env mode platform files cfg apiKey s
      = runAnalysis env mode platform (map file files) cfg apiKey
          (startAnalysis s)).
Proof.
  unfold handleAnalyze. split.
  - intros Hbig. apply N.ltb_lt in Hbig.
    destruct (modeValidation mode files cfg) as [msg|].
    + exists msg, (setError (Some msg) s).
      split; [reflexivity|]. split; [reflexivity|]. discriminate.
    + rewrite Hbig. eexists _, _.
      split; [reflexivity|]. split; [reflexivity|].
      intros _. split; reflexivity.
  - intros Hok ->. apply N.ltb_ge in Hok. now rewrite Hok.
Qed.

Lemma total_size_ceiling_witness :
  (exists msg s',
      handleAnalyze (replying sampleReply) GENERATION (str "Instagram")
        (fileInputs [104857600; 1]%N) emptyConfig (str "key") idlePage []
      = (Ok s', [])
      /\ error s' = Some msg
      /\ (modeValidation GENERATION (fileInputs [104857600; 1]%N) emptyConfig
          = None -> msg = TOTAL_SIZE_MESSAGE /\ isAnalyzing s' = false))
  /\ handleAnalyze (replying sampleReply) GENERATION (str "Instagram")
       (fileInputs [104857599; 1]%N) emptyConfig (str "key") idlePage
     = runAnalysis (replying sampleReply) GENERATION (str "Instagram")
         (map file (fileInputs [104857599; 1]%N)) emptyConfig (str "key")
         (startAnalysis idlePage).
Proof.
  split.
  - apply (proj1 (total_size_ceiling (replying sampleReply) GENERATION
                    (str "Instagram") (fileInputs [104857600; 1]%N)
                    emptyConfig (str "key") idlePage [])).
    vm_compute. reflexivity.
  - apply (proj2 (total_size_ceiling (replying sampleReply) GENERATION
                    (str "Instagram") (fileInputs [104857599; 1]%N)
                    emptyConfig (str "key") idlePage [])).
    + vm_compute. discriminate.
    + reflexivity.
Defined.

(* ===================================================================== *)
(** * Encoding of the files *)
(* ===================================================================== *)

Lemma bind_Ok (A B : Type) (m : M A) (k : A -> M B) (h h' : history) (b : B) :
  bind m k h = (Ok b, h') ->
  exists a h1, m h = (Ok a, h1) /\ k a h1 = (Ok b, h').
Proof.
  unfold bind. destruct (m h) as [[a|e] h1]; [|discriminate].
  intros H. now exists a, h1.
Qed.

Lemma bind_run_ok (A B : Type) (m : M A) (k : A -> M B) (h h1 : history)
    (a : A) :
  m h = (Ok a, h1) -> bind m k h = k a h1.
Proof. intros H. unfold bind. now rewrite H. Qed.

Lemma bind_run_throw (A B : Type) (m : M A) (k : A -> M B) (h h1 : history)
    (e : thrown) :
  m h = (Throw e, h1) -> bind m k h = (Throw e, h1).
Proof. intros H. unfold bind. now rewrite H. Qed.

Lemma call_ok (A : Type) (ev : event) (answer : history -> thrown + A)
    (h : history) (a : A) :
  answer h = inr a -> call ev answer h = (Ok a, ev :: h).
Proof. intros H. unfold call. now rewrite H. Qed.

Lemma call_throw_at (A : Type) (ev : event) (answer : history -> thrown + A)
    (h : history) (e : thrown) :
  answer h = inl e -> call ev answer h = (Throw e, ev :: h).
Proof. intros H. unfold call. now rewrite H. Qed.

Section Encoding.

Variable env : Env.

Lemma fileToPart_run (f : File) (h : history) :
  snd (fileToPart env f h) = EvRead f :: h
  /\ forall part, fst (fileToPart env f h) = Ok part ->
       exists data, part = InlineData data (file_type f).
Proof.
  unfold fileToPart, bind, call.
  destruct (readAsDataURL env h f) as [e|url]; simpl.
  - split; [reflexivity|discriminate].
  - split; [reflexivity|]. intros part H. injection H as <-. eauto.
Qed.

(** What [uploadLargeFile] throws is always the one upload error. *)
Lemma uploadLargeFile_throws (f : File) (h h' : history) (e : thrown) :
  uploadLargeFile env f h = (Throw e, h') -> e = Error UPLOAD_FAILED_MESSAGE.
Proof.
  unfold uploadLargeFile, try_catch.
  match goal with |- context [match ?body h with _ => _ end] =>
    destruct (body h) as [[part|e0] h1] end.
  - discriminate.
  - unfold bind, emit, throw. intros H. now injection H as <- _.
Qed.

Lemma uploadLargeFile_returns (f : File) (h : history) (part : Part) :
  fst (uploadLargeFile env f h) = Ok part ->
  exists uri mime, part = FileData uri mime.
Proof.
  unfold uploadLargeFile, try_catch.
  match goal with |- context [match ?body h with _ => _ end] =>
    destruct (body h) as [[p|e0] h1] eqn:E end; simpl.
  - intros H. injection H as ->.
    apply bind_Ok in E as (up & h2 & _ & E).
    apply bind_Ok in E as (info0 & h3 & _ & E).
    apply bind_Ok in E as (info & h4 & _ & E).
    destruct (is_string (rf_state info) (str "FAILED")); [discriminate|].
    injection E as <- _. eauto.
  - unfold bind, emit, throw. discriminate.
Qed.

Lemma uploadLargeFile_starts_with_upload (f : File) (h : history) :
  exists evs, snd (uploadLargeFile env f h) = evs ++ EvUpload f :: h
              /\ Forall (fun ev => ~ is_read ev) evs.
Proof.
  assert (Hrest : forall up : RemoteFile,
    emits (fun ev => ~ is_read ev)
      (let name := rf_name up in
       bind (call (EvGet name) (fun h => files_get env h name)) (fun fileInfo =>
       bind (poll env 30 name fileInfo) (fun fileInfo =>
       if is_string (rf_state fileInfo) (str "FAILED") then
         throw (Error (str "File processing failed on Gemini server."))
       else ret (FileData (rf_uri fileInfo) (rf_mimeType fileInfo)))))).
  { intros up. cbv zeta. emits_step; [emits_step; auto|].
    emits_step; [apply emits_poll; simpl; auto|].
    destruct (is_string _ _); emits_step. }
  unfold uploadLargeFile, try_catch. unfold bind at 1. unfold call at 1.
  destruct (files_upload env h f) as [e|up].
  - exists [EvConsoleError (str "File upload error:") e].
    split; [reflexivity|]. constructor; [simpl; auto|constructor].
  - destruct (Hrest up (EvUpload f :: h)) as (evs & E & Hevs).
    cbv zeta in E.
    match type of E with snd ?r = _ => destruct r as [[p|e] h1] end;
      simpl in E; subst h1.
    + now exists evs.
    + exists (EvConsoleError (str "File upload error:") e :: evs).
      split; [reflexivity|]. constructor; [simpl; auto|exact Hevs].
Qed.

(** C2, as amended.  The encoding of a file is chosen by its size against
    the cutoff of 20 MiB: a file of at most 20 MiB, the cutoff included,
    is read and encoded inline, with no upload; a file strictly larger
    than 20 MiB goes through the upload and polling, which starts with the
    upload call and never reads the file. *)
Theorem encoding_path_by_size (f : File) :
  ((file_size f <= 20 * 1024 * 1024)%N ->
     encodeFile env f = fileToPart env f
     /\ forall h,
          snd (encodeFile env f h) = EvRead f :: h
          /\ forall part, fst (encodeFile env f h) = Ok part ->
               exists data, part = InlineData data (file_type f))
  /\ ((20 * 1024 * 1024 < file_size f)%N ->
     encodeFile env f = uploadLargeFile env f
     /\ forall h,
          (exists evs, snd (encodeFile env f h) = evs ++ EvUpload f :: h
                       /\ Forall (fun ev => ~ is_read ev) evs)
          /\ forall part, fst (encodeFile env f h) = Ok part ->
               exists uri mime, part = FileData uri mime).
Proof.
  unfold encodeFile. change FILE_SIZE_THRESHOLD with (20 * 1024 * 1024)%N.
  split; intros H.
  - apply N.ltb_ge in H. rewrite H. split; [reflexivity|].
    intros h. apply fileToPart_run.
  - apply N.ltb_lt in H. rewrite H. split; [reflexivity|].
    intros h. split.
    + apply uploadLargeFile_starts_with_upload.
    + apply uploadLargeFile_returns.
Qed.

End Encoding.

Lemma encoding_path_by_size_witness :
  encodeFile (replying sampleReply) (sampleFile 20971520)
  = fileToPart (replying sampleReply) (sampleFile 20971520)
  /\ encodeFile (replying sampleReply) (sampleFile 20971521)
     = uploadLargeFile (replying sampleReply) (sampleFile 20971521).
Proof.
  split.
  - apply (proj1 (encoding_path_by_size (replying sampleReply)
                    (sampleFile 20971520))).
    vm_compute. discriminate.
  - apply (proj2 (encoding_path_by_size (replying sampleReply)
                    (sampleFile 20971521))).
    vm_compute. reflexivity.
Defined.

(** C2 as stated fails at the cutoff itself: a file of exactly 20 MiB is
    read and encoded inline, and nothing is uploaded. *)
Lemma file_at_threshold_is_inline :
  file_size (sampleFile 20971520) = FILE_SIZE_THRESHOLD
  /\ encodeFile (replying sampleReply) (sampleFile 20971520) []
     = (Ok (InlineData (str "aGVsbG8=") (str "video/mp4")),
        [EvRead (sampleFile 20971520)])
  /\ encodeFile (replying sampleReply) (sampleFile 20971520) []
     <> uploadLargeFile (replying sampleReply) (sampleFile 20971520) [].
Proof.
  split; [reflexivity|]. split; [reflexivity|].
  vm_compute. discriminate.
Qed.

(* ===================================================================== *)
(** * The upload handshake *)
(* ===================================================================== *)

Lemma rounds_shift (n : nat) (name : option jsstring) (h : history) :
  rounds n name ++ EvGet name :: EvSleep 2000 :: h
  = EvGet name :: EvSleep 2000 :: rounds n name ++ h.
Proof.
  induction n as [|n IH]; simpl; [reflexivity|]. now rewrite IH.
Qed.

Section Handshake.

Variable env : Env.

(** While the service keeps answering the same processing status, the
    loop uses its whole budget and ends normally with that status. *)
Lemma poll_exhausts_budget (budget : nat) (name : option jsstring)
    (info : RemoteFile) (h : history) :
  (forall h', files_get env h' name = inr info) ->
  rf_state info = Some (str "PROCESSING") ->
  poll env budget name info h = (Ok info, rounds budget name ++ h).
Proof.
  intros Hget Hstate. revert h.
  induction budget as [|b IH]; intros h; simpl; [reflexivity|].
  rewrite Hstate. simpl.
  rewrite (@bind_run_ok _ _ (emit (EvSleep 2000)) _ h _ tt eq_refl).
  rewrite (@bind_run_ok _ _ _ _ _ _ _
             (@call_ok _ (EvGet name) (fun h => files_get env h name) _ _
                (Hget _))).
  now rewrite IH, rounds_shift.
Qed.

(** The loop stops at once on a status that is not processing. *)
Lemma poll_stops (budget : nat) (name : option jsstring) (info : RemoteFile)
    (h : history) :
  is_string (rf_state info) (str "PROCESSING") = false ->
  poll env budget name info h = (Ok info, h).
Proof. intros H. destruct budget; simpl; [|rewrite H]; reflexivity. Qed.

(** The first half of C3 holds: when the polling ends on the status
    FAILED, [uploadLargeFile] throws. *)
Lemma failed_status_throws (f : File) (h h1 h2 h3 : history)
    (up info0 info : RemoteFile) :
  files_upload env h f = inr up ->
  files_get env (EvUpload f :: h) (rf_name up) = inr info0 ->
  poll env 30 (rf_name up) info0 (EvGet (rf_name up) :: EvUpload f :: h)
  = (Ok info, h2) ->
  rf_state info = Some (str "FAILED") ->
  fst (uploadLargeFile env f h) = Throw (Error UPLOAD_FAILED_MESSAGE).
Proof.
  intros Hup Hget Hpoll Hstate.
  unfold uploadLargeFile, try_catch.
  rewrite (@bind_run_ok _ _ _ _ _ _ _
             (@call_ok _ (EvUpload f) (fun h => files_upload env h f) _ _ Hup)).
  rewrite (@bind_run_ok _ _ _ _ _ _ _
             (@call_ok _ (EvGet (rf_name up))
                (fun h => files_get env h (rf_name up)) _ _ Hget)).
  rewrite (@bind_run_ok _ _ _ _ _ _ _ Hpoll), Hstate. reflexivity.
Qed.

(** C3 at the input that breaks it.  When the upload succeeds and every
    status query keeps answering PROCESSING, [uploadLargeFile] runs its
    30 rounds of waiting and querying and then returns normally, with the
    reference of a file that is still being processed: running out of
    attempts is not an error. *)
Theorem polling_timeout_is_silent (f : File) (h : history)
    (up info : RemoteFile) :
  files_upload env h f = inr up ->
  (forall h', files_get env h' (rf_name up) = inr info) ->
  rf_state info = Some (str "PROCESSING") ->
  uploadLargeFile env f h
  = (Ok (FileData (rf_uri info) (rf_mimeType info)),
     rounds 30 (rf_name up) ++ EvGet (rf_name up) :: EvUpload f :: h).
Proof.
  intros Hup Hget Hstate.
  unfold uploadLargeFile, try_catch.
  rewrite (@bind_run_ok _ _ _ _ _ _ _
             (@call_ok _ (EvUpload f) (fun h => files_upload env h f) _ _ Hup)).
  rewrite (@bind_run_ok _ _ _ _ _ _ _
             (@call_ok _ (EvGet (rf_name up))
                (fun h => files_get env h (rf_name up)) _ _ (Hget _))).
  rewrite (@bind_run_ok _ _ _ _ _ _ _
             (@poll_exhausts_budget 30 _ _ _ Hget Hstate)), Hstate.
  reflexivity.
Qed.

End Handshake.

Lemma polling_timeout_is_silent_witness :
  uploadLargeFile stuck (sampleFile 20971521) []
  = (Ok (FileData (rf_uri (remote (str "PROCESSING")))
                  (rf_mimeType (remote (str "PROCESSING")))),
     rounds 30 (rf_name (remote (str "PROCESSING")))
     ++ [EvGet (rf_name (remote (str "PROCESSING")));
         EvUpload (sampleFile 20971521)]).
Proof.
  apply (@polling_timeout_is_silent stuck (sampleFile 20971521) []
           (remote (str "PROCESSING")) (remote (str "PROCESSING")));
    reflexivity.
Defined.

Example failed_status_throws_run :
  fst (uploadLargeFile failing (sampleFile 20971521) [])
  = Throw (Error UPLOAD_FAILED_MESSAGE)
  /\ count_gets (snd (uploadLargeFile failing (sampleFile 20971521) [])) = 3%nat.
Proof. split; reflexivity. Qed.

(* ===================================================================== *)
(** * Errors surfaced by [analyzeContent] *)
(* ===================================================================== *)

Lemma categorize_upload_error :
  categorize (Error UPLOAD_FAILED_MESSAGE) = Error CONNECTION_FAILED_MESSAGE.
Proof. reflexivity. Qed.

Lemma categorize_no_trends :
  categorize (Error NO_TRENDS_MESSAGE) = Error CONNECTION_FAILED_MESSAGE.
Proof. reflexivity. Qed.

(** Whatever [analyzeContent] throws is one of three messages. *)
Lemma analyzeContent_throws (env : Env) (files : list File) (mode : AppMode)
    (platform : Platform) (cfg : Config) (apiKey : jsstring)
    (h h' : history) (e : thrown) :
  analyzeContent env files mode platform cfg apiKey h = (Throw e, h') ->
  e = Error TOO_LARGE_MESSAGE \/ e = Error TIMED_OUT_MESSAGE
  \/ e = Error CONNECTION_FAILED_MESSAGE.
Proof.
  unfold analyzeContent, try_catch.
  match goal with |- context [match ?body h with _ => _ end] =>
    destruct (body h) as [[v|e0] h1] end.
  - discriminate.
  - unfold bind, emit, throw. intros H. injection H as <- _.
    unfold categorize.
    destruct (_ || _); [now left|].
    destruct (_ || _); [right; now left|right; now right].
Qed.

Section Surfaced.

Variable env : Env.

Lemma promptText_standard (files : list File) (mode : AppMode)
    (platform : Platform) (cfg : Config) :
  mode <> TREND_HUNTER ->
  exists prompt, promptText env files mode platform cfg = inr prompt.
Proof. destruct mode; intros H; try contradiction; simpl; eauto. Qed.

(** C9 at the inputs that break it.  Every error that leaves
    [uploadLargeFile] is the one descriptive upload error; but when the
    encoding of the files of a request fails with it, the error that
    [analyzeContent] surfaces is the generic connection failure: the
    upload message is lost. *)
Theorem upload_error_is_collapsed :
  (forall f h h' e,
      uploadLargeFile env f h = (Throw e, h') ->
      e = Error UPLOAD_FAILED_MESSAGE)
  /\ (forall files mode platform cfg apiKey h h',
      apiKey <> [] -> mode <> TREND_HUNTER ->
      encodeFiles env files h = (Throw (Error UPLOAD_FAILED_MESSAGE), h') ->
      fst (analyzeContent env files mode platform cfg apiKey h)
      = Throw (Error CONNECTION_FAILED_MESSAGE)).
Proof.
  split; [apply uploadLargeFile_throws|].
  intros files mode platform cfg apiKey h h' Hkey Hmode Henc.
  destruct (promptText_standard files platform cfg Hmode) as [prompt Hp].
  unfold analyzeContent, try_catch.
  destruct apiKey as [|c apiKey]; [contradiction|].
  change (negb (nonempty (c :: apiKey))) with false. cbv iota.
  rewrite Hp. change (lift (inr prompt)) with (ret (A := jsstring) prompt).
  rewrite (@bind_run_ok _ _ (ret prompt) _ h _ prompt eq_refl).
  assert (Hb : buildParts env files mode prompt h
               = (Throw (Error UPLOAD_FAILED_MESSAGE), h')).
  { destruct mode; try contradiction; simpl;
      now rewrite (@bind_run_throw _ _ _ _ _ _ _ Henc). }
  rewrite (@bind_run_throw _ _ _ _ _ _ _ Hb). reflexivity.
Qed.

End Surfaced.

Lemma upload_error_is_collapsed_witness :
  fst (analyzeContent offline [sampleFile 20971521] GENERATION
         (str "Instagram") emptyConfig (str "key") [])
  = Throw (Error CONNECTION_FAILED_MESSAGE).
Proof.
  apply (proj2 (upload_error_is_collapsed offline) [sampleFile 20971521]
           GENERATION (str "Instagram") emptyConfig (str "key") []
           [EvConsoleError (str "File upload error:") (Error (str "fetch failed"));
            EvUpload (sampleFile 20971521)]).
  - discriminate.
  - discriminate.
  - reflexivity.
Defined.

(* ===================================================================== *)
(** * The live-search block of the prompt *)
(* ===================================================================== *)

Lemma startsWith_app_cases (m k s : jsstring) :
  startsWith m (k ++ s) = true ->
  startsWith k m = true \/ startsWith m k = true.
Proof.
  revert m; induction k as [|c k IH]; intros m H.
  - now left.
  - destruct m as [|x m]; [now right|].
    simpl in H. apply andb_true_iff in H as [Hx Hm].
    apply N.eqb_eq in Hx; subst x.
    simpl. rewrite N.eqb_refl. simpl. now apply IH.
Qed.

Lemma includes_past_boundary (a m s : jsstring) :
  boundary_clear a m = true ->
  includes (a ++ s) m = true -> includes s m = true.
Proof.
  induction a as [|c a IH]; intros Hb H; [exact H|].
  change (negb (startsWith (c :: a) m || startsWith m (c :: a))
          && boundary_clear a m = true) in Hb.
  apply andb_true_iff in Hb as [Hhere Hb].
  apply negb_true_iff in Hhere.
  change (startsWith m ((c :: a) ++ s) || includes (a ++ s) m = true) in H.
  apply orb_true_iff in H as [H|H].
  - apply startsWith_app_cases in H.
    apply orb_false_iff in Hhere as [H1 H2].
    destruct H as [H|H]; congruence.
  - now apply IH.
Qed.

Lemma includes_rev (s m : jsstring) :
  includes (rev s) (rev m) = true -> includes s m = true.
Proof.
  intros H. apply includes_infix in H as (l & r & E).
  apply includes_infix. exists (rev r), (rev l).
  apply (f_equal (@rev N)) in E.
  rewrite rev_involutive, !rev_app_distr, rev_involutive in E.
  now rewrite E, app_assoc.
Qed.

Lemma includes_rev_of (s m : jsstring) :
  includes s m = true -> includes (rev s) (rev m) = true.
Proof. intros H. apply includes_rev. now rewrite !rev_involutive. Qed.

Lemma live_block_shape (date : jsstring) (platform : Platform) :
  TREND_HUNTER_INSTRUCTION date (Some platform)
  = LIVE_BLOCK_HEAD ++ date ++ LIVE_BLOCK_MIDDLE
    ++ (if eqb_str platform TWITTER_X then TWITTER_SEARCH_STEP else [])
    ++ LIVE_BLOCK_TAIL.
Proof.
  unfold TREND_HUNTER_INSTRUCTION, template, LIVE_BLOCK_HEAD, LIVE_BLOCK_MIDDLE,
    LIVE_BLOCK_TAIL, quoted.
  cbn [join]. rewrite <- ?app_assoc. reflexivity.
Qed.

Lemma twitter_step_in_block (date : jsstring) (platform : Platform) :
  includes date TWITTER_SEARCH_STEP = false ->
  includes (TREND_HUNTER_INSTRUCTION date (Some platform)) TWITTER_SEARCH_STEP
  = true <-> platform = TWITTER_X.
Proof.
  intros Hdate. rewrite live_block_shape. split.
  - destruct (eqb_str platform TWITTER_X) eqn:E; [intros _; now apply eqb_str_eq|].
    intros H. exfalso.
    apply includes_past_boundary in H; [|vm_compute; reflexivity].
    apply includes_rev_of in H. rewrite rev_app_distr in H.
    apply includes_past_boundary in H; [|vm_compute; reflexivity].
    apply includes_rev in H. congruence.
  - intros ->. rewrite eqb_str_refl. apply includes_infix.
    exists (LIVE_BLOCK_HEAD ++ date ++ LIVE_BLOCK_MIDDLE), LIVE_BLOCK_TAIL.
    now rewrite <- !app_assoc.
Qed.

(** C6, as amended.  In Trend Hunter mode the prompt is the Trend Hunter
    template for the niche and the date, without the live-search block.
    In every other mode, when [enableLiveTrends] is true, the prompt
    starts with the live-search block followed by an empty line; and, the
    date text not holding the Twitter step itself, the block contains the
    Twitter step exactly when the platform is Twitter (X). *)
Theorem live_block_in_standard_modes (env : Env) (files : list File)
    (mode : AppMode) (platform : Platform) (cfg : Config) :
  (mode = TREND_HUNTER ->
     forall n, niche cfg = Some n -> n <> [] ->
       promptText env files mode platform cfg
       = inr (MODE_PROMPTS.TREND_HUNTER n (currentDate env)))
  /\ (mode <> TREND_HUNTER -> enableLiveTrends cfg = Some true ->
      (exists rest,
          promptText env files mode platform cfg
          = inr (TREND_HUNTER_INSTRUCTION (currentDate env) (Some platform)
                 ++ nl ++ nl ++ rest))
      /\ (includes (currentDate env) TWITTER_SEARCH_STEP = false ->
          (includes (TREND_HUNTER_INSTRUCTION (currentDate env) (Some platform))
             TWITTER_SEARCH_STEP = true
           <-> platform = TWITTER_X))).
Proof.
  split.
  - intros -> n Hn Hne. simpl. rewrite Hn.
    destruct n; [contradiction|reflexivity].
  - intros Hmode Hlive. split; [|apply twitter_step_in_block].
    unfold promptText. rewrite Hlive. cbn [truthy_flag].
    destruct mode; try contradiction;
      destruct (brandGuidelines cfg) as [[|b bs]|];
      eexists; cbn [app]; rewrite <- ?app_assoc; reflexivity.
Qed.

Lemma live_block_in_standard_modes_witness :
  (exists rest,
      promptText (replying []) [sampleFile 2097152] GENERATION TWITTER_X
        (withLiveTrends emptyConfig)
      = inr (TREND_HUNTER_INSTRUCTION (str "November 2026") (Some TWITTER_X)
             ++ nl ++ nl ++ rest))
  /\ (includes (TREND_HUNTER_INSTRUCTION (str "November 2026") (Some TWITTER_X))
        TWITTER_SEARCH_STEP = true
      <-> TWITTER_X = TWITTER_X).
Proof.
  destruct (proj2 (live_block_in_standard_modes (replying [])
                     [sampleFile 2097152] GENERATION TWITTER_X
                     (withLiveTrends emptyConfig))) as [Hprefix Htwitter].
  - discriminate.
  - reflexivity.
  - split; [exact Hprefix|]. apply Htwitter. vm_compute. reflexivity.
Defined.

(** C6 as stated fails in Trend Hunter mode: the prompt does not start
    with the live-search block, and does not contain its heading. *)
Lemma trend_hunter_prompt_lacks_live_block :
  promptText (replying []) [] TREND_HUNTER (str "Instagram")
    (withNiche (str "Vegan Cooking") emptyConfig)
  = inr (MODE_PROMPTS.TREND_HUNTER (str "Vegan Cooking") (str "November 2026"))
  /\ startsWith
       (TREND_HUNTER_INSTRUCTION (str "November 2026") (Some (str "Instagram")))
       (MODE_PROMPTS.TREND_HUNTER (str "Vegan Cooking") (str "November 2026"))
     = false
  /\ includes
       (MODE_PROMPTS.TREND_HUNTER (str "Vegan Cooking") (str "November 2026"))
       (str "LIVE TREND MODE ENABLED")
     = false.
Proof. repeat split; vm_compute; reflexivity. Qed.

(* ===================================================================== *)
(** * White space and the lexer of [JSON.parse] *)
(* ===================================================================== *)

Lemma isWhiteSpace_cases (c : N) :
  isWhiteSpace c = true ->
  (9 <= c <= 13 \/ c = 32 \/ c = 160 \/ c = 5760 \/ 8192 <= c <= 8202
   \/ c = 8232 \/ c = 8233 \/ c = 8239 \/ c = 8287 \/ c = 12288
   \/ c = 65279)%N.
Proof.
  unfold isWhiteSpace.
  rewrite !orb_true_iff, !andb_true_iff, !N.leb_le, !N.eqb_eq. tauto.
Qed.

(** A white space character differs from every character that is not. *)
Lemma ws_neq (c k : N) :
  isWhiteSpace c = true -> isWhiteSpace k = false -> N.eqb c k = false.
Proof.
  intros Hc Hk. destruct (N.eqb_spec c k) as [->|]; [congruence|reflexivity].
Qed.

Lemma ws_not_digit (c : N) : isWhiteSpace c = true -> isDigit c = false.
Proof.
  intros H. apply isWhiteSpace_cases in H. unfold isDigit.
  apply andb_false_iff. rewrite !N.leb_gt. lia.
Qed.

Lemma ws_not_hex (c : N) : isWhiteSpace c = true -> hexval c = None.
Proof.
  intros H. apply isWhiteSpace_cases in H. unfold hexval.
  replace (N.leb 48 c && N.leb c 57) with false
    by (symmetry; apply andb_false_iff; rewrite !N.leb_gt; lia).
  replace (N.leb 97 c && N.leb c 102) with false
    by (symmetry; apply andb_false_iff; rewrite !N.leb_gt; lia).
  replace (N.leb 65 c && N.leb c 70) with false
    by (symmetry; apply andb_false_iff; rewrite !N.leb_gt; lia).
  reflexivity.
Qed.

(** Rewrites every test of the white space character [c] against a
    character that is not white space. *)
Ltac ws_tests H :=
  repeat match goal with
         | |- context [N.eqb ?c ?k] =>
             match type of H with
             | isWhiteSpace c = true => rewrite (@ws_neq c k H eq_refl)
             end
         end.

Lemma default_step_ws (c : N) :
  isWhiteSpace c = true ->
  default_step c = if isJsonWs c then Some ([], LDefault) else None.
Proof.
  intros H. unfold default_step.
  destruct (isJsonWs c); [reflexivity|].
  rewrite (ws_not_digit _ H). ws_tests H. reflexivity.
Qed.

Lemma num_step_ws (q : numstate) (a : numacc) (c : N) :
  isWhiteSpace c = true ->
  num_step q a c
  = if num_accepting q && isJsonWs c
    then Some ([TNumber (num_finish a)], LDefault) else None.
Proof.
  intros H. unfold num_step. rewrite (ws_not_digit _ H). ws_tests H.
  cbn [orb]. unfold num_end. rewrite (default_step_ws _ H).
  destruct (num_accepting q), (isJsonWs c); reflexivity.
Qed.

Lemma escape_char_ws (c : N) : isWhiteSpace c = true -> escape_char c = None.
Proof. intros H. unfold escape_char. ws_tests H. reflexivity. Qed.

(** Reading white space to the end of the text emits what ending the text
    at once emits. *)
Lemma lex_trailing_ws (w : jsstring) :
  allWhiteSpace w ->
  forall q ts, reachable q -> lex_from q w = Some ts -> lex_finish q = Some ts.
Proof.
  induction 1 as [|c w Hc _ IH]; intros q ts Hq; simpl; [trivial|].
  destruct q as [|rest t|qn a|acc|acc|acc k code]; cbn [lex_step].
  - rewrite (default_step_ws _ Hc).
    destruct (isJsonWs c); [|discriminate].
    destruct (lex_from LDefault w) as [ts'|] eqn:E; [|discriminate].
    simpl. intros H. injection H as <-.
    apply (IH LDefault ts' I) in E. exact E.
  - destruct rest as [|e rest]; [discriminate|].
    simpl in Hq. inversion Hq as [|? ? He _]; subst.
    now rewrite (ws_neq _ _ Hc He).
  - rewrite (num_step_ws _ _ _ Hc).
    destruct (num_accepting qn) eqn:Ha; [|discriminate]. simpl.
    destruct (isJsonWs c); [|discriminate].
    destruct (lex_from LDefault w) as [ts'|] eqn:E; [|discriminate].
    simpl. intros H. injection H as <-. rewrite Ha.
    apply (IH LDefault ts' I) in E. simpl in E. now injection E as <-.
  - ws_tests Hc. destruct (N.ltb c 32); [discriminate|].
    destruct (lex_from (LString (c :: acc)) w) as [ts'|] eqn:E; [|discriminate].
    apply (IH (LString (c :: acc)) ts' I) in E. discriminate.
  - ws_tests Hc. now rewrite (escape_char_ws _ Hc).
  - rewrite (ws_not_hex _ Hc). discriminate.
Qed.

Lemma default_step_reachable (c : N) (ts : list token) (q : lstate) :
  default_step c = Some (ts, q) -> reachable q.
Proof.
  unfold default_step.
  repeat match goal with
         | |- context [if ?b then _ else _] => destruct b
         end;
    intros H; try discriminate; injection H as _ <-; simpl; auto;
    repeat constructor.
Qed.

Lemma lex_step_reachable (q : lstate) (c : N) (ts : list token) (q' : lstate) :
  reachable q -> lex_step q c = Some (ts, q') -> reachable q'.
Proof.
  intros Hq.
  destruct q as [|rest t|qn a|acc|acc|acc k code]; cbn [lex_step].
  - apply default_step_reachable.
  - destruct rest as [|e [|e' rest]]; [discriminate| |];
      destruct (N.eqb c e); intros H; try discriminate;
      injection H as _ <-; simpl; auto.
    simpl in Hq. now inversion Hq.
  - unfold num_step, num_end.
    repeat match goal with
           | |- context [if ?b then _ else _] => destruct b
           | |- context [match ?x with _ => _ end] => destruct x eqn:?
           end;
      intros H; try discriminate; injection H as _ <-; simpl; auto;
      eapply default_step_reachable; eassumption.
  - repeat match goal with
           | |- context [if ?b then _ else _] => destruct b
           end; intros H; try discriminate; injection H as _ <-; exact I.
  - destruct (N.eqb c 117); [intros H; injection H as _ <-; exact I|].
    destruct (escape_char c); intros H; try discriminate.
    injection H as _ <-. exact I.
  - destruct (hexval c); [|discriminate].
    destruct k as [|[|k]]; intros H; try discriminate;
      injection H as _ <-; exact I.
Qed.

(** White space at the end of a text does not change its tokens. *)
Lemma lex_drop_trailing_ws (z w : jsstring) :
  allWhiteSpace w ->
  forall q ts, reachable q ->
    lex_from q (z ++ w) = Some ts -> lex_from q z = Some ts.
Proof.
  intros Hw. induction z as [|c z IH]; intros q ts Hq; simpl.
  - now apply lex_trailing_ws.
  - destruct (lex_step q c) as [[t1 q1]|] eqn:E; [|discriminate].
    destruct (lex_from q1 (z ++ w)) as [t2|] eqn:E2; [|discriminate].
    simpl. intros H. injection H as <-.
    now rewrite (IH q1 t2 (lex_step_reachable _ _ Hq E) E2).
Qed.

(** White space at the start of a text that has tokens does not change
    them, and a character that is not white space follows it. *)
Lemma lex_drop_leading_ws (x : jsstring) (ts : list token) :
  lex x = Some ts -> ts <> [] ->
  lex (dropWhile isWhiteSpace x) = Some ts
  /\ exists c y, dropWhile isWhiteSpace x = c :: y
                 /\ default_step c <> None.
Proof.
  unfold lex. induction x as [|c x IH]; simpl; intros H Hne.
  - injection H as <-. contradiction.
  - destruct (isWhiteSpace c) eqn:Hc.
    + rewrite (default_step_ws _ Hc) in H.
      destruct (isJsonWs c); [|discriminate].
      destruct (lex_from LDefault x) as [ts'|] eqn:E; [|discriminate].
      simpl in H. injection H as <-. now apply IH.
    + split; [exact H|]. exists c, x. split; [reflexivity|].
      destruct (default_step c); [discriminate|discriminate H].
Qed.

Lemma dropWhile_split (A : Type) (f : A -> bool) (l : list A) :
  exists w, l = w ++ dropWhile f l /\ Forall (fun c => f c = true) w.
Proof.
  induction l as [|c l (w & E & Hw)]; simpl.
  - exists []. split; [reflexivity|constructor].
  - destruct (f c) eqn:Hc.
    + exists (c :: w). split; [simpl; now rewrite <- E|now constructor].
    + exists []. split; [reflexivity|constructor].
Qed.

Lemma dropWhileEnd_split (A : Type) (f : A -> bool) (l : list A) :
  exists w, l = dropWhileEnd f l ++ w /\ Forall (fun c => f c = true) w.
Proof.
  destruct (dropWhile_split f (rev l)) as (w & E & Hw).
  exists (rev w). split; [|now apply Forall_rev].
  unfold dropWhileEnd. rewrite <- rev_app_distr, <- E.
  now rewrite rev_involutive.
Qed.

(** [JSON.parse] gives the same value on a text and on its trimmed form. *)
Lemma JSON_parse_trim (x : jsstring) (v : value) :
  JSON_parse x = Some v ->
  JSON_parse (trim x) = Some v
  /\ exists c y, dropWhile isWhiteSpace x = c :: y /\ default_step c <> None.
Proof.
  unfold JSON_parse. destruct (lex x) as [ts|] eqn:E; [|discriminate].
  intros Hp.
  assert (Hne : ts <> []) by (intros ->; discriminate Hp).
  destruct (lex_drop_leading_ws x E Hne) as [Hlead Hhead].
  split; [|exact Hhead].
  unfold trim.
  destruct (dropWhileEnd_split isWhiteSpace (dropWhile isWhiteSpace x))
    as (w & Ew & Hw).
  rewrite Ew in Hlead. unfold lex in *.
  now rewrite (@lex_drop_trailing_ws _ _ Hw LDefault _ I Hlead).
Qed.

(* ===================================================================== *)
(** * [cleanJson] on a fenced reply *)
(* ===================================================================== *)

Lemma trim_fenced (tag w1 x w2 : jsstring) :
  trim (fenced (backtick :: tag) w1 x w2) = fenced (backtick :: tag) w1 x w2.
Proof.
  unfold trim, fenced. cbn [app].
  rewrite dropWhile_stop by reflexivity.
  replace (backtick :: tag ++ w1 ++ x ++ w2 ++ str "```")
    with ((backtick :: tag ++ w1 ++ x ++ w2 ++ [backtick; backtick])
          ++ [backtick])
    by (cbn [app]; rewrite <- !app_assoc; reflexivity).
  now apply dropWhileEnd_stop.
Qed.

Lemma strip_fences (tag w1 x w2 : jsstring) (c : N) (y : jsstring) :
  allWhiteSpace w1 -> allWhiteSpace w2 ->
  dropWhile isWhiteSpace x = c :: y ->
  replace_trailing_fence (replace_leading tag (fenced tag w1 x w2)) = trim x.
Proof.
  intros H1 H2 Hx. unfold replace_leading, fenced.
  rewrite stripPrefix_app, (dropWhile_all _ _ H1).
  rewrite (dropWhile_app_stop _ _ (w2 ++ str "```") Hx).
  unfold replace_trailing_fence.
  replace (c :: y ++ w2 ++ str "```") with (((c :: y) ++ w2) ++ str "```")
    by (rewrite <- app_assoc; reflexivity).
  rewrite stripSuffix_app, (dropWhileEnd_all _ _ H2).
  unfold trim. now rewrite Hx.
Qed.

(** What follows an opening fence without a tag does not start with the
    letter j, so the fence is not taken for a tagged one. *)
Lemma interior_first_char (w1 x rest : jsstring) (c : N) (y : jsstring) :
  allWhiteSpace w1 ->
  dropWhile isWhiteSpace x = c :: y -> default_step c <> None ->
  exists k r, w1 ++ x ++ rest = k :: r /\ N.eqb 106 k = false.
Proof.
  intros H1 Hx Hc.
  assert (Hws : forall k, isWhiteSpace k = true -> N.eqb 106 k = false).
  { intros k Hk. rewrite N.eqb_sym. now apply ws_neq. }
  destruct w1 as [|k w1].
  - destruct x as [|k x]; [discriminate|]. exists k, (x ++ rest).
    split; [reflexivity|].
    simpl in Hx. destruct (isWhiteSpace k) eqn:Hk; [now apply Hws|].
    injection Hx as -> _.
    destruct (N.eqb_spec 106 c) as [<-|]; [|reflexivity].
    exfalso. now apply Hc.
  - exists k, (w1 ++ x ++ rest). split; [reflexivity|].
    apply Hws. now inversion H1.
Qed.

Lemma startsWith_common (a p s : jsstring) :
  startsWith (a ++ p) (a ++ s) = startsWith p s.
Proof.
  induction a as [|c a IH]; simpl; [reflexivity|].
  now rewrite N.eqb_refl.
Qed.

Lemma cleanJson_fenced (w1 x w2 : jsstring) (c : N) (y : jsstring) :
  allWhiteSpace w1 -> allWhiteSpace w2 ->
  dropWhile isWhiteSpace x = c :: y -> default_step c <> None ->
  cleanJson (fenced (str "```json") w1 x w2) = trim x
  /\ cleanJson (fenced (str "```") w1 x w2) = trim x.
Proof.
  intros H1 H2 Hx Hc.
  assert (T1 : trim (fenced (str "```json") w1 x w2)
               = fenced (str "```json") w1 x w2)
    by exact (trim_fenced (str "``json") w1 x w2).
  assert (T2 : trim (fenced (str "```") w1 x w2) = fenced (str "```") w1 x w2)
    by exact (trim_fenced (str "``") w1 x w2).
  unfold cleanJson. cbv zeta. rewrite T1, T2. split.
  - unfold fenced at 1. rewrite startsWith_app.
    now apply strip_fences with (c := c) (y := y).
  - destruct (@interior_first_char w1 x (w2 ++ str "```") c y H1 Hx Hc)
      as (k & r & E & Hk).
    replace (startsWith (str "```json") (fenced (str "```") w1 x w2))
      with false
      by (unfold fenced; rewrite E;
          change (str "```json") with (str "```" ++ 106%N :: str "son");
          rewrite startsWith_common;
          change (startsWith (106%N :: str "son") (k :: r))
            with (N.eqb 106 k && startsWith (str "son") r);
          now rewrite Hk).
    unfold fenced at 1. rewrite startsWith_app.
    now apply strip_fences with (c := c) (y := y).
Qed.

(** C7. For a text [x] that [JSON.parse] accepts, wrapped in one markdown
    fence with or without the json tag, [cleanJson] returns [x] without
    the white space around it, the inside untouched, and parsing the
    cleaned text gives the value that parsing [x] gives. *)
Theorem fenced_reply_parses_as_bare (x w1 w2 : jsstring) (v : value) :
  JSON_parse x = Some v ->
  allWhiteSpace w1 -> allWhiteSpace w2 ->
  cleanJson (fenced (str "```json") w1 x w2) = trim x
  /\ cleanJson (fenced (str "```") w1 x w2) = trim x
  /\ JSON_parse (cleanJson (fenced (str "```json") w1 x w2)) = JSON_parse x
  /\ JSON_parse (cleanJson (fenced (str "```") w1 x w2)) = JSON_parse x.
Proof.
  intros Hp H1 H2.
  destruct (JSON_parse_trim x Hp) as (Ht & c & y & Hx & Hc).
  destruct (@cleanJson_fenced w1 x w2 c y H1 H2 Hx Hc) as [E1 E2].
  rewrite E1, E2, Ht, Hp. repeat split.
Qed.

Lemma fenced_reply_parses_as_bare_witness :
  JSON_parse (cleanJson (str "```json {" ++ quoted (str "a") ++ str ":1} ```"))
  = JSON_parse (str "{" ++ quoted (str "a") ++ str ":1}").
Proof.
  apply (@fenced_reply_parses_as_bare
           (str "{" ++ quoted (str "a") ++ str ":1}") [32%N] [32%N]
           (JObj [(str "a", JNum {| neg := false; mant := 1; exp10 := 0 |})])).
  - reflexivity.
  - repeat constructor.
  - repeat constructor.
Defined.

(** Only one fence is removed: a reply fenced twice keeps its inner
    fence, and is not JSON any more. *)
Example cleanJson_removes_one_fence :
  cleanJson (fenced (str "```json") nl (fenced (str "```") nl (str "{}") nl) nl)
  = fenced (str "```") nl (str "{}") nl
  /\ JSON_parse (fenced (str "```") nl (str "{}") nl) = None.
Proof. split; reflexivity. Qed.

(** A text without a fence is only trimmed. *)
Example cleanJson_bare :
  cleanJson (nl ++ str "  [1, 2]  " ++ nl) = str "[1, 2]".
Proof. reflexivity. Qed.

(* ===================================================================== *)
(** * Runs of the whole service *)
(* ===================================================================== *)

(** Generate on one image of 2 MiB: one request, the image inline, the
    schema attached and no search tool; the reply is returned as parsed. *)
Example generation_run :
  let run := analyzeContent (replying sampleReply) [sampleFile 2097152]
               GENERATION (str "Instagram") emptyConfig (str "key") [] in
  (exists v, fst run = Ok v /\ JSON_parse sampleReply = Some v)
  /\ option_map (fun r => (tl (parts r), tools (config r), responseSchema (config r)))
       (sent_request (snd run))
     = Some ([InlineData (str "aGVsbG8=") (str "video/mp4")], None,
             Some ANALYSIS_RESULT_SCHEMA)
  /\ count_gets (snd run) = 0%nat.
Proof.
  cbv zeta. split; [|split; vm_compute; reflexivity].
  eexists. split; vm_compute; reflexivity.
Qed.

(** In Trend Hunter mode no file is sent, whatever files are given, and
    the search tool is engaged. *)
Example trend_hunter_run :
  let run := analyzeContent
               (replying (str "{" ++ quoted (str "trends") ++ str ":[1,2,3,4,5]}"))
               [sampleFile 2097152; sampleFile 20971521] TREND_HUNTER
               (str "Instagram") (withNiche (str "Vegan Cooking") emptyConfig)
               (str "key") [] in
  option_map (fun r => (List.length (parts r), tools (config r), responseSchema (config r)))
    (sent_request (snd run))
  = Some (1%nat, Some [googleSearch], None)
  /\ List.length (snd run) = 1%nat.
Proof. split; vm_compute; reflexivity. Qed.

(** The no-trends error of the normalization does not reach the caller:
    the outer handler turns it into the generic connection failure. *)
Example no_trends_run :
  fst (analyzeContent (replying (str "{}")) [] TREND_HUNTER (str "Instagram")
         (withNiche (str "Vegan Cooking") emptyConfig) (str "key") [])
  = Throw (Error CONNECTION_FAILED_MESSAGE).
Proof. vm_compute. reflexivity. Qed.

(* ===================================================================== *)
(** * More about [analyzeContent]: failures before the call *)
(* ===================================================================== *)

Section BeforeTheCall.

Variable env : Env.

(** X2. With an empty API key, or in Trend Hunter mode without a niche,
    [analyzeContent] calls no collaborator: it only logs the specific
    error to the console and throws the generic connection failure, so
    the messages about the key and the niche never reach the caller. *)
Theorem early_failures_call_nobody (files : list File) (mode : AppMode)
    (platform : Platform) (cfg : Config) (key : jsstring) (h : history) :
  (key = [] ->
     analyzeContent env files mode platform cfg key h
     = (Throw (Error CONNECTION_FAILED_MESSAGE),
        EvConsoleError (str "Gemini Analysis Error:")
          (Error (str "API Key is missing.")) :: h))
  /\ (key <> [] -> mode = TREND_HUNTER -> truthy_field (niche cfg) = false ->
      analyzeContent env files mode platform cfg key h
      = (Throw (Error CONNECTION_FAILED_MESSAGE),
         EvConsoleError (str "Gemini Analysis Error:")
           (Error (str "Niche is required for Trend Hunter.")) :: h)).
Proof.
  split.
  - intros ->. reflexivity.
  - intros Hkey -> Hniche. destruct key as [|c key]; [contradiction|].
    unfold analyzeContent, try_catch.
    change (negb (nonempty (c :: key))) with false. cbv iota.
    assert (Hp : promptText env files TREND_HUNTER platform cfg
                 = inl (Error (str "Niche is required for Trend Hunter."))).
    { simpl. destruct (niche cfg) as [[|n ns]|]; try reflexivity.
      discriminate Hniche. }
    rewrite Hp. reflexivity.
Qed.

(** When the key is present, the prompt is composed and the parts are
    built, the run is the generation call under the outer handler. *)
Lemma analyzeContent_at_call (files : list File) (mode : AppMode)
    (platform : Platform) (cfg : Config) (key : jsstring) (h h1 : history)
    (prompt : jsstring) (ps : list Part) :
  key <> [] ->
  promptText env files mode platform cfg = inr prompt ->
  buildParts env files mode prompt h = (Ok ps, h1) ->
  analyzeContent env files mode platform cfg key h
  = try_catch (callAndNormalize env mode (requestFor mode cfg ps))
      (fun error =>
         bind (emit (EvConsoleError (str "Gemini Analysis Error:") error))
              (fun _ => throw (categorize error))) h1.
Proof.
  intros Hkey Hp Hb. destruct key as [|c key]; [contradiction|].
  unfold analyzeContent, try_catch.
  change (negb (nonempty (c :: key))) with false. cbv iota.
  rewrite Hp. change (lift (inr prompt)) with (ret (A := jsstring) prompt).
  rewrite (@bind_run_ok _ _ (ret prompt) _ h _ prompt eq_refl).
  rewrite (@bind_run_ok _ _ _ _ _ _ _ Hb). reflexivity.
Qed.

Lemma buildParts_standard (files : list File) (mode : AppMode)
    (prompt : jsstring) (h h1 : history) (encoded : list Part) :
  mode <> TREND_HUNTER ->
  encodeFiles env files h = (Ok encoded, h1) ->
  buildParts env files mode prompt h = (Ok (TextPart prompt :: encoded), h1).
Proof.
  intros Hm He.
  destruct mode; try contradiction; simpl;
    now rewrite (@bind_run_ok _ _ _ _ _ _ _ He).
Qed.

End BeforeTheCall.

Lemma early_failures_call_nobody_witness :
  analyzeContent (replying sampleReply) [sampleFile 5] TREND_HUNTER
    (str "Instagram") emptyConfig (str "key") []
  = (Throw (Error CONNECTION_FAILED_MESSAGE),
     [EvConsoleError (str "Gemini Analysis Error:")
        (Error (str "Niche is required for Trend Hunter."))])
  /\ analyzeContent (replying sampleReply) [sampleFile 5] GENERATION
       (str "Instagram") emptyConfig [] []
     = (Throw (Error CONNECTION_FAILED_MESSAGE),
        [EvConsoleError (str "Gemini Analysis Error:")
           (Error (str "API Key is missing."))]).
Proof.
  split.
  - apply (proj2 (early_failures_call_nobody (replying sampleReply)
                    [sampleFile 5] TREND_HUNTER (str "Instagram") emptyConfig
                    (str "key") [])).
    + discriminate.
    + reflexivity.
    + reflexivity.
  - apply (proj1 (early_failures_call_nobody (replying sampleReply)
                    [sampleFile 5] GENERATION (str "Instagram") emptyConfig
                    [] [])).
    reflexivity.
Defined.

(* ===================================================================== *)
(** * More about [analyzeContent]: the outcomes of the call *)
(* ===================================================================== *)

(** X1. Whatever [analyzeContent] throws is an [Error] with one of three
    fixed messages, chosen from the message of the error that was caught
    and logged last; no other error text reaches the caller. *)
Theorem surfaced_errors (env : Env) (files : list File) (mode : AppMode)
    (platform : Platform) (cfg : Config) (key : jsstring)
    (h h' : history) (e : thrown) :
  analyzeContent env files mode platform cfg key h = (Throw e, h') ->
  (e = Error TOO_LARGE_MESSAGE \/ e = Error TIMED_OUT_MESSAGE
   \/ e = Error CONNECTION_FAILED_MESSAGE)
  /\ exists cause h0,
       h' = EvConsoleError (str "Gemini Analysis Error:") cause :: h0
       /\ e = categorize cause.
Proof.
  intros H. split; [exact (analyzeContent_throws _ _ _ _ _ _ _ H)|].
  revert H. unfold analyzeContent, try_catch.
  match goal with |- context [match ?body h with _ => _ end] =>
    destruct (body h) as [[v|e0] h1] end.
  - discriminate.
  - unfold bind, emit, throw. intros H. injection H as <- <-. eauto.
Qed.

Lemma surfaced_errors_witness :
  (Error CONNECTION_FAILED_MESSAGE = Error TOO_LARGE_MESSAGE
   \/ Error CONNECTION_FAILED_MESSAGE = Error TIMED_OUT_MESSAGE
   \/ Error CONNECTION_FAILED_MESSAGE = Error CONNECTION_FAILED_MESSAGE)
  /\ exists cause h0,
       [EvConsoleError (str "Gemini Analysis Error:")
          (Error UPLOAD_FAILED_MESSAGE);
        EvConsoleError (str "File upload error:") (Error (str "fetch failed"));
        EvUpload (sampleFile 20971521)]
       = EvConsoleError (str "Gemini Analysis Error:") cause :: h0
       /\ Error CONNECTION_FAILED_MESSAGE = categorize cause.
Proof.
  apply (@surfaced_errors offline [sampleFile 20971521] GENERATION
           (str "Instagram") emptyConfig (str "key") []).
  reflexivity.
Defined.

Section TheCall.

Variable env : Env.

Lemma callAndNormalize_rejected (mode : AppMode) (request : Request)
    (h : history) (e : thrown) :
  generateContent env h request = inl e ->
  callAndNormalize env mode request h
  = (Throw (if is_string (thrown_name e) (str "AbortError")
            then Error TIMEOUT_MESSAGE_INNER else e),
     EvGenerate request :: h).
Proof.
  intros H. unfold callAndNormalize, try_catch.
  rewrite (@bind_run_throw _ _ _ _ _ _ _
             (@call_throw_at _ (EvGenerate request)
                (fun h => generateContent env h request) _ _ H)).
  destruct (is_string (thrown_name e) (str "AbortError")); reflexivity.
Qed.

Lemma callAndNormalize_answered (mode : AppMode) (request : Request)
    (h : history) (text : jsstring) (v : value) :
  generateContent env h request = inr (Some text) ->
  text <> [] -> JSON_parse (cleanJson text) = Some v ->
  mode <> TREND_HUNTER ->
  callAndNormalize env mode request h = (Ok v, EvGenerate request :: h).
Proof.
  intros H Hne Hv Hm. unfold callAndNormalize, try_catch.
  rewrite (@bind_run_ok _ _ _ _ _ _ _
             (@call_ok _ (EvGenerate request)
                (fun h => generateContent env h request) _ _ H)).
  destruct text as [|c text]; [contradiction|]. rewrite Hv.
  destruct mode; try contradiction; reflexivity.
Qed.

(** X3. In a mode other than Trend Hunter, when the files are encoded and
    the service answers with a text that is JSON once cleaned,
    [analyzeContent] makes exactly one generation call, whose parts are
    the prompt followed by the encoded files in their order, and returns
    the parsed value as it is. *)
Theorem standard_run_returns_reply (files : list File) (mode : AppMode)
    (platform : Platform) (cfg : Config) (key : jsstring) (h h1 : history)
    (prompt : jsstring) (encoded : list Part) (text : jsstring) (v : value) :
  key <> [] -> mode <> TREND_HUNTER ->
  promptText env files mode platform cfg = inr prompt ->
  encodeFiles env files h = (Ok encoded, h1) ->
  generateContent env h1 (requestFor mode cfg (TextPart prompt :: encoded))
  = inr (Some text) ->
  text <> [] -> JSON_parse (cleanJson text) = Some v ->
  analyzeContent env files mode platform cfg key h
  = (Ok v, EvGenerate (requestFor mode cfg (TextPart prompt :: encoded)) :: h1).
Proof.
  intros Hkey Hm Hp He Hg Hne Hv.
  rewrite (@analyzeContent_at_call env files mode platform cfg key h h1
             prompt _ Hkey Hp
             (@buildParts_standard env files mode prompt h h1 encoded Hm He)).
  unfold try_catch.
  now rewrite (@callAndNormalize_answered mode _ h1 text v Hg Hne Hv Hm).
Qed.

(** X4. When the generation call fails, the name and the message of the
    failure decide what the caller gets: a failure named AbortError
    becomes the timeout message whatever its own message says; any other
    failure is classified by its message alone. *)
Theorem rejected_call_is_categorized (files : list File) (mode : AppMode)
    (platform : Platform) (cfg : Config) (key : jsstring) (h h1 : history)
    (prompt : jsstring) (ps : list Part) (e : thrown) :
  key <> [] ->
  promptText env files mode platform cfg = inr prompt ->
  buildParts env files mode prompt h = (Ok ps, h1) ->
  generateContent env h1 (requestFor mode cfg ps) = inl e ->
  fst (analyzeContent env files mode platform cfg key h)
  = Throw (if is_string (thrown_name e) (str "AbortError")
           then Error TIMED_OUT_MESSAGE else categorize e).
Proof.
  intros Hkey Hp Hb Hg.
  rewrite (@analyzeContent_at_call env files mode platform cfg key h h1
             prompt ps Hkey Hp Hb).
  unfold try_catch. rewrite (@callAndNormalize_rejected mode _ h1 e Hg).
  destruct (is_string (thrown_name e) (str "AbortError")); reflexivity.
Qed.

(** X5. When the service answers without a text, or with the empty text,
    the caller gets the generic connection failure. *)
Theorem empty_reply_is_connection_failure (files : list File) (mode : AppMode)
    (platform : Platform) (cfg : Config) (key : jsstring) (h h1 : history)
    (prompt : jsstring) (ps : list Part) (reply : option jsstring) :
  key <> [] ->
  promptText env files mode platform cfg = inr prompt ->
  buildParts env files mode prompt h = (Ok ps, h1) ->
  generateContent env h1 (requestFor mode cfg ps) = inr reply ->
  truthy_field reply = false ->
  analyzeContent env files mode platform cfg key h
  = (Throw (Error CONNECTION_FAILED_MESSAGE),
     [EvConsoleError (str "Gemini Analysis Error:")
        (Error (str "No response from AI"));
      EvGenerate (requestFor mode cfg ps)] ++ h1).
Proof.
  intros Hkey Hp Hb Hg Hr.
  rewrite (@analyzeContent_at_call env files mode platform cfg key h h1
             prompt ps Hkey Hp Hb).
  unfold try_catch, callAndNormalize, try_catch.
  rewrite (@bind_run_ok _ _ _ _ _ _ _
             (@call_ok _ (EvGenerate (requestFor mode cfg ps))
                (fun h => generateContent env h (requestFor mode cfg ps))
                _ _ Hg)).
  destruct reply as [[|c text]|]; try discriminate Hr; reflexivity.
Qed.

End TheCall.

Lemma standard_run_returns_reply_witness :
  exists v,
    JSON_parse sampleReply = Some v
    /\ fst (analyzeContent (replying (str "```json" ++ nl ++ sampleReply ++ nl ++ str "```"))
              [sampleFile 2097152] GENERATION (str "Instagram") emptyConfig
              (str "key") [])
       = Ok v.
Proof.
  eexists. split; [vm_compute; reflexivity|].
  erewrite (@standard_run_returns_reply
              (replying (str "```json" ++ nl ++ sampleReply ++ nl ++ str "```"))
              [sampleFile 2097152] GENERATION (str "Instagram") emptyConfig
              (str "key") []).
  - reflexivity.
  - discriminate.
  - discriminate.
  - reflexivity.
  - reflexivity.
  - reflexivity.
  - discriminate.
  - vm_compute. reflexivity.
Defined.

Lemma rejected_call_is_categorized_witness :
  fst (analyzeContent
         (rejecting (failure (str "AbortError") (str "status 413: payload too large")))
         [] REFINE (str "Instagram") emptyConfig (str "key") [])
  = Throw (Error TIMED_OUT_MESSAGE)
  /\ fst (analyzeContent
            (rejecting (failure (str "ApiError") (str "status 413: timeout")))
            [] REFINE (str "Instagram") emptyConfig (str "key") [])
     = Throw (Error TOO_LARGE_MESSAGE).
Proof.
  split.
  - erewrite (@rejected_call_is_categorized
                (rejecting (failure (str "AbortError")
                              (str "status 413: payload too large")))
                [] REFINE (str "Instagram") emptyConfig (str "key") [])
      with (e := failure (str "AbortError")
                   (str "status 413: payload too large")).
    + reflexivity.
    + discriminate.
    + reflexivity.
    + reflexivity.
    + reflexivity.
  - erewrite (@rejected_call_is_categorized
                (rejecting (failure (str "ApiError") (str "status 413: timeout")))
                [] REFINE (str "Instagram") emptyConfig (str "key") [])
      with (e := failure (str "ApiError") (str "status 413: timeout")).
    + reflexivity.
    + discriminate.
    + reflexivity.
    + reflexivity.
    + reflexivity.
Defined.

Lemma empty_reply_is_connection_failure_witness :
  fst (analyzeContent silent [] REFINE (str "Instagram") emptyConfig
         (str "key") [])
  = Throw (Error CONNECTION_FAILED_MESSAGE).
Proof.
  erewrite (@empty_reply_is_connection_failure silent [] REFINE
              (str "Instagram") emptyConfig (str "key") []).
  - reflexivity.
  - discriminate.
  - reflexivity.
  - reflexivity.
  - reflexivity.
  - reflexivity.
Defined.

(* ===================================================================== *)
(** * What each mode reads *)
(* ===================================================================== *)

(** X6. In Trend Hunter mode no file is read, uploaded or polled, however
    many files are passed: besides console output, the only thing a run
    can do is one kind of generation call, whose single part is the Trend
    Hunter prompt for the niche and the date. *)
Theorem trend_hunter_touches_no_file (env : Env) (files : list File)
    (platform : Platform) (cfg : Config) (key : jsstring) (h : history) :
  exists evs,
    snd (analyzeContent env files TREND_HUNTER platform cfg key h) = evs ++ h
    /\ Forall (trend_hunter_event env cfg) evs.
Proof.
  revert h. change (emits (trend_hunter_event env cfg)
                      (analyzeContent env files TREND_HUNTER platform cfg key)).
  unfold analyzeContent. emits_step.
  - destruct (negb (nonempty key)); [emits_step|].
    simpl promptText.
    destruct (niche cfg) as [[|c n]|] eqn:Hn;
      try (intros h0; exists []; split; [reflexivity|constructor]).
    change (emits (trend_hunter_event env cfg)
              (callAndNormalize env TREND_HUNTER
                 (requestFor TREND_HUNTER cfg
                    [TextPart (MODE_PROMPTS.TREND_HUNTER (c :: n)
                                 (currentDate env))]))).
    apply emits_callAndNormalize. simpl.
    exists (c :: n). split; [exact Hn|]. split; [discriminate|reflexivity].
  - repeat emits_step.
Qed.

(** X7. A Trend Hunter run depends on the configuration through the niche
    alone, and on neither the files nor the platform: targeting, brand
    guidelines and the live-trend switch are ignored. *)
Theorem trend_hunter_reads_niche_only (env : Env) (files files' : list File)
    (platform platform' : Platform) (cfg cfg' : Config) (key : jsstring) :
  niche cfg = niche cfg' ->
  analyzeContent env files TREND_HUNTER platform cfg key
  = analyzeContent env files' TREND_HUNTER platform' cfg' key.
Proof.
  intros Hn. unfold analyzeContent. simpl promptText. rewrite Hn.
  reflexivity.
Qed.

Lemma trend_hunter_reads_niche_only_witness :
  analyzeContent (replying sampleReply) [sampleFile 20971521] TREND_HUNTER
    TWITTER_X (withNiche (str "Vegan Cooking") targetedConfig) (str "key")
  = analyzeContent (replying sampleReply) [] TREND_HUNTER (str "Instagram")
      (withNiche (str "Vegan Cooking") (withLiveTrends emptyConfig)) (str "key").
Proof.
  apply (@trend_hunter_reads_niche_only (replying sampleReply)
           [sampleFile 20971521] [] TWITTER_X (str "Instagram")
           (withNiche (str "Vegan Cooking") targetedConfig)
           (withNiche (str "Vegan Cooking") (withLiveTrends emptyConfig))
           (str "key")).
  reflexivity.
Defined.

(** The configurations that Generation mode cannot tell apart. *)
Lemma generation_reads (env : Env) (files : list File) (platform : Platform)
    (cfg cfg' : Config) (key : jsstring) :
  goal cfg = goal cfg' -> style cfg = style cfg' ->
  geography cfg = geography cfg' ->
  targetAudience cfg = targetAudience cfg' ->
  targetLanguage cfg = targetLanguage cfg' ->
  demographics cfg = demographics cfg' ->
  enableLiveTrends cfg = enableLiveTrends cfg' ->
  brandGuidelines cfg = brandGuidelines cfg' ->
  analyzeContent env files GENERATION platform cfg key
  = analyzeContent env files GENERATION platform cfg' key.
Proof.
  intros H1 H2 H3 H4 H5 H6 H7 H8.
  unfold analyzeContent, promptText, targeting, generateConfig, useSearch.
  now rewrite H1, H2, H3, H4, H5, H6, H7, H8.
Qed.

(** X8. Using a trend switches to Generation mode and stores the headline
    of the trend in the keywords, which Generation mode does not read:
    the analysis that follows is the same whichever trend was used. *)
Theorem used_trend_does_not_reach_the_prompt (env : Env)
    (platform : Platform) (key : jsstring) (st : AppState)
    (headline headline' : jsstring) :
  let st1 := fst (handleUseTrend headline st) in
  let st2 := fst (handleUseTrend headline' st) in
  app_mode st1 = GENERATION
  /\ keywords (app_config st1) = Some headline
  /\ app_files st1 = app_files st
  /\ analyzeContent env (map file (app_files st1)) (app_mode st1) platform
       (app_config st1) key
     = analyzeContent env (map file (app_files st2)) (app_mode st2) platform
         (app_config st2) key.
Proof.
  cbv zeta. split; [reflexivity|]. split; [reflexivity|].
  split; [reflexivity|]. apply generation_reads; reflexivity.
Qed.

(* ===================================================================== *)
(** * More about the encoding of the files *)
(* ===================================================================== *)

Section Batch.

Variable env : Env.

Lemma encodeFile_encodes (f : File) (h : history) (part : Part) :
  fst (encodeFile env f h) = Ok part -> encodes f part.
Proof.
  unfold encodes, encodeFile.
  destruct (N.ltb FILE_SIZE_THRESHOLD (file_size f)).
  - apply uploadLargeFile_returns.
  - apply (fileToPart_run env f h).
Qed.

(** X9. When the encoding of a list of files succeeds, it gives one part
    for each file, in the order of the files, and each part has the kind
    that the size of its file selects: inline data with the media type of
    the file up to 20 MiB, a reference to the upload above. *)
Theorem encoded_parts_follow_the_files (files : list File) (h h' : history)
    (encoded : list Part) :
  encodeFiles env files h = (Ok encoded, h') ->
  Forall2 encodes files encoded.
Proof.
  revert h encoded. induction files as [|f files IH]; intros h encoded; simpl.
  - unfold ret. intros H. injection H as <- _. constructor.
  - intros H. apply bind_Ok in H as (part & h1 & Hf & H).
    apply bind_Ok in H as (rest & h2 & Hr & H).
    unfold ret in H. injection H as <- <-.
    constructor; [|now apply (IH h1)].
    apply (encodeFile_encodes f h). now rewrite Hf.
Qed.

(** X10. The encoding stops at the first file that fails: the files
    before it have been encoded, its error is the error of the whole, and
    the files after it are not touched. *)
Theorem encoding_stops_at_first_failure (before after : list File) (f : File)
    (h h1 h2 : history) (encoded : list Part) (e : thrown) :
  encodeFiles env before h = (Ok encoded, h1) ->
  encodeFile env f h1 = (Throw e, h2) ->
  encodeFiles env (before ++ f :: after) h = (Throw e, h2).
Proof.
  revert h encoded. induction before as [|b before IH]; intros h encoded; simpl.
  - unfold ret. intros H Hf. injection H as _ <-.
    now rewrite (@bind_run_throw _ _ _ _ _ _ _ Hf).
  - intros H Hf. apply bind_Ok in H as (part & h3 & Hb & H).
    apply bind_Ok in H as (rest & h4 & Hr & H).
    unfold ret in H. injection H as _ <-.
    rewrite (@bind_run_ok _ _ _ _ _ _ _ Hb).
    now rewrite (@bind_run_throw _ _ _ _ _ _ _ (IH h3 rest Hr Hf)).
Qed.

End Batch.

Lemma encoded_parts_follow_the_files_witness :
  Forall2 encodes [sampleFile 5; sampleFile 20971521; sampleFile 20971520]
    [InlineData (str "aGVsbG8=") (str "video/mp4");
     FileData (rf_uri (remote (str "ACTIVE"))) (rf_mimeType (remote (str "ACTIVE")));
     InlineData (str "aGVsbG8=") (str "video/mp4")].
Proof.
  refine (@encoded_parts_follow_the_files (replying sampleReply)
            [sampleFile 5; sampleFile 20971521; sampleFile 20971520] [] _ _ _).
  vm_compute. reflexivity.
Defined.

Lemma encoding_stops_at_first_failure_witness :
  encodeFiles offline
    ([sampleFile 5] ++ sampleFile 20971521 :: [sampleFile 7; sampleFile 8]) []
  = (Throw (Error UPLOAD_FAILED_MESSAGE),
     [EvConsoleError (str "File upload error:") (Error (str "fetch failed"));
      EvUpload (sampleFile 20971521); EvRead (sampleFile 5)]).
Proof.
  refine (@encoding_stops_at_first_failure offline [sampleFile 5]
            [sampleFile 7; sampleFile 8] (sampleFile 20971521) []
            [EvRead (sampleFile 5)] _ _ _ _ _).
  - vm_compute. reflexivity.
  - vm_compute. reflexivity.
Defined.

(* ===================================================================== *)
(** * The cost and the exits of the upload handshake *)
(* ===================================================================== *)

Lemma count_app (p : event -> bool) (a b : history) :
  count p (a ++ b) = (count p a + count p b)%nat.
Proof. unfold count. now rewrite filter_app, length_app. Qed.

Lemma count_rounds (n : nat) (name : option jsstring) :
  count is_get (rounds n name) = n
  /\ count is_sleep (rounds n name) = n
  /\ count is_upload (rounds n name) = 0%nat.
Proof.
  induction n as [|n (Hg & Hs & Hu)]; [now repeat split|].
  unfold count in *. simpl. now rewrite Hg, Hs, Hu.
Qed.

Section Cost.

Variable env : Env.

(** The loop makes whole rounds, at most [budget] of them, and leaves
    before the last one only on a status that is not PROCESSING. *)
Lemma poll_rounds (budget : nat) (name : option jsstring) (info : RemoteFile)
    (h : history) :
  exists k,
    (k <= budget)%nat
    /\ snd (poll env budget name info h) = rounds k name ++ h
    /\ forall info',
         fst (poll env budget name info h) = Ok info' ->
         (k < budget)%nat ->
         is_string (rf_state info') (str "PROCESSING") = false.
Proof.
  revert info h. induction budget as [|b IH]; intros info h; simpl.
  - exists 0%nat. repeat split; [lia|]. intros info' _ Hk. lia.
  - destruct (is_string (rf_state info) (str "PROCESSING")) eqn:Hs.
    + rewrite (@bind_run_ok _ _ (emit (EvSleep 2000)) _ h _ tt eq_refl).
      destruct (files_get env (EvSleep 2000 :: h) name) as [e|info1] eqn:Hg.
      * rewrite (@bind_run_throw _ _ _ _ _ _ _
                   (@call_throw_at _ (EvGet name)
                      (fun h => files_get env h name) _ _ Hg)).
        exists 1%nat. repeat split; [lia|]. discriminate.
      * rewrite (@bind_run_ok _ _ _ _ _ _ _
                   (@call_ok _ (EvGet name)
                      (fun h => files_get env h name) _ _ Hg)).
        destruct (IH info1 (EvGet name :: EvSleep 2000 :: h))
          as (k & Hk & Hh & Hstop).
        exists (S k). split; [lia|]. split.
        -- rewrite Hh. simpl. now rewrite rounds_shift.
        -- intros info' Hr Hlt. apply Hstop; [exact Hr|lia].
    + exists 0%nat. split; [lia|]. split; [reflexivity|].
      intros info' Hr _. simpl in Hr. now injection Hr as <-.
Qed.

(** X11. Whatever the service answers, the handshake for one file makes
    one upload call, at most 31 status queries and at most 30 waits of
    two seconds. *)
Theorem handshake_is_bounded (f : File) (h : history) :
  exists evs,
    snd (uploadLargeFile env f h) = evs ++ h
    /\ count is_upload evs = 1%nat
    /\ (count is_get evs <= 31)%nat
    /\ (count is_sleep evs <= 30)%nat
    /\ Forall (fun ev => forall ms, ev = EvSleep ms -> ms = 2000%N) evs.
Proof.
  assert (Hrounds : forall k name,
            Forall (fun ev => forall ms, ev = EvSleep ms -> ms = 2000%N)
                   (rounds k name)).
  { intros k name. induction k as [|k IH]; simpl; repeat constructor;
      try discriminate; try exact IH.
    intros ms H. now injection H as <-. }
  unfold uploadLargeFile, try_catch.
  destruct (files_upload env h f) as [e|up] eqn:Hup.
  - rewrite (@bind_run_throw _ _ _ _ _ _ _
               (@call_throw_at _ (EvUpload f)
                  (fun h => files_upload env h f) _ _ Hup)).
    exists [EvConsoleError (str "File upload error:") e; EvUpload f].
    repeat split; try (cbv; lia). repeat constructor; discriminate.
  - rewrite (@bind_run_ok _ _ _ _ _ _ _
               (@call_ok _ (EvUpload f)
                  (fun h => files_upload env h f) _ _ Hup)).
    destruct (files_get env (EvUpload f :: h) (rf_name up)) as [e|info] eqn:Hg.
    + rewrite (@bind_run_throw _ _ _ _ _ _ _
                 (@call_throw_at _ (EvGet (rf_name up))
                    (fun h => files_get env h (rf_name up)) _ _ Hg)).
      exists [EvConsoleError (str "File upload error:") e;
              EvGet (rf_name up); EvUpload f].
      repeat split; try (cbv; lia). repeat constructor; discriminate.
    + rewrite (@bind_run_ok _ _ _ _ _ _ _
                 (@call_ok _ (EvGet (rf_name up))
                    (fun h => files_get env h (rf_name up)) _ _ Hg)).
      destruct (poll_rounds 30 (rf_name up) info
                  (EvGet (rf_name up) :: EvUpload f :: h))
        as (k & Hk & Hh & _).
      destruct (count_rounds k (rf_name up)) as (Cg & Cs & Cu).
      unfold bind at 1.
      destruct (poll env 30 (rf_name up) info
                  (EvGet (rf_name up) :: EvUpload f :: h))
        as [[info'|e] h1]; simpl in Hh; subst h1.
      * destruct (is_string (rf_state info') (str "FAILED")).
        -- exists (EvConsoleError (str "File upload error:")
                     (Error (str "File processing failed on Gemini server."))
                   :: rounds k (rf_name up)
                   ++ [EvGet (rf_name up); EvUpload f]).
           split; [simpl; now rewrite <- app_assoc|].
           change (EvConsoleError ?l ?e :: ?r) with ([EvConsoleError l e] ++ r).
           rewrite !count_app, Cg, Cs, Cu.
           repeat split; try (cbv [count filter is_get is_sleep is_upload
                                     List.length]; lia).
           constructor; [discriminate|].
           apply Forall_app. split; [apply Hrounds|].
           repeat constructor; discriminate.
        -- exists (rounds k (rf_name up) ++ [EvGet (rf_name up); EvUpload f]).
           split; [simpl; now rewrite <- app_assoc|].
           rewrite !count_app, Cg, Cs, Cu.
           repeat split; try (cbv [count filter is_get is_sleep is_upload
                                     List.length]; lia).
           apply Forall_app. split; [apply Hrounds|].
           repeat constructor; discriminate.
      * exists (EvConsoleError (str "File upload error:") e
                :: rounds k (rf_name up) ++ [EvGet (rf_name up); EvUpload f]).
        split; [simpl; now rewrite <- app_assoc|].
        change (EvConsoleError ?l ?e :: ?r) with ([EvConsoleError l e] ++ r).
        rewrite !count_app, Cg, Cs, Cu.
        repeat split; try (cbv [count filter is_get is_sleep is_upload
                                  List.length]; lia).
        constructor; [discriminate|].
        apply Forall_app. split; [apply Hrounds|].
        repeat constructor; discriminate.
Qed.

End Cost.

Section Exits.

Variable env : Env.

(** What the loop returns is the answer to its last query, and every
    answer before it said PROCESSING. *)
Lemma poll_answers (budget : nat) (name : option jsstring)
    (info0 info : RemoteFile) (h h3 : history) :
  poll env budget name info0 h = (Ok info, h3) ->
  let answer j :=
    match j with
    | O => inr info0
    | S j' => files_get env (EvSleep 2000 :: rounds j' name ++ h) name
    end in
  exists k,
    (k <= budget)%nat
    /\ h3 = rounds k name ++ h
    /\ answer k = inr info
    /\ (forall j, (j < k)%nat ->
          exists i, answer j = inr i
                    /\ is_string (rf_state i) (str "PROCESSING") = true)
    /\ ((k < budget)%nat ->
        is_string (rf_state info) (str "PROCESSING") = false).
Proof.
  cbv zeta. revert info0 h. induction budget as [|b IH]; intros info0 h; simpl.
  - unfold ret. intros H. injection H as <- <-. exists 0%nat.
    split; [lia|]. split; [reflexivity|]. split; [reflexivity|].
    split; intros; lia.
  - destruct (is_string (rf_state info0) (str "PROCESSING")) eqn:Hs.
    + rewrite (@bind_run_ok _ _ (emit (EvSleep 2000)) _ h _ tt eq_refl).
      intros H. apply bind_Ok in H as (info1 & h1 & Hget & H).
      unfold call in Hget.
      destruct (files_get env (EvSleep 2000 :: h) name) as [e|i1] eqn:Hg;
        [discriminate|].
      injection Hget as -> <-.
      destruct (IH _ _ H) as (k & Hk & Hh & Hlast & Hbefore & Hstop).
      exists (S k). split; [lia|]. split.
      { rewrite Hh. simpl. now rewrite rounds_shift. }
      split.
      { destruct k as [|k]; [now rewrite <- Hlast|].
        rewrite <- Hlast. cbn [rounds app]. now rewrite rounds_shift. }
      split.
      { intros [|j] Hj; [now exists info0|].
        destruct (Hbefore j) as (i & Hi & Hp); [lia|].
        exists i. split; [|exact Hp].
        destruct j as [|j]; [now rewrite <- Hi|].
        rewrite <- Hi. cbn [rounds app]. now rewrite rounds_shift. }
      intros Hlt. apply Hstop. lia.
    + unfold ret. intros H. injection H as <- <-. exists 0%nat.
      split; [lia|]. split; [reflexivity|]. split; [reflexivity|].
      split; [intros; lia|]. intros _. exact Hs.
Qed.

(** X12. When the handshake returns a reference, the upload and every
    status query succeeded and nothing was logged; [k] rounds of waiting
    were made, every status before the last one said PROCESSING, and the
    reference holds the uri and the media type of the last status, which
    does not say FAILED; unless all 30 rounds were used, it does not say
    PROCESSING either. *)
Theorem handshake_success (f : File) (h h' : history) (part : Part) :
  uploadLargeFile env f h = (Ok part, h') ->
  exists up info k,
    files_upload env h f = inr up
    /\ (k <= 30)%nat
    /\ h' = rounds k (rf_name up) ++ EvGet (rf_name up) :: EvUpload f :: h
    /\ statusQuery env f h (rf_name up) k = inr info
    /\ (forall j, (j < k)%nat ->
          exists i, statusQuery env f h (rf_name up) j = inr i
                    /\ is_string (rf_state i) (str "PROCESSING") = true)
    /\ part = FileData (rf_uri info) (rf_mimeType info)
    /\ is_string (rf_state info) (str "FAILED") = false
    /\ ((k < 30)%nat -> is_string (rf_state info) (str "PROCESSING") = false).
Proof.
  unfold uploadLargeFile, try_catch.
  match goal with |- context [match ?body h with _ => _ end] =>
    destruct (body h) as [[p|e0] h0] eqn:E end.
  2: { unfold bind, emit, throw. discriminate. }
  intros H. injection H as -> ->.
  apply bind_Ok in E as (up & h1 & Hup & E).
  apply bind_Ok in E as (info0 & h2 & Hget & E).
  apply bind_Ok in E as (info & h3 & Hpoll & E).
  unfold call in Hup.
  destruct (files_upload env h f) as [e|up'] eqn:Hu; [discriminate|].
  injection Hup as -> <-.
  unfold call in Hget.
  destruct (files_get env (EvUpload f :: h) (rf_name up)) as [e|i] eqn:Hg;
    [discriminate|].
  injection Hget as -> <-.
  destruct (poll_answers _ _ _ _ Hpoll)
    as (k & Hk & Hh & Hlast & Hbefore & Hstop).
  subst h3.
  destruct (is_string (rf_state info) (str "FAILED")) eqn:Hf; [discriminate|].
  unfold ret in E. injection E as <- <-.
  exists up, info, k.
  split; [reflexivity|]. split; [exact Hk|]. split; [reflexivity|].
  split.
  { unfold statusQuery. destruct k as [|k]; [|exact Hlast].
    rewrite Hg. exact Hlast. }
  split.
  { intros j Hj. destruct (Hbefore j Hj) as (i & Hi & Hp).
    exists i. split; [|exact Hp].
    unfold statusQuery. destruct j as [|j]; [|exact Hi].
    rewrite Hg. exact Hi. }
  split; [reflexivity|]. split; [exact Hf|exact Hstop].
Qed.

Lemma includes_char (s : jsstring) (c : N) :
  includes s [c] = true <-> In c s.
Proof.
  rewrite includes_infix. split.
  - intros (l & r & ->). apply in_or_app. right. now left.
  - intros H. apply in_split in H as (l & r & ->). now exists l, r.
Qed.

(** X13. [fileToPart] keeps of a data URL what stands between its first
    comma and the next one, or its end: the payload of a URL of the form
    header, comma, payload; a URL without a comma is kept whole.  The
    media type of the part is the type of the file. *)
Theorem inline_part_is_the_payload (f : File) (h : history)
    (header payload rest : jsstring) :
  ~ In 44%N header -> ~ In 44%N payload ->
  (readAsDataURL env h f = inr (header ++ [44%N] ++ payload) ->
     fileToPart env f h = (Ok (InlineData payload (file_type f)), EvRead f :: h))
  /\ (readAsDataURL env h f = inr (header ++ [44%N] ++ payload ++ [44%N] ++ rest) ->
     fileToPart env f h = (Ok (InlineData payload (file_type f)), EvRead f :: h))
  /\ (readAsDataURL env h f = inr payload ->
     fileToPart env f h = (Ok (InlineData payload (file_type f)), EvRead f :: h)).
Proof.
  intros Hh Hp. unfold fileToPart.
  split; [|split]; intros Hr;
    rewrite (@bind_run_ok _ _ _ _ _ _ _
               (@call_ok _ (EvRead f) (fun h => readAsDataURL env h f) _ _ Hr)).
  - replace (includes (header ++ [44%N] ++ payload) (str ",")) with true
      by (symmetry; apply (includes_char _ 44); apply in_or_app; right; now left).
    change (header ++ [44%N] ++ payload) with (header ++ 44%N :: payload).
    now rewrite (@split_cons 44 header payload Hh),
      (@split_single 44 payload Hp).
  - replace (includes (header ++ [44%N] ++ payload ++ [44%N] ++ rest) (str ","))
      with true
      by (symmetry; apply (includes_char _ 44); apply in_or_app; right; now left).
    change (header ++ [44%N] ++ payload ++ [44%N] ++ rest)
      with (header ++ 44%N :: (payload ++ 44%N :: rest)).
    now rewrite (@split_cons 44 header (payload ++ 44%N :: rest) Hh),
      (@split_cons 44 payload rest Hp).
  - replace (includes payload (str ",")) with false; [reflexivity|].
    symmetry. destruct (includes payload (str ",")) eqn:E; [|reflexivity].
    exfalso. apply Hp. now apply (includes_char payload 44).
Qed.

End Exits.

Lemma handshake_success_witness :
  exists up info k,
    files_upload settling [] (sampleFile 20971521) = inr up
    /\ (k <= 30)%nat
    /\ snd (uploadLargeFile settling (sampleFile 20971521) [])
       = rounds k (rf_name up)
         ++ [EvGet (rf_name up); EvUpload (sampleFile 20971521)]
    /\ statusQuery settling (sampleFile 20971521) [] (rf_name up) k = inr info
    /\ (forall j, (j < k)%nat ->
          exists i,
            statusQuery settling (sampleFile 20971521) [] (rf_name up) j
            = inr i
            /\ is_string (rf_state i) (str "PROCESSING") = true)
    /\ FileData (rf_uri (remote (str "ACTIVE"))) (rf_mimeType (remote (str "ACTIVE")))
       = FileData (rf_uri info) (rf_mimeType info)
    /\ is_string (rf_state info) (str "FAILED") = false
    /\ ((k < 30)%nat -> is_string (rf_state info) (str "PROCESSING") = false).
Proof.
  apply (@handshake_success settling (sampleFile 20971521) []).
  vm_compute. reflexivity.
Defined.

Lemma inline_part_is_the_payload_witness :
  fileToPart (reading (str "data:image/png;base64,iVBORw0KGgo="))
    (sampleFile 5) []
  = (Ok (InlineData (str "iVBORw0KGgo=") (str "video/mp4")),
     [EvRead (sampleFile 5)]).
Proof.
  apply (proj1 (@inline_part_is_the_payload
                  (reading (str "data:image/png;base64,iVBORw0KGgo="))
                  (sampleFile 5) [] (str "data:image/png;base64")
                  (str "iVBORw0KGgo=") []
                  ltac:(vm_compute; intuition discriminate)
                  ltac:(vm_compute; intuition discriminate))).
  reflexivity.
Defined.

(* ===================================================================== *)
(** * More about [cleanJson] *)
(* ===================================================================== *)

Lemma starts_clean_dropWhile (s : jsstring) :
  starts_clean (dropWhile isWhiteSpace s).
Proof.
  induction s as [|c s IH]; simpl; [exact I|].
  destruct (isWhiteSpace c) eqn:E; [exact IH|exact E].
Qed.

Lemma dropWhile_clean (s : jsstring) :
  starts_clean s -> dropWhile isWhiteSpace s = s.
Proof. destruct s as [|c s]; simpl; [reflexivity|]. now intros ->. Qed.

Lemma starts_clean_prefix (a b : jsstring) :
  starts_clean (a ++ b) -> starts_clean a.
Proof. destruct a; simpl; auto. Qed.

Lemma ends_clean_suffix (a b : jsstring) :
  ends_clean (a ++ b) -> ends_clean b.
Proof.
  unfold ends_clean. rewrite rev_app_distr. apply starts_clean_prefix.
Qed.

Lemma ends_clean_dropWhileEnd (s : jsstring) :
  ends_clean (dropWhileEnd isWhiteSpace s).
Proof.
  unfold ends_clean, dropWhileEnd. rewrite rev_involutive.
  apply starts_clean_dropWhile.
Qed.

Lemma dropWhileEnd_clean (s : jsstring) :
  ends_clean s -> dropWhileEnd isWhiteSpace s = s.
Proof.
  unfold ends_clean, dropWhileEnd. intros H.
  now rewrite (dropWhile_clean _ H), rev_involutive.
Qed.

Lemma starts_clean_dropWhileEnd (s : jsstring) :
  starts_clean s -> starts_clean (dropWhileEnd isWhiteSpace s).
Proof.
  intros H. destruct (dropWhileEnd_split isWhiteSpace s) as (w & E & _).
  rewrite E in H. now apply starts_clean_prefix in H.
Qed.

Lemma ends_clean_dropWhile (s : jsstring) :
  ends_clean s -> ends_clean (dropWhile isWhiteSpace s).
Proof.
  intros H. destruct (dropWhile_split isWhiteSpace s) as (w & E & _).
  rewrite E in H. now apply ends_clean_suffix in H.
Qed.

Lemma trim_clean (s : jsstring) : starts_clean (trim s) /\ ends_clean (trim s).
Proof.
  unfold trim. split.
  - apply starts_clean_dropWhileEnd, starts_clean_dropWhile.
  - apply ends_clean_dropWhileEnd.
Qed.

Lemma trim_fixed (s : jsstring) :
  starts_clean s -> ends_clean s -> trim s = s.
Proof.
  intros H1 H2. unfold trim. rewrite (dropWhile_clean _ H1).
  now apply dropWhileEnd_clean.
Qed.

Lemma stripPrefix_Some (p s r : jsstring) :
  stripPrefix p s = Some r -> s = p ++ r.
Proof.
  revert s; induction p as [|x p IH]; intros [|y s]; simpl; try discriminate.
  - intros H. now injection H as <-.
  - intros H. now injection H as <-.
  - destruct (N.eqb_spec x y) as [->|]; [|discriminate].
    intros H. now rewrite (IH s H).
Qed.

Lemma stripSuffix_Some (p s r : jsstring) :
  stripSuffix p s = Some r -> s = r ++ p.
Proof.
  unfold stripSuffix.
  destruct (stripPrefix (rev p) (rev s)) as [t|] eqn:E; [|discriminate].
  simpl. intros H. injection H as <-.
  apply stripPrefix_Some in E. apply (f_equal (@rev N)) in E.
  now rewrite rev_involutive, rev_app_distr, rev_involutive in E.
Qed.

Lemma isInfix_refl (s : jsstring) : isInfix s s.
Proof. exists [], []. now rewrite app_nil_r. Qed.

Lemma isInfix_trans (a b c : jsstring) :
  isInfix a b -> isInfix b c -> isInfix a c.
Proof.
  intros (l & r & ->) (l' & r' & ->). exists (l' ++ l), (r ++ r').
  now rewrite <- !app_assoc.
Qed.

Lemma isInfix_suffix (a b : jsstring) : isInfix b (a ++ b).
Proof. exists a, []. now rewrite app_nil_r. Qed.

Lemma isInfix_prefix (a b : jsstring) : isInfix a (a ++ b).
Proof. now exists [], b. Qed.

Lemma isInfix_dropWhile (s : jsstring) : isInfix (dropWhile isWhiteSpace s) s.
Proof.
  destruct (dropWhile_split isWhiteSpace s) as (w & E & _).
  rewrite E at 2. apply isInfix_suffix.
Qed.

Lemma isInfix_dropWhileEnd (s : jsstring) :
  isInfix (dropWhileEnd isWhiteSpace s) s.
Proof.
  destruct (dropWhileEnd_split isWhiteSpace s) as (w & E & _).
  rewrite E at 2. apply isInfix_prefix.
Qed.

Lemma replace_leading_spec (p s : jsstring) :
  isInfix (replace_leading p s) s
  /\ (starts_clean s -> ends_clean s ->
      starts_clean (replace_leading p s) /\ ends_clean (replace_leading p s)).
Proof.
  unfold replace_leading.
  destruct (stripPrefix p s) as [r|] eqn:E.
  - apply stripPrefix_Some in E. subst s. split.
    + eapply isInfix_trans; [apply isInfix_dropWhile|apply isInfix_suffix].
    + intros _ He. split; [apply starts_clean_dropWhile|].
      apply ends_clean_dropWhile. now apply ends_clean_suffix in He.
  - split; [apply isInfix_refl|auto].
Qed.

Lemma replace_trailing_fence_spec (s : jsstring) :
  isInfix (replace_trailing_fence s) s
  /\ (starts_clean s -> ends_clean s ->
      starts_clean (replace_trailing_fence s)
      /\ ends_clean (replace_trailing_fence s)).
Proof.
  unfold replace_trailing_fence.
  destruct (stripSuffix (str "```") s) as [r|] eqn:E.
  - apply stripSuffix_Some in E. subst s. split.
    + eapply isInfix_trans; [apply isInfix_dropWhileEnd|apply isInfix_prefix].
    + intros Hs _. split; [|apply ends_clean_dropWhileEnd].
      apply starts_clean_dropWhileEnd. now apply starts_clean_prefix in Hs.
  - split; [apply isInfix_refl|auto].
Qed.

(** X14. For every text, what [cleanJson] returns is a contiguous piece of
    that text, so no character is invented or reordered, and it neither
    starts nor ends with white space: trimming it again changes nothing. *)
Theorem cleanJson_is_a_trimmed_piece (text : jsstring) :
  isInfix (cleanJson text) text
  /\ trim (cleanJson text) = cleanJson text.
Proof.
  assert (Ht : isInfix (trim text) text).
  { unfold trim. eapply isInfix_trans;
      [apply isInfix_dropWhileEnd|apply isInfix_dropWhile]. }
  destruct (trim_clean text) as [Hs He].
  assert (H : forall p,
             isInfix (replace_trailing_fence (replace_leading p (trim text))) text
             /\ trim (replace_trailing_fence (replace_leading p (trim text)))
                = replace_trailing_fence (replace_leading p (trim text))).
  { intros p.
    destruct (replace_leading_spec p (trim text)) as [I1 C1].
    destruct (C1 Hs He) as [Hs1 He1].
    destruct (replace_trailing_fence_spec (replace_leading p (trim text)))
      as [I2 C2].
    destruct (C2 Hs1 He1) as [Hs2 He2].
    split; [|now apply trim_fixed].
    eapply isInfix_trans; [exact I2|].
    eapply isInfix_trans; [exact I1|exact Ht]. }
  unfold cleanJson. cbv zeta.
  destruct (startsWith (str "```json") (trim text)); [apply H|].
  destruct (startsWith (str "```") (trim text)); [apply H|].
  split; [exact Ht|now apply trim_fixed].
Qed.

Lemma dropWhileEnd_keeps_head (c : N) (s : jsstring) :
  isWhiteSpace c = false ->
  exists s', dropWhileEnd isWhiteSpace (c :: s) = c :: s'.
Proof.
  intros Hc. destruct (dropWhileEnd_split isWhiteSpace (c :: s)) as (w & E & Hw).
  destruct (dropWhileEnd isWhiteSpace (c :: s)) as [|c' s'].
  - simpl in E. subst w. inversion Hw; congruence.
  - injection E as <- _. now exists s'.
Qed.

(** X15. A fence whose language tag is not the lowercase json (neither
    starts with it nor is the beginning of it) and does not start like a
    JSON value loses only its backticks: the tag stays at the front of the
    cleaned text, which [JSON.parse] then rejects, whatever the fence
    holds. *)
Theorem other_tag_is_not_removed (tag w1 x w2 : jsstring) (c : N) (t : jsstring) :
  tag = c :: t -> isWhiteSpace c = false -> default_step c = None ->
  startsWith (str "json") tag = false -> startsWith tag (str "json") = false ->
  (exists rest, cleanJson (fenced (str "```" ++ tag) w1 x w2) = c :: rest)
  /\ JSON_parse (cleanJson (fenced (str "```" ++ tag) w1 x w2)) = None.
Proof.
  intros -> Hc Hd Hj Hj'.
  assert (E : exists rest,
             cleanJson (fenced (str "```" ++ c :: t) w1 x w2) = c :: rest).
  { unfold cleanJson. cbv zeta.
    replace (trim (fenced (str "```" ++ c :: t) w1 x w2))
      with (fenced (str "```" ++ c :: t) w1 x w2)
      by (symmetry; exact (trim_fenced (str "``" ++ c :: t) w1 x w2)).
    replace (startsWith (str "```json") (fenced (str "```" ++ c :: t) w1 x w2))
      with false.
    2: { unfold fenced. rewrite <- app_assoc.
         change (str "```json") with (str "```" ++ str "json").
         rewrite startsWith_common. symmetry.
         destruct (startsWith (str "json")
                     ((c :: t) ++ w1 ++ x ++ w2 ++ str "```")) eqn:E;
           [|reflexivity].
         apply startsWith_app_cases in E. destruct E; congruence. }
    replace (startsWith (str "```") (fenced (str "```" ++ c :: t) w1 x w2))
      with true
      by (unfold fenced; rewrite <- app_assoc; now rewrite startsWith_app).
    unfold replace_leading, fenced. rewrite <- app_assoc, stripPrefix_app.
    cbn [app]. rewrite (dropWhile_stop _ _ _ Hc).
    unfold replace_trailing_fence.
    replace (c :: t ++ w1 ++ x ++ w2 ++ str "```")
      with ((c :: t ++ w1 ++ x ++ w2) ++ str "```")
      by (cbn [app]; now rewrite <- !app_assoc).
    rewrite stripSuffix_app. now apply dropWhileEnd_keeps_head. }
  split; [exact E|].
  destruct E as [rest ->]. unfold JSON_parse, lex. simpl. now rewrite Hd.
Qed.

Lemma other_tag_is_not_removed_witness :
  JSON_parse (cleanJson (str "```JSON" ++ nl ++ sampleReply ++ nl ++ str "```"))
  = None.
Proof.
  apply (proj2 (@other_tag_is_not_removed (str "JSON") nl sampleReply nl
                  74%N (str "SON") eq_refl eq_refl eq_refl eq_refl eq_refl)).
Defined.

(* ===================================================================== *)
(** * More about [handleAnalyze] *)
(* ===================================================================== *)

Lemma normalize_trends_nonempty (env : Env) (parsed v : value) :
  normalize env TREND_HUNTER parsed = inr v -> exists x l, v = JArr (x :: l).
Proof.
  assert (Hf : (if truthy_opt (prop parsed (str "trend"))
                 || truthy_opt (prop parsed (str "contentIdea"))
                 || truthy_opt (prop parsed (str "headline"))
              then inr (JArr [synthesized parsed])
              else inl (Error NO_TRENDS_MESSAGE)) = inr v ->
             exists x l, v = JArr (x :: l)).
  { destruct (_ || _); [|discriminate].
    intros H. injection H as <-. eauto. }
  unfold normalize. destruct parsed; try discriminate; cbv zeta;
    (destruct (prop _ (str "trends")) as [t|]; [|now apply Hf]);
    (destruct (truthy t && isArray t && length_positive t) eqn:E;
     [|now apply Hf]);
    intros H; injection H as <-;
    apply andb_true_iff in E as [Ea E];
    apply andb_true_iff in Ea as [_ Ea];
    destruct t as [| | |s|[|x l]|]; try discriminate Ea; try discriminate E;
    eauto.
Qed.

(** X16. In Trend Hunter mode, whatever [analyzeContent] returns is a
    non-empty array. *)
Theorem trend_hunter_returns_nonempty_array (env : Env) (files : list File)
    (platform : Platform) (cfg : Config) (key : jsstring) (h h' : history)
    (v : value) :
  analyzeContent env files TREND_HUNTER platform cfg key h = (Ok v, h') ->
  exists x l, v = JArr (x :: l).
Proof.
  unfold analyzeContent, try_catch.
  match goal with |- context [match ?body h with _ => _ end] =>
    destruct (body h) as [[v0|e0] h0] eqn:E end.
  2: { unfold bind, emit, throw. discriminate. }
  intros H. injection H as -> ->.
  destruct (negb (nonempty key)); [discriminate|].
  apply bind_Ok in E as (prompt & h1 & _ & E).
  apply bind_Ok in E as (ps & h2 & _ & E).
  unfold callAndNormalize, try_catch in E.
  match type of E with context [match ?body h2 with _ => _ end] =>
    destruct (body h2) as [[v1|e1] h3] eqn:E1 end.
  2: { destruct (is_string _ _); discriminate. }
  injection E as -> ->.
  apply bind_Ok in E1 as (reply & h4 & _ & E1).
  destruct reply as [[|c text]|]; try discriminate.
  destruct (JSON_parse (cleanJson (c :: text))) as [parsed|]; [|discriminate].
  unfold lift in E1.
  destruct (normalize env TREND_HUNTER parsed) as [e|r] eqn:En; [discriminate|].
  unfold ret in E1. injection E1 as <- _.
  exact (normalize_trends_nonempty _ _ En).
Qed.

Lemma trend_hunter_returns_nonempty_array_witness :
  exists x l,
    JArr [JObj [ (str "headline", DEFAULT_HEADLINE);
                 (str "whyItsHot", DEFAULT_WHY);
                 (str "contentIdea", JStr (str "Film it")) ]]
    = JArr (x :: l).
Proof.
  apply (@trend_hunter_returns_nonempty_array
           (replying (str "{" ++ quoted (str "contentIdea") ++ str ":"
                      ++ quoted (str "Film it") ++ str "}"))
           [] (str "Instagram") (withNiche (str "Vegan Cooking") emptyConfig)
           (str "key") []
           [EvGenerate
              (requestFor TREND_HUNTER
                 (withNiche (str "Vegan Cooking") emptyConfig)
                 [TextPart (MODE_PROMPTS.TREND_HUNTER (str "Vegan Cooking")
                              (str "November 2026"))])]).
  vm_compute. reflexivity.
Defined.

Section Settles.

Variable env : Env.

Lemma truthy_nullable (v : value) : truthy_opt (nullable v) = truthy v.
Proof. now destruct v. Qed.

Lemma runAnalysis_settles (mode : AppMode) (platform : Platform)
    (filesToAnalyze : list File) (cfg : Config) (key : jsstring)
    (s : PageState) (h : history) :
  error s = None -> analysisResult s = None -> trendResults s = None ->
  exists s' h',
    runAnalysis env mode platform filesToAnalyze cfg key s h = (Ok s', h')
    /\ isAnalyzing s' = false
    /\ ((exists v, mode <> TREND_HUNTER
                   /\ analyzeContent env filesToAnalyze mode platform cfg key h
                      = (Ok v, h')
                   /\ analysisResult s' = nullable v
                   /\ error s' = None /\ trendResults s' = None)
        \/ (exists x l, trendResults s' = Some (JArr (x :: l))
                        /\ mode = TREND_HUNTER
                        /\ error s' = None /\ analysisResult s' = None)
        \/ ((error s' = Some TOO_LARGE_MESSAGE
             \/ error s' = Some TIMED_OUT_MESSAGE
             \/ error s' = Some CONNECTION_FAILED_MESSAGE)
            /\ analysisResult s' = None /\ trendResults s' = None)).
Proof.
  intros He Hr Ht. unfold runAnalysis, try_catch.
  unfold bind at 1. unfold bind at 1.
  destruct (analyzeContent env filesToAnalyze mode platform cfg key h)
    as [[data|e] h1] eqn:E.
  - destruct mode.
    1-3: (eexists _, _; split; [reflexivity|]; split; [reflexivity|];
          left; exists data; split; [discriminate|]; split; [reflexivity|];
          split; [reflexivity|]; split; [exact He|exact Ht]).
    destruct (trend_hunter_returns_nonempty_array _ _ _ _ _ _ E)
      as (x & l & ->).
    eexists _, _. split; [reflexivity|]. split; [reflexivity|].
    right. left. exists x, l. repeat split; [exact He|exact Hr].
  - destruct (analyzeContent_throws _ _ _ _ _ _ _ E) as [->|[->| ->]];
      (eexists _, _; split; [reflexivity|]; split; [reflexivity|];
       right; right; split; [|split; [exact Hr|exact Ht]]).
    + now left.
    + right. now left.
    + right. now right.
Qed.

(** X17. [handleAnalyze] never throws, and once the checks of the mode
    have passed it always ends with the spinner off and in exactly one of
    four ways: the size message; outside Trend Hunter, the value that
    [analyzeContent] returned stored as the result; in Trend Hunter, a
    non-empty list of trends; or one of the three messages of the service.
    A stored [null] is the state without a result, and the page shows the
    result only when it is truthy: after a reply that is [null], [false],
    [0] or the empty string the page has no result to show, no trends and
    no message.  The handler's own message for an empty list of trends
    can never be shown. *)
Theorem handleAnalyze_settles (mode : AppMode) (platform : Platform)
    (files : list FileInput) (cfg : Config) (key : jsstring)
    (s : PageState) (h : history) :
  exists s' h',
    handleAnalyze env mode platform files cfg key s h = (Ok s', h')
    /\ error s' <> Some NO_TRENDS_FOR_NICHE
    /\ (modeValidation mode files cfg = None ->
        isAnalyzing s' = false
        /\ ((exists v, mode <> TREND_HUNTER
                       /\ analyzeContent env (map file files) mode platform
                            cfg key h = (Ok v, h')
                       /\ analysisResult s' = nullable v
                       /\ truthy_opt (analysisResult s') = truthy v
                       /\ error s' = None /\ trendResults s' = None)
            \/ (exists x l, trendResults s' = Some (JArr (x :: l))
                            /\ mode = TREND_HUNTER
                            /\ error s' = None /\ analysisResult s' = None)
            \/ ((error s' = Some TOTAL_SIZE_MESSAGE
                 \/ error s' = Some TOO_LARGE_MESSAGE
                 \/ error s' = Some TIMED_OUT_MESSAGE
                 \/ error s' = Some CONNECTION_FAILED_MESSAGE)
                /\ analysisResult s' = None /\ trendResults s' = None))).
Proof.
  unfold handleAnalyze.
  destruct (modeValidation mode files cfg) as [msg|] eqn:Hv.
  - eexists _, _. split; [reflexivity|]. split; [|discriminate].
    simpl. intros H. injection H as ->.
    revert Hv. unfold modeValidation.
    destruct mode, files; try destruct (truthy_field _);
      intros Hv; try discriminate Hv; injection Hv as Hv;
      vm_compute in Hv; discriminate Hv.
  - cbv zeta. destruct (N.ltb MAX_TOTAL_SIZE (totalSize (map file files))).
    + eexists _, _. split; [reflexivity|]. split.
      * simpl. intros H. vm_compute in H. discriminate H.
      * intros _. split; [reflexivity|]. right. right.
        split; [now left|split; reflexivity].
    + destruct (runAnalysis_settles mode platform (map file files) cfg key
                  (startAnalysis s) h eq_refl eq_refl eq_refl)
        as (s' & h' & E & Hoff & Hcases).
      exists s', h'. split; [exact E|]. split.
      * destruct Hcases as [(v & _ & _ & _ & He & _)
                           |[(x & l & _ & _ & He & _)|[He _]]];
          try (rewrite He; discriminate).
        destruct He as [He|[He|He]]; rewrite He;
          intros H; vm_compute in H; discriminate H.
      * intros _. split; [exact Hoff|].
        destruct Hcases as [(v & Hm & Ha & Hr & He & Ht)|[H|[He Hrest]]].
        -- left. exists v. split; [exact Hm|]. split; [exact Ha|].
           split; [exact Hr|]. split; [|split; [exact He|exact Ht]].
           rewrite Hr. apply truthy_nullable.
        -- right; now left.
        -- right. right. split; [|exact Hrest]. tauto.
Qed.

End Settles.

Lemma handleAnalyze_settles_witness :
  exists s' h',
    handleAnalyze (replying (str "null")) REFINE (str "Instagram") []
      {| goal := None; style := None; keywords := None;
         originalText := Some (str "Draft"); geography := None;
         targetAudience := None; targetLanguage := None; demographics := None;
         enableLiveTrends := None; brandGuidelines := None; niche := None |}
      (str "key") idlePage [] = (Ok s', h')
    /\ isAnalyzing s' = false
    /\ analysisResult s' = None
    /\ trendResults s' = None
    /\ error s' = None.
Proof.
  destruct (handleAnalyze_settles (replying (str "null")) REFINE
              (str "Instagram") []
              {| goal := None; style := None; keywords := None;
                 originalText := Some (str "Draft"); geography := None;
                 targetAudience := None; targetLanguage := None;
                 demographics := None; enableLiveTrends := None;
                 brandGuidelines := None; niche := None |}
              (str "key") idlePage [])
    as (s' & h' & E & _ & H).
  exists s', h'. split; [exact E|].
  destruct (H eq_refl) as [Hoff _]. split; [exact Hoff|].
  vm_compute in E. injection E as <- _. repeat split.
Defined.

(* ===================================================================== *)
(** * The API key gate *)
(* ===================================================================== *)

Lemma pageLoad_spec (envKey stored : option jsstring) :
  pageLoad envKey stored
  = match usableEnvKey envKey with
    | Some k => openGate k (freshPage stored)
    | None =>
        match stored with
        | Some k =>
            if startsWith (str "AIza") k then openGate k (freshPage stored)
            else freshPage stored
        | None => freshPage stored
        end
    end.
Proof.
  unfold pageLoad, mountEffect, usableEnvKey.
  destruct envKey as [[|c k]|]; try reflexivity.
  destruct (includes (c :: k) (str "VITE_")); reflexivity.
Qed.

Lemma startsWith_nonempty (p s : jsstring) :
  p <> [] -> startsWith p s = true -> s <> [].
Proof. intros Hp H ->. destruct p; [contradiction|discriminate]. Qed.

(** X18. A key that [handleSaveKey] accepts is stored, opens the gate,
    and opens it again after a reload of the page, unless a usable
    environment key takes its place; a key that does not start with AIza
    changes nothing and is not stored. *)
Theorem saved_key_survives_reload (envKey : option jsstring) (s : KeyState) :
  (startsWith (str "AIza") (tempKey s) = true ->
     snd (handleSaveKey s) = None
     /\ apiKey (fst (handleSaveKey s)) = tempKey s
     /\ showGatekeeper (fst (handleSaveKey s)) = false
     /\ showGatekeeper (keyStep envKey (fst (handleSaveKey s)) Reload) = false
     /\ apiKey (keyStep envKey (fst (handleSaveKey s)) Reload)
        = match usableEnvKey envKey with
          | Some k => k
          | None => tempKey s
          end)
  /\ (startsWith (str "AIza") (tempKey s) = false ->
      fst (handleSaveKey s) = s /\ snd (handleSaveKey s) <> None).
Proof.
  unfold handleSaveKey. split; intros H; rewrite H; simpl.
  - repeat split; rewrite pageLoad_spec;
      destruct (usableEnvKey envKey); try reflexivity;
      rewrite H; reflexivity.
  - split; [reflexivity|discriminate].
Qed.

Lemma saved_key_survives_reload_witness :
  apiKey (keyStep (Some (str "VITE_API_KEY"))
            (fst (handleSaveKey (setTempKey (str "AIzaSyExample") (freshPage None))))
            Reload)
  = str "AIzaSyExample".
Proof.
  apply (proj1 (saved_key_survives_reload (Some (str "VITE_API_KEY"))
                  (setTempKey (str "AIzaSyExample") (freshPage None)))).
  reflexivity.
Defined.

(** X19. Whatever the user does (typing, saving, changing the key,
    reloading), the gate is only ever open with a key that is not empty:
    the usable environment key, or a key that starts with AIza.  The
    application behind the gate is never shown with an empty key. *)
Theorem open_gate_has_a_key (envKey stored : option jsstring)
    (actions : list keyAction) :
  let s := fold_left (keyStep envKey) actions (pageLoad envKey stored) in
  showGatekeeper s = false ->
  apiKey s <> []
  /\ (usableEnvKey envKey = Some (apiKey s)
      \/ startsWith (str "AIza") (apiKey s) = true).
Proof.
  set (good := fun s : KeyState =>
         showGatekeeper s = false ->
         apiKey s <> []
         /\ (usableEnvKey envKey = Some (apiKey s)
             \/ startsWith (str "AIza") (apiKey s) = true)).
  assert (Hload : forall st, good (pageLoad envKey st)).
  { intros st. unfold good. rewrite pageLoad_spec.
    destruct (usableEnvKey envKey) as [k|] eqn:Hu.
    - intros _. simpl. split; [|now left].
      unfold usableEnvKey in Hu. destruct envKey as [[|c k']|]; try discriminate.
      destruct (includes _ _); [discriminate|]. injection Hu as <-. discriminate.
    - destruct st as [k|]; [|discriminate].
      destruct (startsWith (str "AIza") k) eqn:Hk; [|discriminate].
      intros _. simpl. split; [|now right].
      apply (startsWith_nonempty (p := str "AIza")); [discriminate|exact Hk]. }
  assert (Hstep : forall s a, good s -> good (keyStep envKey s a)).
  { intros s [k| | |] Hs.
    - exact Hs.
    - unfold good, keyStep, handleSaveKey.
      destruct (startsWith (str "AIza") (tempKey s)) eqn:Hk; simpl.
      + intros _. split; [|now right].
        apply (startsWith_nonempty (p := str "AIza")); [discriminate|exact Hk].
      + exact Hs.
    - unfold good. simpl. discriminate.
    - apply Hload. }
  cbv zeta. change (good (fold_left (keyStep envKey) actions
                            (pageLoad envKey stored))).
  generalize (Hload stored). generalize (pageLoad envKey stored).
  induction actions as [|a actions IH]; intros s Hs; simpl; [exact Hs|].
  apply IH. now apply Hstep.
Qed.

Lemma open_gate_has_a_key_witness :
  apiKey (fold_left (keyStep None)
            [TypeKey (str "AIzaSyExample"); SaveKey; ChangeKey;
             TypeKey (str "wrong"); SaveKey; TypeKey (str "AIzaOther"); SaveKey;
             Reload]
            (pageLoad None (Some (str "stale")))) <> [].
Proof.
  apply (@open_gate_has_a_key None (Some (str "stale"))
           [TypeKey (str "AIzaSyExample"); SaveKey; ChangeKey;
            TypeKey (str "wrong"); SaveKey; TypeKey (str "AIzaOther"); SaveKey;
            Reload]).
  reflexivity.
Defined.

(** X20. The Change Key button forgets the stored key and closes the
    gate; after a reload the gate stays closed with an empty key, unless
    an environment key is usable, in which case the gate opens again with
    that key. *)
Theorem change_key_then_reload (envKey : option jsstring) (s : KeyState) :
  let s' := keyStep envKey (keyStep envKey s ChangeKey) Reload in
  storedKey s' = None
  /\ match usableEnvKey envKey with
     | Some k => showGatekeeper s' = false /\ apiKey s' = k
     | None => showGatekeeper s' = true /\ apiKey s' = []
     end.
Proof.
  cbv zeta. simpl. rewrite pageLoad_spec.
  destruct (usableEnvKey envKey); repeat split.
Qed.

(* ===================================================================== *)
(** * Switching modes *)
(* ===================================================================== *)

Section Modes.

Variable env : Env.

(** X21. Right after a switch to Generation or to Competitor Spy the file
    list is empty, so pressing Analyze calls nobody and only shows the
    request to upload content; the earlier results are cleared. *)
Theorem analyze_after_switch_asks_for_files (m : AppMode) (platform : Platform)
    (key : jsstring) (st : AppState) (h : history) :
  m = GENERATION \/ m = COMPETITOR_SPY ->
  exists st',
    pressAnalyze env platform key (selectMode m st) h = (Ok st', h)
    /\ app_files st' = []
    /\ analysisResult (app_page st') = None
    /\ trendResults (app_page st') = None
    /\ error (app_page st')
       = Some (match m with
               | COMPETITOR_SPY => str "Please upload competitor content to analyze."
               | _ => str "Please upload content to analyze."
               end).
Proof.
  intros [-> | ->]; eexists; repeat split.
Qed.

(** X22. A switch to Trend Hunter keeps the files chosen before; when
    they weigh more than 100 MiB together, the hunt is refused with the
    size message and nobody is called, although Trend Hunter would not
    send any file. *)
Theorem lingering_files_block_the_hunt (platform : Platform) (key : jsstring)
    (st : AppState) (h : history) :
  truthy_field (niche (app_config st)) = true ->
  (MAX_TOTAL_SIZE < totalSize (map file (app_files st)))%N ->
  exists st',
    pressAnalyze env platform key (selectMode TREND_HUNTER st) h = (Ok st', h)
    /\ app_files st' = app_files st
    /\ error (app_page st') = Some TOTAL_SIZE_MESSAGE
    /\ isAnalyzing (app_page st') = false.
Proof.
  intros Hn Hbig. apply N.ltb_lt in Hbig.
  unfold pressAnalyze, handleAnalyze, selectMode. simpl.
  rewrite Hn, Hbig. eexists. repeat split.
Qed.

End Modes.

Lemma analyze_after_switch_asks_for_files_witness :
  exists st',
    pressAnalyze (replying sampleReply) (str "Instagram") (str "key")
      (selectMode COMPETITOR_SPY
         (startedApp (fileInputs [5; 6]%N) emptyConfig)) []
    = (Ok st', [])
    /\ app_files st' = []
    /\ analysisResult (app_page st') = None
    /\ trendResults (app_page st') = None
    /\ error (app_page st')
       = Some (str "Please upload competitor content to analyze.").
Proof.
  apply (@analyze_after_switch_asks_for_files (replying sampleReply)
           COMPETITOR_SPY (str "Instagram") (str "key")
           (startedApp (fileInputs [5; 6]%N) emptyConfig) []).
  right. reflexivity.
Defined.

Lemma lingering_files_block_the_hunt_witness :
  exists st',
    pressAnalyze (replying sampleReply) (str "Instagram") (str "key")
      (selectMode TREND_HUNTER
         (startedApp (fileInputs [104857600; 1]%N)
            (withNiche (str "Vegan Cooking") emptyConfig))) []
    = (Ok st', [])
    /\ app_files st' = fileInputs [104857600; 1]%N
    /\ error (app_page st') = Some TOTAL_SIZE_MESSAGE
    /\ isAnalyzing (app_page st') = false.
Proof.
  apply (@lingering_files_block_the_hunt (replying sampleReply)
           (str "Instagram") (str "key")
           (startedApp (fileInputs [104857600; 1]%N)
              (withNiche (str "Vegan Cooking") emptyConfig)) []).
  - reflexivity.
  - vm_compute. reflexivity.
Defined.

(* ===================================================================== *)
(** * The file picker *)
(* ===================================================================== *)

Section PickerFacts.

Variable createObjectURL : uiLog -> File -> jsstring.

Lemma collect_spec (chosen : list File) (newFiles : list FileInput)
    (log : uiLog) :
  map file (fst (collect createObjectURL chosen newFiles log))
  = map file newFiles ++ filter fits chosen
  /\ (exists added, fst (collect createObjectURL chosen newFiles log)
                    = newFiles ++ added)
  /\ exists evs,
       snd (collect createObjectURL chosen newFiles log) = evs ++ log
       /\ List.length evs = List.length chosen
       /\ List.length (filter is_alert evs)
          = List.length (filter (fun f => negb (fits f)) chosen).
Proof.
  revert newFiles log. induction chosen as [|f chosen IH]; intros newFiles log.
  - simpl. rewrite app_nil_r. split; [reflexivity|]. split.
    + exists []. now rewrite app_nil_r.
    + now exists [].
  - assert (Hfit : fits f = negb (N.ltb MAX_FILE_SIZE_BYTES (file_size f)))
      by (unfold fits; apply N.leb_antisym).
    cbn [collect filter List.length]. rewrite Hfit.
    destruct (N.ltb MAX_FILE_SIZE_BYTES (file_size f)); cbn [negb].
    + match goal with
      | |- context [collect _ _ _ (?a :: log)] =>
          destruct (IH newFiles (a :: log)) as (Hm & Ha & evs & Hl & Hn & Hc);
          split; [exact Hm|]; split; [exact Ha|];
          exists (evs ++ [a])
      end.
      rewrite Hl, <- app_assoc. split; [reflexivity|].
      rewrite filter_app, !length_app, Hn, Hc. simpl. split; lia.
    + destruct (IH (newFiles ++ [{| file := f;
                                    previewUrl := createObjectURL log f |}])
                  (CreatedURL f :: log))
        as (Hm & (added & Ha) & evs & Hl & Hn & Hc).
      split; [rewrite Hm, map_app, <- app_assoc; reflexivity|]. split.
      * exists ({| file := f; previewUrl := createObjectURL log f |} :: added).
        rewrite Ha, <- app_assoc. reflexivity.
      * exists (evs ++ [CreatedURL f]).
        rewrite Hl, <- app_assoc. split; [reflexivity|].
        rewrite filter_app, !length_app, Hn, Hc. simpl. split; lia.
Qed.

(** X23. When files are chosen, the picker keeps, in their order, exactly
    the files of at most 10 GiB, after the earlier entries in batch mode
    and in their place otherwise; it shows one alert for each file that
    is too large and creates one preview for each file it keeps. *)
Theorem picker_keeps_the_files_that_fit (multiple : bool)
    (chosen : list File) (files : list FileInput) (log : uiLog) :
  chosen <> [] ->
  let after := handleFileChange createObjectURL multiple (Some chosen) files log in
  map file (fst after)
  = (if multiple then map file files else []) ++ filter fits chosen
  /\ (multiple = true -> exists added, fst after = files ++ added)
  /\ exists evs,
       snd after = evs ++ log
       /\ List.length evs = List.length chosen
       /\ List.length (filter is_alert evs)
          = List.length (filter (fun f => negb (fits f)) chosen).
Proof.
  intros Hne. destruct chosen as [|f chosen]; [contradiction|].
  cbv zeta. unfold handleFileChange.
  destruct (collect_spec (f :: chosen) [] log) as (Hm & _ & Hev).
  destruct (collect createObjectURL (f :: chosen) [] log) as [newFiles log'].
  cbn [map app fst snd] in Hm, Hev. cbn [fst snd].
  split; [|split; [|exact Hev]].
  - destruct multiple; [rewrite map_app|]; now rewrite Hm.
  - intros ->. now exists newFiles.
Qed.

(** X24. Without batch mode, choosing only files that are too large
    empties the selection, whereas choosing nothing leaves it as it is. *)
Theorem oversized_choice_clears_selection (chosen : list File)
    (files : list FileInput) (log : uiLog) :
  (chosen <> [] -> forallb (fun f => negb (fits f)) chosen = true ->
     fst (handleFileChange createObjectURL false (Some chosen) files log) = [])
  /\ handleFileChange createObjectURL false (Some []) files log = (files, log)
  /\ handleFileChange createObjectURL false None files log = (files, log).
Proof.
  split; [|split; reflexivity].
  intros Hne Hall.
  destruct (picker_keeps_the_files_that_fit false files log Hne) as (Hm & _).
  cbv zeta in Hm. cbn [app] in Hm.
  assert (Hf : filter fits chosen = []).
  { clear Hm Hne. induction chosen as [|f chosen IH]; [reflexivity|].
    simpl in *. apply andb_true_iff in Hall as [Hf Hall].
    apply negb_true_iff in Hf. rewrite Hf. now apply IH. }
  rewrite Hf in Hm.
  now destruct (fst (handleFileChange createObjectURL false (Some chosen)
                       files log)).
Qed.

(** X25. In batch mode, adding one file that fits and then removing the
    last entry gives back the list of entries, and the URL that is revoked
    is the preview URL that was created for the file. *)
Theorem add_then_remove_restores (f : File) (files : list FileInput)
    (log : uiLog) :
  fits f = true ->
  let (files', log') :=
    handleFileChange createObjectURL true (Some [f]) files log in
  files' = files ++ [entry f (createObjectURL log f)]
  /\ removeFile (List.length files) files' log'
     = Some (files, [RevokedURL (createObjectURL log f); CreatedURL f] ++ log).
Proof.
  intros Hf. unfold fits in Hf. apply N.leb_le in Hf.
  unfold handleFileChange. simpl.
  replace (N.ltb MAX_FILE_SIZE_BYTES (file_size f)) with false
    by (symmetry; apply N.ltb_ge; exact Hf).
  simpl. split; [reflexivity|].
  unfold removeFile.
  rewrite nth_error_app2 by lia. rewrite Nat.sub_diag.
  cbn [nth_error previewUrl].
  rewrite skipn_all2 by (rewrite length_app; simpl; lia).
  rewrite firstn_app, Nat.sub_diag, firstn_all. cbn [firstn].
  now rewrite !app_nil_r.
Qed.

(** X26. [removeFile] at a position of the list removes the entry at that
    position and no other, keeps the order of the rest, and revokes the
    preview URL of the removed entry; at a position past the end it
    throws, changing nothing. *)
Theorem removeFile_removes_one (index : nat) (files : list FileInput)
    (log : uiLog) :
  ((index < List.length files)%nat ->
     exists removed files',
       nth_error files index = Some removed
       /\ removeFile index files log
          = Some (files', RevokedURL (previewUrl removed) :: log)
       /\ S (List.length files') = List.length files
       /\ forall j,
            nth_error files' j
            = if Nat.ltb j index then nth_error files j
              else nth_error files (S j))
  /\ ((List.length files <= index)%nat -> removeFile index files log = None).
Proof.
  unfold removeFile. split; intros H.
  - destruct (nth_error files index) as [removed|] eqn:E.
    2: { apply nth_error_None in E. lia. }
    exists removed, (firstn index files ++ skipn (S index) files).
    split; [reflexivity|]. split; [reflexivity|]. split.
    + rewrite length_app, length_firstn, length_skipn. lia.
    + intros j. destruct (Nat.ltb_spec j index) as [Hj|Hj].
      * rewrite nth_error_app1 by (rewrite length_firstn; lia).
        rewrite nth_error_firstn.
        destruct (Nat.ltb_spec j index); [reflexivity|lia].
      * rewrite nth_error_app2 by (rewrite length_firstn; lia).
        rewrite length_firstn, nth_error_skipn.
        f_equal. lia.
  - apply nth_error_None in H. now rewrite H.
Qed.

End PickerFacts.

Lemma picker_keeps_the_files_that_fit_witness :
  map file
    (fst (handleFileChange numberedURL true
            (Some [sampleFile 5; sampleFile 10737418241; sampleFile 10737418240])
            (fileInputs [7]%N) []))
  = map file (fileInputs [7]%N)
    ++ filter fits [sampleFile 5; sampleFile 10737418241; sampleFile 10737418240].
Proof.
  apply (@picker_keeps_the_files_that_fit numberedURL true
           [sampleFile 5; sampleFile 10737418241; sampleFile 10737418240]
           (fileInputs [7]%N) []).
  discriminate.
Defined.

Lemma oversized_choice_clears_selection_witness :
  fst (handleFileChange numberedURL false (Some [sampleFile 10737418241])
         (fileInputs [7]%N) []) = [].
Proof.
  apply (proj1 (@oversized_choice_clears_selection numberedURL
                  [sampleFile 10737418241] (fileInputs [7]%N) [])).
  - discriminate.
  - reflexivity.
Defined.

Lemma add_then_remove_restores_witness :
  removeFile 1
    (fst (handleFileChange numberedURL true (Some [sampleFile 5])
            (fileInputs [7]%N) []))
    (snd (handleFileChange numberedURL true (Some [sampleFile 5])
            (fileInputs [7]%N) []))
  = Some (fileInputs [7]%N, [RevokedURL (str "blob:0"); CreatedURL (sampleFile 5)]).
Proof.
  apply (@add_then_remove_restores numberedURL (sampleFile 5)
           (fileInputs [7]%N) []).
  reflexivity.
Defined.

Lemma removeFile_removes_one_witness :
  removeFile 3 (fileInputs [7; 8; 9]%N) [] = None
  /\ exists removed files',
       nth_error (fileInputs [7; 8; 9]%N) 1 = Some removed
       /\ removeFile 1 (fileInputs [7; 8; 9]%N) []
          = Some (files', [RevokedURL (previewUrl removed)])
       /\ S (List.length files') = 3%nat
       /\ forall j,
            nth_error files' j
            = if Nat.ltb j 1 then nth_error (fileInputs [7; 8; 9]%N) j
              else nth_error (fileInputs [7; 8; 9]%N) (S j).
Proof.
  split.
  - apply (proj2 (removeFile_removes_one 3 (fileInputs [7; 8; 9]%N) [])).
    simpl. lia.
  - apply (proj1 (removeFile_removes_one 1 (fileInputs [7; 8; 9]%N) [])).
    simpl. lia.
Defined.

(* ===================================================================== *)
(** * The picker and the size check together *)
(* ===================================================================== *)

Lemma fold_size_shift (fs : list File) (a : N) :
  fold_left (fun sum f => (sum + file_size f)%N) fs a
  = (a + totalSize fs)%N.
Proof.
  unfold totalSize. revert a. induction fs as [|f fs IH]; intros a; simpl.
  - lia.
  - rewrite IH, (IH (file_size f)). lia.
Qed.

Lemma totalSize_app (a b : list File) :
  totalSize (a ++ b) = (totalSize a + totalSize b)%N.
Proof.
  unfold totalSize at 1. rewrite fold_left_app.
  fold (totalSize a). apply fold_size_shift.
Qed.

(** X27. The picker accepts files up to 10 GiB, but the analysis refuses
    more than 100 MiB in total: a file above 100 MiB that the picker has
    accepted makes Generation and Competitor Spy stop at the size check,
    with the size message and without calling anybody. *)
Theorem accepted_large_file_is_refused (env : Env)
    (createObjectURL : uiLog -> File -> jsstring) (multiple : bool)
    (f : File) (files : list FileInput) (log : uiLog) (mode : AppMode)
    (platform : Platform) (cfg : Config) (key : jsstring) (s : PageState)
    (h : history) :
  fits f = true -> (MAX_TOTAL_SIZE < file_size f)%N ->
  mode = GENERATION \/ mode = COMPETITOR_SPY ->
  let files' :=
    fst (handleFileChange createObjectURL multiple (Some [f]) files log) in
  In f (map file files')
  /\ handleAnalyze env mode platform files' cfg key s h
     = (Ok (setIsAnalyzing false
              (setError (Some TOTAL_SIZE_MESSAGE) (startAnalysis s))), h).
Proof.
  intros Hf Hbig Hmode. unfold fits in Hf. apply N.leb_le in Hf.
  cbv zeta. unfold handleFileChange. cbn [collect].
  replace (N.ltb MAX_FILE_SIZE_BYTES (file_size f)) with false
    by (symmetry; apply N.ltb_ge; exact Hf).
  cbn [app fst].
  set (e := {| file := f; previewUrl := createObjectURL log f |}).
  assert (Hin : In f (map file (if multiple then files ++ [e] else [e]))).
  { destruct multiple; [rewrite map_app; apply in_or_app; right|]; now left. }
  split; [exact Hin|].
  assert (Hne : exists x l, (if multiple then files ++ [e] else [e]) = x :: l).
  { destruct multiple; [|eauto]. destruct files; simpl; eauto. }
  assert (Hsize : N.ltb MAX_TOTAL_SIZE
                    (totalSize (map file (if multiple then files ++ [e] else [e])))
                  = true).
  { apply N.ltb_lt. destruct multiple.
    - rewrite map_app, totalSize_app. simpl map.
      unfold totalSize at 2. simpl. lia.
    - unfold totalSize. simpl. lia. }
  destruct Hne as (x & l & Hx).
  unfold handleAnalyze.
  replace (modeValidation mode (if multiple then files ++ [e] else [e]) cfg)
    with (@None jsstring)
    by (rewrite Hx; destruct Hmode as [-> | ->]; reflexivity).
  cbv zeta. now rewrite Hsize.
Qed.

Lemma accepted_large_file_is_refused_witness :
  handleAnalyze (replying sampleReply) GENERATION (str "Instagram")
    (fst (handleFileChange numberedURL false (Some [sampleFile 209715200])
            [] []))
    emptyConfig (str "key") idlePage []
  = (Ok (setIsAnalyzing false
           (setError (Some TOTAL_SIZE_MESSAGE) (startAnalysis idlePage))), []).
Proof.
  apply (@accepted_large_file_is_refused (replying sampleReply) numberedURL
           false (sampleFile 209715200) [] [] GENERATION (str "Instagram")
           emptyConfig (str "key") idlePage []).
  - reflexivity.
  - vm_compute. reflexivity.
  - left. reflexivity.
Defined.
